(** * Finnhub gateway: the interactive server (app.py) and the
      tool-invocation server (finnhub_mcp_server/__init__.py)

    A shallow embedding of the five lookup operations of both front ends,
    with the fragments of the Python runtime they rely on (values decoded
    from JSON, truth testing, string methods, [json.dumps], [datetime],
    [requests]), followed by the properties of the operations.

    Text is modelled on the ASCII range: a [str] is a [string] of 8-bit
    characters, and case mapping and whitespace are Python's on code points
    below 128.  Characters from 128 upwards are carried along unchanged, so a
    property that depends on what [upper], [lower] or [strip] compute is
    stated for ASCII text. *)

From Stdlib Require Import ZArith NArith List String Ascii Bool Lia DecimalString.
Import ListNotations.

Set Warnings "-register-all".

Local Open Scope string_scope.
Local Open Scope Z_scope.

(** ** Python values and exceptions *)

Module Py.

(** An exception (an instance of a subclass of [Exception]): its class
    name and the text [str(e)] gives. *)
Record exn := MkExn { exn_class : string; exn_msg : string }.

(** The result of evaluating something that may raise. *)
Inductive res (A : Type) :=
| Ok (a : A)
| Raise (e : exn).
Arguments Ok {A} a.
Arguments Raise {A} e.

(** What [json.loads] builds, which is also what [json.dumps] consumes.  A
    float is identified with the text [repr] gives for it (the code only
    truth-tests and prints floats); a dict is its list of items in insertion
    order. *)
Inductive pyval :=
| PyNone
| PyBool (b : bool)
| PyInt (n : Z)
| PyFloat (repr : string)
| PyStr (s : string)
| PyList (l : list pyval)
| PyDict (d : list (string * pyval)).

Definition str_nonempty (s : string) : bool :=
  match s with EmptyString => false | String _ _ => true end.

(** [bool(v)], the test behind [if v] and [not v]. *)
Definition truthy (v : pyval) : bool :=
  match v with
  | PyNone => false
  | PyBool b => b
  | PyInt n => negb (n =? 0)
  | PyFloat r => negb (String.eqb r "0.0" || String.eqb r "-0.0")
  | PyStr s => str_nonempty s
  | PyList l => match l with [] => false | _ :: _ => true end
  | PyDict d => match d with [] => false | _ :: _ => true end
  end.

(** [type(v).__name__] *)
Definition type_name (v : pyval) : string :=
  match v with
  | PyNone => "NoneType"
  | PyBool _ => "bool"
  | PyInt _ => "int"
  | PyFloat _ => "float"
  | PyStr _ => "str"
  | PyList _ => "list"
  | PyDict _ => "dict"
  end.

Definition AttributeError (v : pyval) (attr : string) : exn :=
  MkExn "AttributeError"
        ("'" ++ type_name v ++ "' object has no attribute '" ++ attr ++ "'").

Definition TypeError (msg : string) : exn := MkExn "TypeError" msg.

(** *** Strings *)

Definition is_ascii_lower (c : ascii) : bool :=
  let n := N_of_ascii c in (97 <=? n)%N && (n <=? 122)%N.

Definition is_ascii_upper (c : ascii) : bool :=
  let n := N_of_ascii c in (65 <=? n)%N && (n <=? 90)%N.

Definition upper_char (c : ascii) : ascii :=
  if is_ascii_lower c then ascii_of_N (N_of_ascii c - 32) else c.

Definition lower_char (c : ascii) : ascii :=
  if is_ascii_upper c then ascii_of_N (N_of_ascii c + 32) else c.

Fixpoint str_map (f : ascii -> ascii) (s : string) : string :=
  match s with
  | EmptyString => EmptyString
  | String c s' => String (f c) (str_map f s')
  end.

(** [s.upper()] and [s.lower()] *)
Definition upper (s : string) : string := str_map upper_char s.
Definition lower (s : string) : string := str_map lower_char s.

(** [c.isspace()] below 128: TAB, LF, VT, FF, CR, FS, GS, RS, US, space.
    Python's [str.strip()] also removes the blanks beyond ASCII (U+0085,
    U+00A0 and the Unicode spaces), which this model of text does not hold:
    what is proved of [strip] speaks of Python's on ASCII text. *)
Definition is_space (c : ascii) : bool :=
  let n := N_of_ascii c in
  ((9 <=? n)%N && (n <=? 13)%N) || ((28 <=? n)%N && (n <=? 32)%N).

Fixpoint lstrip (s : string) : string :=
  match s with
  | EmptyString => EmptyString
  | String c s' => if is_space c then lstrip s' else s
  end.

Fixpoint str_rev_onto (s acc : string) : string :=
  match s with
  | EmptyString => acc
  | String c s' => str_rev_onto s' (String c acc)
  end.

Definition str_rev (s : string) : string := str_rev_onto s EmptyString.

Definition rstrip (s : string) : string := str_rev (lstrip (str_rev s)).

(** [s.strip()] *)
Definition strip (s : string) : string := rstrip (lstrip s).

(** [sub in s] on strings. *)
Fixpoint str_in (sub s : string) : bool :=
  String.prefix sub s ||
  match s with
  | EmptyString => false
  | String _ s' => str_in sub s'
  end.

(** [str(n)] for an int. *)
Definition str_of_int (n : Z) : string := NilZero.string_of_int (Z.to_int n).

Fixpoint str_take (n : nat) (s : string) : string :=
  match n, s with
  | O, _ => EmptyString
  | S _, EmptyString => EmptyString
  | S n', String c s' => String c (str_take n' s')
  end.

Fixpoint str_chars (s : string) : list string :=
  match s with
  | EmptyString => []
  | String c s' => String c EmptyString :: str_chars s'
  end.

(** *** Dicts *)

Fixpoint assoc (k : string) (d : list (string * pyval)) : option pyval :=
  match d with
  | [] => None
  | (k', v) :: d' => if String.eqb k k' then Some v else assoc k d'
  end.

(** [v.get(k, default)]; [v.get(k)] is [get v k PyNone]. *)
Definition get (v : pyval) (k : string) (default : pyval) : res pyval :=
  match v with
  | PyDict d => Ok (match assoc k d with Some x => x | None => default end)
  | _ => Raise (AttributeError v "get")
  end.

(** [repr(k)] for a str key, as [KeyError] prints it. *)
Definition KeyError (k : string) : exn := MkExn "KeyError" ("'" ++ k ++ "'").

(** [v[k]] with a str key. *)
Definition getitem (v : pyval) (k : string) : res pyval :=
  match v with
  | PyDict d => match assoc k d with Some x => Ok x | None => Raise (KeyError k) end
  | PyList _ => Raise (TypeError "list indices must be integers or slices, not str")
  | PyStr _ => Raise (TypeError "string indices must be integers, not 'str'")
  | _ => Raise (TypeError ("'" ++ type_name v ++ "' object is not subscriptable"))
  end.

(** [v[:n]]; a dict rejects the slice with a TypeError up to CPython 3.11
    and with a KeyError from 3.12 on, the former is modelled. *)
Definition slice_to (n : nat) (v : pyval) : res pyval :=
  match v with
  | PyList l => Ok (PyList (firstn n l))
  | PyStr s => Ok (PyStr (str_take n s))
  | PyDict _ => Raise (TypeError "unhashable type: 'slice'")
  | _ => Raise (TypeError ("'" ++ type_name v ++ "' object is not subscriptable"))
  end.

(** The items [for x in v] visits. *)
Definition iter (v : pyval) : res (list pyval) :=
  match v with
  | PyList l => Ok l
  | PyStr s => Ok (map PyStr (str_chars s))
  | PyDict d => Ok (map (fun kv => PyStr (fst kv)) d)
  | _ => Raise (TypeError ("'" ++ type_name v ++ "' object is not iterable"))
  end.

(** [v.items()] *)
Definition items (v : pyval) : res (list (string * pyval)) :=
  match v with
  | PyDict d => Ok d
  | _ => Raise (AttributeError v "items")
  end.

(** *** [str] and [repr] *)

Definition hex_digit (n : N) : ascii :=
  if (n <? 10)%N then ascii_of_N (48 + n) else ascii_of_N (87 + n).

Definition hex2 (c : ascii) : string :=
  let n := N_of_ascii c in
  String (hex_digit (n / 16)) (String (hex_digit (n mod 16)) EmptyString).

Definition is_printable_ascii (c : ascii) : bool :=
  let n := N_of_ascii c in (32 <=? n)%N && (n <=? 126)%N.

Fixpoint str_has (c : ascii) (s : string) : bool :=
  match s with
  | EmptyString => false
  | String c' s' => Ascii.eqb c c' || str_has c s'
  end.

Definition squote : ascii := ascii_of_N 39.
Definition dquote : ascii := ascii_of_N 34.
Definition backslash : ascii := ascii_of_N 92.

Fixpoint repr_body (q : ascii) (s : string) : string :=
  match s with
  | EmptyString => EmptyString
  | String c s' =>
      let n := N_of_ascii c in
      (if Ascii.eqb c q || Ascii.eqb c backslash
       then String backslash (String c EmptyString)
       else if (n =? 9)%N then String backslash "t"
       else if (n =? 10)%N then String backslash "n"
       else if (n =? 13)%N then String backslash "r"
       else if (n <? 32)%N || (n =? 127)%N then String backslash ("x" ++ hex2 c)
       else String c EmptyString) ++ repr_body q s'
  end.

(** [repr(s)] for a str: single quotes unless the text has one and has no
    double quote. *)
Definition repr_str (s : string) : string :=
  let q := if str_has squote s && negb (str_has dquote s) then dquote else squote in
  String q (repr_body q s ++ String q EmptyString).

(** [repr(v)] *)
Fixpoint repr (v : pyval) : string :=
  match v with
  | PyNone => "None"
  | PyBool true => "True"
  | PyBool false => "False"
  | PyInt n => str_of_int n
  | PyFloat r => r
  | PyStr s => repr_str s
  | PyList [] => "[]"
  | PyList (x :: l) =>
      "[" ++ repr x ++
      (fix more (l : list pyval) : string :=
         match l with
         | [] => EmptyString
         | y :: l' => ", " ++ repr y ++ more l'
         end) l ++ "]"
  | PyDict [] => "{}"
  | PyDict ((k, x) :: d) =>
      "{" ++ repr_str k ++ ": " ++ repr x ++
      (fix more (d : list (string * pyval)) : string :=
         match d with
         | [] => EmptyString
         | (k', y) :: d' => ", " ++ repr_str k' ++ ": " ++ repr y ++ more d'
         end) d ++ "}"
  end.

Definition res_bind {A B} (r : res A) (k : A -> res B) : res B :=
  match r with
  | Ok a => k a
  | Raise e => Raise e
  end.

(** [v == s] for a str literal [s]. *)
Definition eq_str (v : pyval) (s : string) : bool :=
  match v with
  | PyStr t => String.eqb t s
  | _ => false
  end.

(** [str(v)], which is what an f-string field [{v}] inserts. *)
Definition str (v : pyval) : string :=
  match v with
  | PyStr s => s
  | _ => repr v
  end.

End Py.

(** ** [json.dumps(obj, indent=2)] *)

Module Json.
Import Py.

(** The escape of one character under [ensure_ascii]: everything outside
    space..tilde is escaped, as are the double quote and the backslash. *)
Definition escape_char (c : ascii) : string :=
  let n := N_of_ascii c in
  if Ascii.eqb c dquote then String backslash (String dquote EmptyString)
  else if Ascii.eqb c backslash then String backslash (String backslash EmptyString)
  else if (n =? 10)%N then String backslash "n"
  else if (n =? 13)%N then String backslash "r"
  else if (n =? 9)%N then String backslash "t"
  else if (n =? 12)%N then String backslash "f"
  else if (n =? 8)%N then String backslash "b"
  else if is_printable_ascii c then String c EmptyString
  else String backslash ("u00" ++ hex2 c).

Fixpoint escape (s : string) : string :=
  match s with
  | EmptyString => EmptyString
  | String c s' => escape_char c ++ escape s'
  end.

Definition encode_str (s : string) : string :=
  String dquote (escape s ++ String dquote EmptyString).

Definition encode_float (r : string) : string :=
  if String.eqb r "nan" then "NaN"
  else if String.eqb r "inf" then "Infinity"
  else if String.eqb r "-inf" then "-Infinity"
  else r.

Fixpoint spaces (n : nat) : string :=
  match n with
  | O => EmptyString
  | S n' => String " " (spaces n')
  end.

Definition newline : string := String (ascii_of_N 10) EmptyString.

(** A line break followed by the indentation of nesting depth [level]. *)
Definition newline_indent (level : nat) : string :=
  newline ++ spaces (2 * level).

Fixpoint encode (level : nat) (v : pyval) : string :=
  match v with
  | PyNone => "null"
  | PyBool true => "true"
  | PyBool false => "false"
  | PyInt n => str_of_int n
  | PyFloat r => encode_float r
  | PyStr s => encode_str s
  | PyList [] => "[]"
  | PyList (x :: l) =>
      "[" ++ newline_indent (S level) ++ encode (S level) x ++
      (fix more (l : list pyval) : string :=
         match l with
         | [] => EmptyString
         | y :: l' => "," ++ newline_indent (S level) ++ encode (S level) y ++ more l'
         end) l ++ newline_indent level ++ "]"
  | PyDict [] => "{}"
  | PyDict ((k, x) :: d) =>
      "{" ++ newline_indent (S level) ++ encode_str k ++ ": " ++ encode (S level) x ++
      (fix more (d : list (string * pyval)) : string :=
         match d with
         | [] => EmptyString
         | (k', y) :: d' =>
             "," ++ newline_indent (S level) ++ encode_str k' ++ ": " ++
             encode (S level) y ++ more d'
         end) d ++ newline_indent level ++ "}"
  end.

Definition dumps (v : pyval) : string := encode 0 v.

End Json.

(** ** [datetime] *)

Module Datetime.
Import Py.

(** A naive local [datetime]: the proleptic Gregorian ordinal of its date
    (1 is 0001-01-01) and the microsecond within the day. *)
Record datetime := MkDatetime { ordinal : Z; usec_of_day : Z }.

(** [date(1970, 1, 1).toordinal()] *)
Definition EPOCH_ORDINAL : Z := 719163.

(** A reading of the system clock: whole days since the epoch on the local
    calendar and the microsecond within the day.  Clocks before the epoch
    are outside the model. *)
Record reading := MkReading { days_since_epoch : N; usec : N }.

Definition of_reading (r : reading) : datetime :=
  MkDatetime (EPOCH_ORDINAL + Z.of_N (days_since_epoch r)) (Z.of_N (usec r)).

Definition OverflowError : exn := MkExn "OverflowError" "date value out of range".

(** [dt - timedelta(days=n)] *)
Definition sub_days (dt : datetime) (n : Z) : res datetime :=
  if ordinal dt - n <? 1 then Raise OverflowError
  else Ok (MkDatetime (ordinal dt - n) (usec_of_day dt)).

Definition DAYS_BEFORE_MONTH (month : Z) : Z :=
  nth (Z.to_nat month) [-1; 0; 31; 59; 90; 120; 151; 181; 212; 243; 273; 304; 334] 0.

Definition DAYS_IN_MONTH (month : Z) : Z :=
  nth (Z.to_nat month) [-1; 31; 28; 31; 30; 31; 30; 31; 31; 30; 31; 30; 31] 0.

Definition Z_of_bool (b : bool) : Z := if b then 1 else 0.

(** CPython's [_ord2ymd]: ordinal to (year, month, day). *)
Definition ord2ymd (n : Z) : Z * Z * Z :=
  let n := n - 1 in
  let n400 := n / 146097 in
  let n := n mod 146097 in
  let year := n400 * 400 + 1 in
  let n100 := n / 36524 in
  let n := n mod 36524 in
  let n4 := n / 1461 in
  let n := n mod 1461 in
  let n1 := n / 365 in
  let n := n mod 365 in
  let year := year + n100 * 100 + n4 * 4 + n1 in
  if (n1 =? 4) || (n100 =? 4) then (year - 1, 12, 31)
  else
    let leapyear := (n1 =? 3) && (negb (n4 =? 24) || (n100 =? 3)) in
    let month := Z.shiftr (n + 50) 5 in
    let preceding := DAYS_BEFORE_MONTH month + Z_of_bool ((2 <? month) && leapyear) in
    if n <? preceding then
      let month := month - 1 in
      let preceding :=
        preceding - (DAYS_IN_MONTH month + Z_of_bool ((month =? 2) && leapyear)) in
      (year, month, n - preceding + 1)
    else (year, month, n - preceding + 1).

Fixpoint zeros (n : nat) : string :=
  match n with
  | O => EmptyString
  | S n' => String "0" (zeros n')
  end.

(** A non-negative number in decimal, zero-padded to [width] digits. *)
Definition zero_pad (width : nat) (n : Z) : string :=
  let s := str_of_int n in
  zeros (width - String.length s) ++ s.

(** [dt.strftime("%Y-%m-%d")] *)
Definition strftime_ymd (dt : datetime) : string :=
  let '(y, m, d) := ord2ymd (ordinal dt) in
  zero_pad 4 y ++ "-" ++ zero_pad 2 m ++ "-" ++ zero_pad 2 d.

End Datetime.

(** ** [requests] *)

Module Requests.
Import Py.

(** One outbound GET as it leaves the session. *)
Record request := MkRequest {
  req_url : string;
  req_params : list (string * pyval);
  req_timeout : option Z
}.

(** What came back: the status line, the final URL, and what
    [response.json()] yields (the decoded body, or the decoder's error). *)
Record response := MkResponse {
  status_code : Z;
  reason : string;
  resp_url : string;
  json : res pyval
}.

Definition HTTPError (msg : string) : exn := MkExn "HTTPError" msg.

(** [response.raise_for_status()] *)
Definition raise_for_status (r : response) : res unit :=
  if (400 <=? status_code r) && (status_code r <? 500) then
    Raise (HTTPError (str_of_int (status_code r) ++ " Client Error: " ++ reason r
                      ++ " for url: " ++ resp_url r))
  else if (500 <=? status_code r) && (status_code r <? 600) then
    Raise (HTTPError (str_of_int (status_code r) ++ " Server Error: " ++ reason r
                      ++ " for url: " ++ resp_url r))
  else Ok tt.

(** [requests.Session]: the parameters merged into every request, and the
    CA bundle when one is set. *)
Record Session := MkSession {
  sess_params : list (string * pyval);
  sess_verify : option string
}.

(** The request [session.get(url, params=params, timeout=timeout)] sends:
    the session's parameters come first, the call's own follow (the two
    never share a key in this program). *)
Definition prepare (s : Session) (url : string) (params : list (string * pyval))
    (timeout : option Z) : request :=
  MkRequest url (sess_params s ++ params) timeout.

End Requests.

(** ** The world an operation runs in *)

Module World.
Import Py Datetime Requests.

(** The environment of one invocation: the clock as the sequence of its
    successive readings, the network as the outcome of each GET (a raised
    transport error or a response), and the log of what has been read and
    sent so far. *)
Record world := MkWorld {
  clock : nat -> reading;
  clock_reads : nat;
  network : request -> res response;
  sent : list request
}.

(** Computations that read the clock, use the network and may raise. *)
Definition M (A : Type) : Type := world -> res A * world.

Definition ret {A} (a : A) : M A := fun w => (Ok a, w).

Definition bind {A B} (m : M A) (k : A -> M B) : M B :=
  fun w =>
    match m w with
    | (Ok a, w') => k a w'
    | (Raise e, w') => (Raise e, w')
    end.

Definition lift {A} (r : res A) : M A := fun w => (r, w).

(** [try: body / except Exception as e: handler e] *)
Definition try_except {A} (body : M A) (handler : exn -> M A) : M A :=
  fun w =>
    match body w with
    | (Ok a, w') => (Ok a, w')
    | (Raise e, w') => handler e w'
    end.

(** [datetime.now()] *)
Definition datetime_now : M datetime :=
  fun w =>
    (Ok (of_reading (clock w (clock_reads w))),
     MkWorld (clock w) (S (clock_reads w)) (network w) (sent w)).

(** [session.get(url, params=params, timeout=timeout)] *)
Definition session_get (s : Session) (url : string)
    (params : list (string * pyval)) (timeout : option Z) : M response :=
  fun w =>
    let rq := prepare s url params timeout in
    (network w rq,
     MkWorld (clock w) (clock_reads w) (network w) (sent w ++ [rq])).

(** The body of a [for x in xs:] loop that appends [f x] to a list, stopping
    at the first [x] on which [f] raises. *)
Fixpoint for_each {A B} (f : A -> res B) (xs : list A) : res (list B) :=
  match xs with
  | [] => Ok []
  | x :: xs' =>
      match f x with
      | Raise e => Raise e
      | Ok y =>
          match for_each f xs' with
          | Raise e => Raise e
          | Ok ys => Ok (y :: ys)
          end
      end
  end.

End World.

Declare Scope monad_scope.
Notation "'let?' x := c 'in' k" := (Py.res_bind c (fun x => k))
  (at level 10, x name, c at level 100, k at level 200).
Notation "x <- c ;; k" := (World.bind c (fun x => k))
  (at level 61, c at next level, right associativity) : monad_scope.
Notation "c ;;; k" := (World.bind c (fun _ => k))
  (at level 61, right associativity) : monad_scope.

Local Open Scope monad_scope.

(** ** What the two servers share word for word *)

Module Shared.
Import Py.

Definition FINNHUB_BASE_URL : string := "https://finnhub.io/api/v1".

(** The dict appended for one press release. *)
Definition format_release (release : pyval) : res pyval :=
  let? date := get release "datetime" (PyStr EmptyString) in
  let? headline := get release "headline" (PyStr EmptyString) in
  let? summary := get release "summary" (PyStr EmptyString) in
  let? url := get release "url" (PyStr EmptyString) in
  Ok (PyDict [("date", date); ("headline", headline);
              ("summary", summary); ("url", url)]).

(** The dict appended for one insider transaction. *)
Definition format_transaction (transaction : pyval) : res pyval :=
  let? date := get transaction "transactionDate" (PyStr EmptyString) in
  let? name := get transaction "name" (PyStr EmptyString) in
  let? share := get transaction "share" (PyInt 0) in
  let? change := get transaction "change" (PyInt 0) in
  let? filingDate := get transaction "filingDate" (PyStr EmptyString) in
  let? transactionCode := get transaction "transactionCode" (PyStr EmptyString) in
  let? transactionPrice := get transaction "transactionPrice" (PyInt 0) in
  Ok (PyDict [("date", date); ("name", name); ("share", share);
              ("change", change); ("filingDate", filingDate);
              ("transactionCode", transactionCode);
              ("transactionPrice", transactionPrice)]).

(** [data[key][:cap]] walked by the formatting loop. *)
Definition format_capped (f : pyval -> res pyval) (data : pyval) (key : string)
    (cap : nat) : res (list pyval) :=
  let? entries := getitem data key in
  let? head := slice_to cap entries in
  let? xs := iter head in
  World.for_each f xs.

Definition PRICE_TERMS : list string := ["price"; "52week"; "beta"].
Definition VALUATION_TERMS : list string := ["pe"; "pb"; "ps"; "ev"; "ratio"].
Definition MARGIN_TERMS : list string := ["margin"; "roe"; "roa"; "roic"].

(** [any(term in k.lower() for term in terms)] *)
Definition key_matches (terms : list string) (k : string) : bool :=
  existsb (fun term => str_in term (lower k)) terms.

(** [{k: v for k, v in metrics.items() if any(...)}] *)
Definition comprehension (terms : list string) (metrics : pyval) : res pyval :=
  let? kvs := items metrics in
  Ok (PyDict (filter (fun kv => key_matches terms (fst kv)) kvs)).

(** The [if metric_type == ... elif ... else] chain that picks
    [filtered_metrics]. *)
Definition filter_metrics (metric_type metrics : pyval) : res pyval :=
  if eq_str metric_type "price" then comprehension PRICE_TERMS metrics
  else if eq_str metric_type "valuation" then comprehension VALUATION_TERMS metrics
  else if eq_str metric_type "margin" then comprehension MARGIN_TERMS metrics
  else Ok metrics.

(** The three lines every operation shares:
    [response = session.get(url, params=params, ...)],
    [response.raise_for_status()], [data = response.json()]. *)
Definition fetch (s : Requests.Session) (url : string)
    (params : list (string * pyval)) (timeout : option Z) : World.M pyval :=
  response <- World.session_get s url params timeout ;;
  World.lift (Requests.raise_for_status response) ;;;
  World.lift (Requests.json response).

End Shared.

(** ** app.py: the interactive server *)

(** Every [return json.dumps(..., indent=2)] of an operation is split in
    two: a function named [..._answer] builds the object handed to
    [json.dumps] (the answer object), and the operation serialises it. *)

Module App.
Import Py Datetime Requests World Shared.

(** The module globals set when app.py is loaded. *)
Record globals := MkGlobals { API_KEY : string; session : Session }.

(** Loading the module; [env] is the value of FINNHUB_API_KEY in the
    process environment, if it is set. *)
Definition init (env : option string) : globals :=
  let key := match env with Some v => v | None => EmptyString end in
  MkGlobals key
    (if str_nonempty key then MkSession [("token", PyStr key)] None
     else MkSession [] None).

(** Whether the page shows the missing-key warning. *)
Definition shows_warning (g : globals) : bool := negb (str_nonempty (API_KEY g)).

Definition error_object (msg : string) : pyval := PyDict [("error", PyStr msg)].

Definition NOT_CONFIGURED : string :=
  Json.dumps (error_object "FINNHUB_API_KEY not configured").
Definition SYMBOL_REQUIRED : string :=
  Json.dumps (error_object "Symbol is required").

(** [except Exception as e: return json.dumps({"error": str(e)}, indent=2)] *)
Definition on_exception (e : exn) : M string :=
  ret (Json.dumps (error_object (exn_msg e))).

(** The two [if not ..._date:] defaults. *)
Definition default_dates (days : Z) (from_date to_date : string) : M (string * string) :=
  to_date <- (if negb (str_nonempty to_date)
              then now <- datetime_now ;; ret (strftime_ymd now)
              else ret to_date) ;;
  from_date <- (if negb (str_nonempty from_date)
                then now <- datetime_now ;;
                     start <- lift (sub_days now days) ;;
                     ret (strftime_ymd start)
                else ret from_date) ;;
  ret (from_date, to_date).

(** *** get_press_releases *)

Definition press_releases_answer (symbol from_date to_date : string) (data : pyval)
    : res pyval :=
  let? found := get data "majorDevelopment" PyNone in
  if negb (truthy found) then
    Ok (PyDict
      [("symbol", PyStr symbol);
       ("message", PyStr ("No press releases found for " ++ symbol ++ " between "
                          ++ from_date ++ " and " ++ to_date))])
  else
    let? releases := format_capped format_release data "majorDevelopment" 10 in
    Ok (PyDict
      [("symbol", PyStr symbol);
       ("date_range", PyStr (from_date ++ " to " ++ to_date));
       ("press_releases", PyList releases)]).

(** The body of the [try:] block. *)
Definition press_releases_try (g : globals) (symbol from_date to_date : string)
    : M string :=
  let url := FINNHUB_BASE_URL ++ "/press-releases" in
  let params := [("symbol", PyStr symbol); ("from", PyStr from_date);
                 ("to", PyStr to_date)] in
  data <- fetch (session g) url params (Some 10) ;;
  answer <- lift (press_releases_answer symbol from_date to_date data) ;;
  ret (Json.dumps answer).

Definition get_press_releases (g : globals) (symbol from_date to_date : string)
    : M string :=
  if negb (str_nonempty (API_KEY g)) then ret NOT_CONFIGURED
  else
    let symbol := strip (upper symbol) in
    if negb (str_nonempty symbol) then ret SYMBOL_REQUIRED
    else
      dates <- default_dates 30 from_date to_date ;;
      try_except (press_releases_try g symbol (fst dates) (snd dates)) on_exception.

(** *** get_insider_transactions *)

Definition insider_transactions_answer (symbol from_date to_date : string)
    (data : pyval) : res pyval :=
  let? found := get data "data" PyNone in
  if negb (truthy found) then
    Ok (PyDict
      [("symbol", PyStr symbol);
       ("message", PyStr ("No insider transactions found for " ++ symbol
                          ++ " between " ++ from_date ++ " and " ++ to_date))])
  else
    let? transactions := format_capped format_transaction data "data" 20 in
    Ok (PyDict
      [("symbol", PyStr symbol);
       ("date_range", PyStr (from_date ++ " to " ++ to_date));
       ("insider_transactions", PyList transactions)]).

Definition insider_transactions_try (g : globals)
    (symbol from_date to_date : string) : M string :=
  let url := FINNHUB_BASE_URL ++ "/stock/insider-transactions" in
  let params := [("symbol", PyStr symbol); ("from", PyStr from_date);
                 ("to", PyStr to_date)] in
  data <- fetch (session g) url params (Some 10) ;;
  answer <- lift (insider_transactions_answer symbol from_date to_date data) ;;
  ret (Json.dumps answer).

Definition get_insider_transactions (g : globals) (symbol from_date to_date : string)
    : M string :=
  if negb (str_nonempty (API_KEY g)) then ret NOT_CONFIGURED
  else
    let symbol := strip (upper symbol) in
    if negb (str_nonempty symbol) then ret SYMBOL_REQUIRED
    else
      dates <- default_dates 90 from_date to_date ;;
      try_except (insider_transactions_try g symbol (fst dates) (snd dates))
                 on_exception.

(** *** get_basic_financials *)

Definition basic_financials_answer (symbol metric_type : string) (data : pyval)
    : res pyval :=
  let? found := get data "metric" PyNone in
  if negb (truthy found) then
    Ok (PyDict
      [("symbol", PyStr symbol);
       ("message", PyStr ("No financial metrics found for " ++ symbol))])
  else
    let? metrics := getitem data "metric" in
    let? filtered_metrics := filter_metrics (PyStr metric_type) metrics in
    let? series := get data "series" (PyDict []) in
    Ok (PyDict
      [("symbol", PyStr symbol);
       ("metric_type", PyStr metric_type);
       ("metrics", filtered_metrics);
       ("series", series)]).

Definition basic_financials_try (g : globals) (symbol metric_type : string)
    : M string :=
  let url := FINNHUB_BASE_URL ++ "/stock/metric" in
  let params := [("symbol", PyStr symbol); ("metric", PyStr "all")] in
  data <- fetch (session g) url params (Some 10) ;;
  answer <- lift (basic_financials_answer symbol metric_type data) ;;
  ret (Json.dumps answer).

Definition get_basic_financials (g : globals) (symbol metric_type : string)
    : M string :=
  if negb (str_nonempty (API_KEY g)) then ret NOT_CONFIGURED
  else
    let symbol := strip (upper symbol) in
    if negb (str_nonempty symbol) then ret SYMBOL_REQUIRED
    else try_except (basic_financials_try g symbol metric_type) on_exception.

(** *** get_company_profile *)

Definition company_profile_answer (symbol : string) (data : pyval) : res pyval :=
  if negb (truthy data) then
    Ok (PyDict
      [("symbol", PyStr symbol);
       ("message", PyStr ("No company profile found for " ++ symbol))])
  else Ok data.

Definition company_profile_try (g : globals) (symbol : string) : M string :=
  let url := FINNHUB_BASE_URL ++ "/stock/profile2" in
  let params := [("symbol", PyStr symbol)] in
  data <- fetch (session g) url params (Some 10) ;;
  answer <- lift (company_profile_answer symbol data) ;;
  ret (Json.dumps answer).

Definition get_company_profile (g : globals) (symbol : string) : M string :=
  if negb (str_nonempty (API_KEY g)) then ret NOT_CONFIGURED
  else
    let symbol := strip (upper symbol) in
    if negb (str_nonempty symbol) then ret SYMBOL_REQUIRED
    else try_except (company_profile_try g symbol) on_exception.

(** *** get_earnings_surprises *)

Definition earnings_surprises_answer (symbol : string) (data : pyval) : res pyval :=
  if negb (truthy data) then
    Ok (PyDict
      [("symbol", PyStr symbol);
       ("message", PyStr ("No earnings data found for " ++ symbol))])
  else
    Ok (PyDict [("symbol", PyStr symbol); ("earnings_surprises", data)]).

Definition earnings_surprises_try (g : globals) (symbol : string) (limit : Z)
    : M string :=
  let url := FINNHUB_BASE_URL ++ "/stock/earnings" in
  let params := [("symbol", PyStr symbol); ("limit", PyInt limit)] in
  data <- fetch (session g) url params (Some 10) ;;
  answer <- lift (earnings_surprises_answer symbol data) ;;
  ret (Json.dumps answer).

Definition get_earnings_surprises (g : globals) (symbol : string) (limit : Z)
    : M string :=
  if negb (str_nonempty (API_KEY g)) then ret NOT_CONFIGURED
  else
    let symbol := strip (upper symbol) in
    if negb (str_nonempty symbol) then ret SYMBOL_REQUIRED
    else try_except (earnings_surprises_try g symbol limit) on_exception.

End App.

(** ** finnhub_mcp_server/__init__.py: the tool-invocation server *)

Module Mcp.
Import Py Datetime Requests World Shared.

(** The module globals set when the package is imported. *)
Record globals := MkGlobals { API_KEY : string; session : Session }.

Definition ValueError (msg : string) : exn := MkExn "ValueError" msg.

(** Importing the package; [env] is the value of FINNHUB_API_KEY once
    [load_dotenv()] has run, if it is set, and [ca_bundle] is what
    [certifi.where()] returns.  The import raises when the key is missing or
    empty, and nothing after it (the server, the session, [main]) exists. *)
Definition init (env : option string) (ca_bundle : string) : res globals :=
  match env with
  | Some key =>
      if negb (str_nonempty key)
      then Raise (ValueError "FINNHUB_API_KEY environment variable is required")
      else Ok (MkGlobals key (MkSession [("token", PyStr key)] (Some ca_bundle)))
  | None => Raise (ValueError "FINNHUB_API_KEY environment variable is required")
  end.

Record TextContent := MkTextContent { type : string; text : string }.

(** What an operation answers with: a plain sentence, or an object that is
    serialised with [json.dumps(..., indent=2)]. *)
Inductive answer :=
| Message (sentence : string)
| Result (obj : pyval).

(** [[TextContent(type="text", text=...)]] *)
Definition render (a : answer) : list TextContent :=
  [MkTextContent "text"
     match a with
     | Message sentence => sentence
     | Result obj => Json.dumps obj
     end].

(** [args["symbol"].upper()] *)
Definition symbol_of (args : list (string * pyval)) : res string :=
  let? v := getitem (PyDict args) "symbol" in
  match v with
  | PyStr s => Ok (upper s)
  | _ => Raise (AttributeError v "upper")
  end.

(** The two [args.get(..., default)] lines: each default is computed, clock
    reading included, before the lookup that may discard it. *)
Definition default_dates (days : Z) (args : list (string * pyval))
    : M (pyval * pyval) :=
  now <- datetime_now ;;
  to_date <- lift (get (PyDict args) "to_date" (PyStr (strftime_ymd now))) ;;
  now <- datetime_now ;;
  start <- lift (sub_days now days) ;;
  from_date <- lift (get (PyDict args) "from_date" (PyStr (strftime_ymd start))) ;;
  ret (from_date, to_date).

(** *** get_press_releases *)

Definition press_releases_answer (symbol : string) (from_date to_date : pyval)
    (data : pyval) : res answer :=
  let? found := get data "majorDevelopment" PyNone in
  if negb (truthy found) then
    Ok (Message ("No press releases found for " ++ symbol ++ " between "
                 ++ str from_date ++ " and " ++ str to_date))
  else
    let? releases := format_capped format_release data "majorDevelopment" 10 in
    Ok (Result (PyDict
      [("symbol", PyStr symbol);
       ("date_range", PyStr (str from_date ++ " to " ++ str to_date));
       ("press_releases", PyList releases)])).

Definition get_press_releases (g : globals) (args : list (string * pyval))
    : M (list TextContent) :=
  symbol <- lift (symbol_of args) ;;
  dates <- default_dates 30 args ;;
  let url := FINNHUB_BASE_URL ++ "/press-releases" in
  let params := [("symbol", PyStr symbol); ("from", fst dates);
                 ("to", snd dates)] in
  data <- fetch (session g) url params None ;;
  answer <- lift (press_releases_answer symbol (fst dates) (snd dates) data) ;;
  ret (render answer).

(** *** get_insider_transactions *)

Definition insider_transactions_answer (symbol : string) (from_date to_date : pyval)
    (data : pyval) : res answer :=
  let? found := get data "data" PyNone in
  if negb (truthy found) then
    Ok (Message ("No insider transactions found for " ++ symbol ++ " between "
                 ++ str from_date ++ " and " ++ str to_date))
  else
    let? transactions := format_capped format_transaction data "data" 20 in
    Ok (Result (PyDict
      [("symbol", PyStr symbol);
       ("date_range", PyStr (str from_date ++ " to " ++ str to_date));
       ("insider_transactions", PyList transactions)])).

Definition get_insider_transactions (g : globals) (args : list (string * pyval))
    : M (list TextContent) :=
  symbol <- lift (symbol_of args) ;;
  dates <- default_dates 90 args ;;
  let url := FINNHUB_BASE_URL ++ "/stock/insider-transactions" in
  let params := [("symbol", PyStr symbol); ("from", fst dates);
                 ("to", snd dates)] in
  data <- fetch (session g) url params None ;;
  answer <- lift (insider_transactions_answer symbol (fst dates) (snd dates) data) ;;
  ret (render answer).

(** *** get_basic_financials *)

Definition basic_financials_answer (symbol : string) (metric_type : pyval)
    (data : pyval) : res answer :=
  let? found := get data "metric" PyNone in
  if negb (truthy found) then
    Ok (Message ("No financial metrics found for " ++ symbol))
  else
    let? metrics := getitem data "metric" in
    let? filtered_metrics := filter_metrics metric_type metrics in
    let? series := get data "series" (PyDict []) in
    Ok (Result (PyDict
      [("symbol", PyStr symbol);
       ("metric_type", metric_type);
       ("metrics", filtered_metrics);
       ("series", series)])).

Definition get_basic_financials (g : globals) (args : list (string * pyval))
    : M (list TextContent) :=
  symbol <- lift (symbol_of args) ;;
  metric_type <- lift (get (PyDict args) "metric" (PyStr "all")) ;;
  let url := FINNHUB_BASE_URL ++ "/stock/metric" in
  let params := [("symbol", PyStr symbol); ("metric", PyStr "all")] in
  data <- fetch (session g) url params None ;;
  answer <- lift (basic_financials_answer symbol metric_type data) ;;
  ret (render answer).

(** *** get_company_profile *)

Definition company_profile_answer (symbol : string) (data : pyval) : res answer :=
  if negb (truthy data) then
    Ok (Message ("No company profile found for " ++ symbol))
  else Ok (Result data).

Definition get_company_profile (g : globals) (args : list (string * pyval))
    : M (list TextContent) :=
  symbol <- lift (symbol_of args) ;;
  let url := FINNHUB_BASE_URL ++ "/stock/profile2" in
  let params := [("symbol", PyStr symbol)] in
  data <- fetch (session g) url params None ;;
  answer <- lift (company_profile_answer symbol data) ;;
  ret (render answer).

(** *** get_earnings_surprises *)

Definition earnings_surprises_answer (symbol : string) (data : pyval) : res answer :=
  if negb (truthy data) then
    Ok (Message ("No earnings data found for " ++ symbol))
  else
    Ok (Result (PyDict [("symbol", PyStr symbol); ("earnings_surprises", data)])).

Definition get_earnings_surprises (g : globals) (args : list (string * pyval))
    : M (list TextContent) :=
  symbol <- lift (symbol_of args) ;;
  limit <- lift (get (PyDict args) "limit" (PyInt 4)) ;;
  let url := FINNHUB_BASE_URL ++ "/stock/earnings" in
  let params := [("symbol", PyStr symbol); ("limit", limit)] in
  data <- fetch (session g) url params None ;;
  answer <- lift (earnings_surprises_answer symbol data) ;;
  ret (render answer).

(** The dispatch by tool name. *)
Definition handle_call_tool (g : globals) (name : string)
    (arguments : list (string * pyval)) : M (list TextContent) :=
  if String.eqb name "get_press_releases" then get_press_releases g arguments
  else if String.eqb name "get_insider_transactions" then get_insider_transactions g arguments
  else if String.eqb name "get_basic_financials" then get_basic_financials g arguments
  else if String.eqb name "get_company_profile" then get_company_profile g arguments
  else if String.eqb name "get_earnings_surprises" then get_earnings_surprises g arguments
  else lift (Raise (ValueError ("Unknown tool: " ++ name))).

(** *** The tool manifest *)

Record Tool := MkTool {
  name : string;
  description : string;
  inputSchema : pyval
}.

(** The symbol entry, which every schema repeats. *)
Definition SYMBOL_PROPERTY : string * pyval :=
  ("symbol", PyDict [("type", PyStr "string");
                     ("description", PyStr "Stock symbol (e.g., AAPL, TSLA)")]).

(** [handle_list_tools()] *)
Definition handle_list_tools : list Tool :=
  [MkTool "get_press_releases"
     "Get major press releases for a company. Returns recent press releases with headlines, summaries, and publication dates."
     (PyDict
        [("type", PyStr "object");
         ("properties", PyDict
            [SYMBOL_PROPERTY;
             ("from_date", PyDict
                [("type", PyStr "string");
                 ("description", PyStr "Start date in YYYY-MM-DD format (optional, defaults to 30 days ago)")]);
             ("to_date", PyDict
                [("type", PyStr "string");
                 ("description", PyStr "End date in YYYY-MM-DD format (optional, defaults to today)")])]);
         ("required", PyList [PyStr "symbol"])]);
   MkTool "get_insider_transactions"
     "Get insider trading transactions for a company. Returns recent insider buy/sell activities."
     (PyDict
        [("type", PyStr "object");
         ("properties", PyDict
            [SYMBOL_PROPERTY;
             ("from_date", PyDict
                [("type", PyStr "string");
                 ("description", PyStr "Start date in YYYY-MM-DD format (optional, defaults to 90 days ago)")]);
             ("to_date", PyDict
                [("type", PyStr "string");
                 ("description", PyStr "End date in YYYY-MM-DD format (optional, defaults to today)")])]);
         ("required", PyList [PyStr "symbol"])]);
   MkTool "get_basic_financials"
     "Get basic financial metrics and ratios for a company."
     (PyDict
        [("type", PyStr "object");
         ("properties", PyDict
            [SYMBOL_PROPERTY;
             ("metric", PyDict
                [("type", PyStr "string");
                 ("description", PyStr "Metric type: 'all' for all metrics, 'price' for price metrics, 'valuation' for valuation ratios, 'margin' for margin metrics");
                 ("enum", PyList [PyStr "all"; PyStr "price"; PyStr "valuation";
                                  PyStr "margin"]);
                 ("default", PyStr "all")])]);
         ("required", PyList [PyStr "symbol"])]);
   MkTool "get_company_profile"
     "Get detailed company profile information including business description, industry, market cap, and key metrics."
     (PyDict
        [("type", PyStr "object");
         ("properties", PyDict [SYMBOL_PROPERTY]);
         ("required", PyList [PyStr "symbol"])]);
   MkTool "get_earnings_surprises"
     "Get earnings surprise data showing actual vs estimated earnings."
     (PyDict
        [("type", PyStr "object");
         ("properties", PyDict
            [SYMBOL_PROPERTY;
             ("limit", PyDict
                [("type", PyStr "integer");
                 ("description", PyStr "Number of quarters to retrieve (default: 4)");
                 ("minimum", PyInt 1);
                 ("maximum", PyInt 20);
                 ("default", PyInt 4)])]);
         ("required", PyList [PyStr "symbol"])])].

End Mcp.

(** * Properties *)

Import Py Datetime Requests World Shared.

Arguments strftime_ymd : simpl never.
Arguments Json.dumps : simpl never.
Arguments strip : simpl never.
Arguments upper : simpl never.

(** ** Vocabulary *)

(** What the three shared lines obtain from the network for request [rq]:
    the decoded body, or the first exception among transport, status and
    decoding. *)
Definition received (w : world) (rq : request) : res pyval :=
  let? r := network w rq in
  let? _ := raise_for_status r in
  json r.

(** The provider answers every request with a success response whose body
    decodes to [data]. *)
Definition delivers (w : world) (data : pyval) : Prop :=
  forall rq, received w rq = Ok data.

(** Two worlds with the same provider behind them. *)
Definition same_provider (w1 w2 : world) : Prop :=
  forall rq, network w1 rq = network w2 rq.

(** An operation whose outcome is settled by its inputs and the provider's
    behaviour alone: from two worlds with the same provider behind them,
    however their clocks and logs differ, it returns the same thing; and it
    leaves the provider as it found it. *)
Definition settled_by_provider {A} (op : M A) : Prop :=
  forall w1 w2,
    same_provider w1 w2 ->
    fst (op w1) = fst (op w2) /\ same_provider (snd (op w1)) w1.

(** The world after one more GET. *)
Definition after_get (w : world) (rq : request) : world :=
  MkWorld (clock w) (clock_reads w) (network w) (sent w ++ [rq]).

(** The world after [n] more clock readings. *)
Definition after_reads (w : world) (n : nat) : world :=
  MkWorld (clock w) (n + clock_reads w) (network w) (sent w).

(** The date the [k]-th reading still to come falls on, [days] earlier. *)
Definition stamp (w : world) (k : nat) (days : Z) : string :=
  strftime_ymd
    (MkDatetime (EPOCH_ORDINAL + Z.of_N (days_since_epoch (clock w (k + clock_reads w))) - days)
                (Z.of_N (usec (clock w (k + clock_reads w))))).

(** The dates the two [args.get] lines of the tool-invocation server settle
    on in [w]. *)
Definition mcp_dates (args : list (string * pyval)) (days : Z) (w : world)
    : pyval * pyval :=
  (match assoc "from_date" args with
   | Some v => v
   | None => PyStr (stamp w 1 days)
   end,
   match assoc "to_date" args with
   | Some v => v
   | None => PyStr (stamp w 0 0)
   end).

(** The text the interactive server returns for the outcome of a guarded
    block. *)
Definition app_text (r : res pyval) : string :=
  match r with
  | Ok a => Json.dumps a
  | Raise e => Json.dumps (App.error_object (exn_msg e))
  end.

(** The interactive server has its key. *)
Definition configured (g : App.globals) : Prop :=
  str_nonempty (App.API_KEY g) = true.

(** The symbol box holds more than blanks. *)
Definition names_a_symbol (symbol : string) : Prop :=
  str_nonempty (strip (upper symbol)) = true.

(** An operation that returns normally from every world. *)
Definition never_raises {A} (op : M A) : Prop :=
  forall w, exists a w', op w = (Ok a, w').

(** [op], started in [w], entered its guarded block in [w1]; whenever the
    block raises, [op] returns the object whose only field is [error],
    holding the exception's text. *)
Definition reports (op block : M string) (w w1 : world) : Prop :=
  forall e w2,
    block w1 = (Raise e, w2) ->
    op w = (Ok (Json.dumps (PyDict [("error", PyStr (exn_msg e))])), w2).

(** Every request [op] adds to the log satisfies [P]. *)
Definition sends_only {A} (P : request -> Prop) (op : M A) : Prop :=
  forall w, exists new, sent (snd (op w)) = (sent w ++ new)%list /\ Forall P new.

Definition timeout_is_10 (rq : request) : Prop := req_timeout rq = Some 10.

(** Field [k] of object [d] is absent or empty. *)
Definition lacks (d : list (string * pyval)) (k : string) : Prop :=
  match assoc k d with
  | Some v => truthy v = false
  | None => True
  end.

(** [rec.get(k, default)] on the items of a dict. *)
Definition field (rec : list (string * pyval)) (k : string) (default : pyval) : pyval :=
  match assoc k rec with
  | Some v => v
  | None => default
  end.

(** The four fields kept of a press release. *)
Definition release_fields (rec : list (string * pyval)) : pyval :=
  PyDict [("date", field rec "datetime" (PyStr EmptyString));
          ("headline", field rec "headline" (PyStr EmptyString));
          ("summary", field rec "summary" (PyStr EmptyString));
          ("url", field rec "url" (PyStr EmptyString))].

(** The seven fields kept of an insider transaction. *)
Definition transaction_fields (rec : list (string * pyval)) : pyval :=
  PyDict [("date", field rec "transactionDate" (PyStr EmptyString));
          ("name", field rec "name" (PyStr EmptyString));
          ("share", field rec "share" (PyInt 0));
          ("change", field rec "change" (PyInt 0));
          ("filingDate", field rec "filingDate" (PyStr EmptyString));
          ("transactionCode", field rec "transactionCode" (PyStr EmptyString));
          ("transactionPrice", field rec "transactionPrice" (PyInt 0))].

(** The reading of C10 as the claim has it: whatever the provider sent and
    whatever the category, the answer object has a series field holding the
    provider's series, or the empty object when it sent none. *)
Definition series_always_present : Prop :=
  forall (symbol category : string) (d : list (string * pyval)),
    exists obj,
      App.basic_financials_answer symbol category (PyDict d) = Ok (PyDict obj)
      /\ assoc "series" obj = Some (field d "series" (PyDict [])).

(** The text of the date with ordinal [o]. *)
Definition date_text (o : Z) : string := strftime_ymd (MkDatetime o 0).

(** *** Concrete worlds for the examples *)

(** A clock stopped at noon on 2024-02-29. *)
Definition noon_clock (k : nat) : reading := MkReading 19782 43200000000.

(** A clock whose first reading is the last microsecond of 2024-03-10 and
    whose later readings fall just after midnight. *)
Definition midnight_clock (k : nat) : reading :=
  match k with
  | O => MkReading 19792 86399999999
  | S _ => MkReading 19793 5
  end.

Definition world_of (c : nat -> reading) (net : request -> res response) : world :=
  MkWorld c 0 net [].

Definition ConnectionError : exn :=
  MkExn "ConnectionError" "Connection aborted.".

(** A provider that cannot be reached. *)
Definition unreachable (rq : request) : res response := Raise ConnectionError.

(** A provider that answers 200 with a body decoding to [data]. *)
Definition answering (data : pyval) (rq : request) : res response :=
  Ok (MkResponse 200 "OK" (req_url rq) (Ok data)).

(** A provider that answers 429. *)
Definition throttling (rq : request) : res response :=
  Ok (MkResponse 429 "Too Many Requests" (req_url rq) (Ok (PyDict []))).

Definition demo_app : App.globals := App.init (Some "k3y").

Definition demo_mcp : Mcp.globals :=
  Mcp.MkGlobals "k3y" (MkSession [("token", PyStr "k3y")] (Some "cacert.pem")).

(** Eleven press releases, numbered in the provider's order. *)
Definition eleven_releases : list (list (string * pyval)) :=
  map (fun i => [("headline", PyInt i); ("source", PyStr "wire")])
      [1; 2; 3; 4; 5; 6; 7; 8; 9; 10; 11].

Definition explicit_args : list (string * pyval) :=
  [("symbol", PyStr "aapl"); ("from_date", PyStr "2024-01-01");
   ("to_date", PyStr "2024-02-29")].

(** *** Vocabulary of the further properties *)

(** A text made of blanks only (the empty text included). *)
Fixpoint all_space (s : string) : bool :=
  match s with
  | EmptyString => true
  | String c s' => is_space c && all_space s'
  end.

(** A text of ASCII characters only. *)
Fixpoint is_ascii (s : string) : bool :=
  match s with
  | EmptyString => true
  | String c s' => (N_of_ascii c <? 128)%N && is_ascii s'
  end.

(** The result object of the financials operation: the symbol, the
    category echoed, the metrics kept, and the provider's series (the empty
    object when it sent none). *)
Definition financials_result (symbol : string) (category : pyval)
    (kept d : list (string * pyval)) : pyval :=
  PyDict [("symbol", PyStr symbol);
          ("metric_type", category);
          ("metrics", PyDict kept);
          ("series", field d "series" (PyDict []))].

Definition is_dict (v : pyval) : bool :=
  match v with
  | PyDict _ => true
  | _ => false
  end.

Definition is_str (v : pyval) : bool :=
  match v with
  | PyStr _ => true
  | _ => false
  end.

(** The argument names a tool's schema declares. *)
Definition declared_keys (t : Mcp.Tool) : list string :=
  match field (match Mcp.inputSchema t with PyDict d => d | _ => [] end)
              "properties" (PyDict []) with
  | PyDict props => map fst props
  | _ => []
  end.

(** The default a tool's schema gives for argument [k], if any. *)
Definition schema_default (t : Mcp.Tool) (k : string) : option pyval :=
  match field (match Mcp.inputSchema t with PyDict d => d | _ => [] end)
              "properties" (PyDict []) with
  | PyDict props =>
      match assoc k props with
      | Some (PyDict entry) => assoc "default" entry
      | _ => None
      end
  | _ => None
  end.

(** The advertised tool called [n], if any. *)
Definition tool_named (n : string) : option Mcp.Tool :=
  find (fun t => String.eqb n (Mcp.name t)) Mcp.handle_list_tools.

(** Two argument dicts that hold the same under every key of [keys]. *)
Definition agree_on (keys : list string) (args1 args2 : list (string * pyval)) : Prop :=
  forall k, In k keys -> assoc k args1 = assoc k args2.

(** The interactive server's answer [a] and the tool-invocation server's
    answer [m] say the same: the same exception, the same result object, or
    the same sentence, which the interactive server wraps with the symbol. *)
Definition same_answer (symbol : string) (a : res pyval) (m : res Mcp.answer) : Prop :=
  match a, m with
  | Raise e, Raise e' => e = e'
  | Ok obj, Ok (Mcp.Result obj') => obj = obj'
  | Ok obj, Ok (Mcp.Message sentence) =>
      obj = PyDict [("symbol", PyStr symbol); ("message", PyStr sentence)]
  | _, _ => False
  end.

(** The day the [k]-th reading still to come falls on, as days since the
    epoch. *)
Definition day_of_reading (w : world) (k : nat) : Z :=
  Z.of_N (days_since_epoch (clock w (k + clock_reads w))).

(** A provider that answers every request with the response [r]. *)
Definition responding (r : response) (rq : request) : res response := Ok r.

Definition blank_args : list (string * pyval) :=
  [("symbol", PyStr EmptyString); ("to_date", PyStr "2020-01-01")].

(** A provider answer with the four metrics peRatio, grossMargin, beta and
    roeTTM. *)
Definition four_metrics : list (string * pyval) :=
  [("metric", PyDict [("peRatio", PyFloat "28.4"); ("grossMargin", PyFloat "0.44");
                      ("beta", PyFloat "1.29"); ("roeTTM", PyFloat "1.47")]);
   ("series", PyDict [])].

Definition valuation_args : list (string * pyval) :=
  [("symbol", PyStr "aapl"); ("metric", PyStr "valuation")].

(** ** Sanity checks of the runtime fragments *)

Example upper_strip_aapl : strip (upper "  aapl ") = "AAPL".
Proof. vm_compute. reflexivity. Qed.

Example lower_peRatio_has_pe : str_in "pe" (lower "peRatio") = true.
Proof. vm_compute. reflexivity. Qed.

Example strftime_epoch : strftime_ymd (of_reading (MkReading 0 0)) = "1970-01-01".
Proof. vm_compute. reflexivity. Qed.

Example strftime_leap_day :
  strftime_ymd (of_reading (noon_clock 0)) = "2024-02-29".
Proof. vm_compute. reflexivity. Qed.

Example repr_nested :
  repr (PyList [PyStr "a'b"; PyInt (-3); PyDict [("k", PyBool true)]])
  = String "[" (String dquote ("a'b" ++ String dquote ", -3, {'k': True}]")).
Proof. vm_compute. reflexivity. Qed.

Example dumps_empty_containers :
  Json.dumps (PyList [PyDict []; PyList []; PyNone])
  = "[" ++ Json.newline ++ "  {}," ++ Json.newline ++ "  [],"
    ++ Json.newline ++ "  null" ++ Json.newline ++ "]".
Proof. vm_compute. reflexivity. Qed.

Example status_429_raises :
  raise_for_status (MkResponse 429 "Too Many Requests" "u" (Ok PyNone))
  = Raise (HTTPError "429 Client Error: Too Many Requests for url: u").
Proof. vm_compute. reflexivity. Qed.

Example demo_mcp_is_initialised : Mcp.init (Some "k3y") "cacert.pem" = Ok demo_mcp.
Proof. reflexivity. Qed.

(** ** Running the monad *)

Lemma fetch_run (s : Session) (url : string) (params : list (string * pyval))
    (timeout : option Z) (w : world) :
  fetch s url params timeout w
  = (received w (prepare s url params timeout),
     after_get w (prepare s url params timeout)).
Proof.
  unfold fetch, received, bind, session_get, lift, after_get; simpl.
  destruct (network w (prepare s url params timeout)) as [r|e]; simpl; auto.
  destruct (raise_for_status r); simpl; auto.
Qed.

Lemma sub_days_of_reading (r : reading) (n : Z) :
  0 <= n <= 719162 ->
  sub_days (of_reading r) n
  = Ok (MkDatetime (EPOCH_ORDINAL + Z.of_N (days_since_epoch r) - n)
                   (Z.of_N (usec r))).
Proof.
  intros Hn. unfold sub_days, of_reading. cbn [ordinal usec_of_day].
  destruct (Z.ltb_spec (EPOCH_ORDINAL + Z.of_N (days_since_epoch r) - n) 1) as [H|H];
    [|reflexivity].
  unfold EPOCH_ORDINAL in H. lia.
Qed.

Lemma stamp_0 (w : world) (k : nat) :
  stamp w k 0 = strftime_ymd (of_reading (clock w (k + clock_reads w))).
Proof. unfold stamp, of_reading. now rewrite Z.sub_0_r. Qed.

(** The interactive server's defaults, case by case. *)
Lemma app_default_dates_run (days : Z) (from_date to_date : string) (w : world) :
  0 <= days <= 719162 ->
  App.default_dates days from_date to_date w
  = match str_nonempty from_date, str_nonempty to_date with
    | true, true => (Ok (from_date, to_date), w)
    | true, false => (Ok (from_date, stamp w 0 0), after_reads w 1)
    | false, true => (Ok (stamp w 0 days, to_date), after_reads w 1)
    | false, false => (Ok (stamp w 1 days, stamp w 0 0), after_reads w 2)
    end.
Proof.
  intros Hd. unfold App.default_dates, bind, ret, lift, datetime_now.
  destruct (str_nonempty to_date), (str_nonempty from_date); simpl;
    rewrite ?sub_days_of_reading by assumption; rewrite ?stamp_0;
    try reflexivity; destruct w; reflexivity.
Qed.

(** The tool-invocation server's defaults: two readings whatever [args]
    holds. *)
Lemma mcp_default_dates_run (days : Z) (args : list (string * pyval)) (w : world) :
  0 <= days <= 719162 ->
  Mcp.default_dates days args w
  = (Ok (match assoc "from_date" args with
         | Some v => v
         | None => PyStr (stamp w 1 days)
         end,
         match assoc "to_date" args with
         | Some v => v
         | None => PyStr (stamp w 0 0)
         end),
     after_reads w 2).
Proof.
  intros Hd. unfold Mcp.default_dates, bind, ret, lift, datetime_now, get; simpl.
  rewrite sub_days_of_reading by assumption. rewrite stamp_0. reflexivity.
Qed.

(** The interactive server's defaults always resolve, touching neither the
    network nor the log. *)
Lemma app_default_dates_total (days : Z) (from_date to_date : string) (w : world) :
  0 <= days <= 719162 ->
  exists dates n,
    App.default_dates days from_date to_date w = (Ok dates, after_reads w n).
Proof.
  intros Hd. rewrite app_default_dates_run by assumption.
  destruct (str_nonempty from_date), (str_nonempty to_date); eauto.
  exists (from_date, to_date), O. destruct w; reflexivity.
Qed.

(** A guarded block of the interactive server: fetch, build the answer,
    serialise; any exception becomes the error object. *)
Lemma app_guarded_run (s : Session) (url : string) (params : list (string * pyval))
    (answer : pyval -> res pyval) (w : world) :
  try_except
    (data <- fetch s url params (Some 10) ;;
     a <- lift (answer data) ;;
     ret (Json.dumps a))
    App.on_exception w
  = (Ok (app_text (let? data := received w (prepare s url params (Some 10)) in
                   answer data)),
     after_get w (prepare s url params (Some 10))).
Proof.
  unfold try_except, bind. rewrite fetch_run.
  destruct (received w _) as [data|e]; simpl; [|reflexivity].
  unfold lift. destruct (answer data); reflexivity.
Qed.

(** The tail of an operation of the tool-invocation server: fetch, build
    the answer, wrap it; nothing is caught. *)
Lemma mcp_tail_run (s : Session) (url : string) (params : list (string * pyval))
    (answer : pyval -> res Mcp.answer) (w : world) :
  (data <- fetch s url params None ;;
   a <- lift (answer data) ;;
   ret (Mcp.render a)) w
  = ((let? data := received w (prepare s url params None) in
      let? a := answer data in
      Ok (Mcp.render a)),
     after_get w (prepare s url params None)).
Proof.
  unfold bind. rewrite fetch_run.
  destruct (received w _) as [data|e]; simpl; [|reflexivity].
  unfold lift. destruct (answer data); reflexivity.
Qed.

(** *** The operations of the interactive server, run *)

Section AppRuns.
Variable g : App.globals.
Variable symbol : string.
Hypothesis Hkey : configured g.
Hypothesis Hsym : names_a_symbol symbol.

Lemma app_press_releases_run (from_date to_date : string) (w : world) :
  exists dates n,
    App.default_dates 30 from_date to_date w = (Ok dates, after_reads w n) /\
    let rq := prepare (App.session g) (FINNHUB_BASE_URL ++ "/press-releases")
                [("symbol", PyStr (strip (upper symbol))); ("from", PyStr (fst dates));
                 ("to", PyStr (snd dates))] (Some 10) in
    App.get_press_releases g symbol from_date to_date w
    = (Ok (app_text (let? data := received w rq in
                     App.press_releases_answer (strip (upper symbol))
                       (fst dates) (snd dates) data)),
       after_get (after_reads w n) rq).
Proof.
  destruct (app_default_dates_total 30 from_date to_date w ltac:(lia))
    as (dates & n & E).
  exists dates, n. split; [exact E|]. cbv zeta.
  unfold App.get_press_releases. rewrite Hkey.
  unfold names_a_symbol in Hsym. rewrite Hsym. cbn [negb].
  unfold bind at 1. rewrite E.
  unfold App.press_releases_try. cbv zeta. now rewrite app_guarded_run.
Qed.

Lemma app_insider_transactions_run (from_date to_date : string) (w : world) :
  exists dates n,
    App.default_dates 90 from_date to_date w = (Ok dates, after_reads w n) /\
    let rq := prepare (App.session g)
                (FINNHUB_BASE_URL ++ "/stock/insider-transactions")
                [("symbol", PyStr (strip (upper symbol))); ("from", PyStr (fst dates));
                 ("to", PyStr (snd dates))] (Some 10) in
    App.get_insider_transactions g symbol from_date to_date w
    = (Ok (app_text (let? data := received w rq in
                     App.insider_transactions_answer (strip (upper symbol))
                       (fst dates) (snd dates) data)),
       after_get (after_reads w n) rq).
Proof.
  destruct (app_default_dates_total 90 from_date to_date w ltac:(lia))
    as (dates & n & E).
  exists dates, n. split; [exact E|]. cbv zeta.
  unfold App.get_insider_transactions. rewrite Hkey.
  unfold names_a_symbol in Hsym. rewrite Hsym. cbn [negb].
  unfold bind at 1. rewrite E.
  unfold App.insider_transactions_try. cbv zeta. now rewrite app_guarded_run.
Qed.

Lemma app_basic_financials_run (metric_type : string) (w : world) :
  let rq := prepare (App.session g) (FINNHUB_BASE_URL ++ "/stock/metric")
              [("symbol", PyStr (strip (upper symbol))); ("metric", PyStr "all")] (Some 10) in
  App.get_basic_financials g symbol metric_type w
  = (Ok (app_text (let? data := received w rq in
                   App.basic_financials_answer (strip (upper symbol)) metric_type data)),
     after_get w rq).
Proof.
  cbv zeta. unfold App.get_basic_financials. rewrite Hkey.
  unfold names_a_symbol in Hsym. rewrite Hsym. cbn [negb].
  unfold App.basic_financials_try. cbv zeta. now rewrite app_guarded_run.
Qed.

Lemma app_company_profile_run (w : world) :
  let rq := prepare (App.session g) (FINNHUB_BASE_URL ++ "/stock/profile2")
              [("symbol", PyStr (strip (upper symbol)))] (Some 10) in
  App.get_company_profile g symbol w
  = (Ok (app_text (let? data := received w rq in
                   App.company_profile_answer (strip (upper symbol)) data)),
     after_get w rq).
Proof.
  cbv zeta. unfold App.get_company_profile. rewrite Hkey.
  unfold names_a_symbol in Hsym. rewrite Hsym. cbn [negb].
  unfold App.company_profile_try. cbv zeta. now rewrite app_guarded_run.
Qed.

Lemma app_earnings_surprises_run (limit : Z) (w : world) :
  let rq := prepare (App.session g) (FINNHUB_BASE_URL ++ "/stock/earnings")
              [("symbol", PyStr (strip (upper symbol))); ("limit", PyInt limit)] (Some 10) in
  App.get_earnings_surprises g symbol limit w
  = (Ok (app_text (let? data := received w rq in
                   App.earnings_surprises_answer (strip (upper symbol)) data)),
     after_get w rq).
Proof.
  cbv zeta. unfold App.get_earnings_surprises. rewrite Hkey.
  unfold names_a_symbol in Hsym. rewrite Hsym. cbn [negb].
  unfold App.earnings_surprises_try. cbv zeta. now rewrite app_guarded_run.
Qed.

End AppRuns.

(** *** The operations of the tool-invocation server, run *)

Section McpRuns.
Variable g : Mcp.globals.
Variable args : list (string * pyval).
Variable symbol : string.
Hypothesis Hsym : Mcp.symbol_of args = Ok symbol.

Lemma mcp_press_releases_run (w : world) :
  let dates := mcp_dates args 30 w in
  let rq := prepare (Mcp.session g) (FINNHUB_BASE_URL ++ "/press-releases")
              [("symbol", PyStr symbol); ("from", fst dates); ("to", snd dates)]
              None in
  Mcp.get_press_releases g args w
  = ((let? data := received w rq in
      let? a := Mcp.press_releases_answer symbol (fst dates) (snd dates) data in
      Ok (Mcp.render a)),
     after_get (after_reads w 2) rq).
Proof.
  cbv zeta. unfold Mcp.get_press_releases.
  unfold bind at 1. unfold lift at 1. rewrite Hsym.
  unfold bind at 1. rewrite mcp_default_dates_run by lia.
  fold (mcp_dates args 30 w). now rewrite mcp_tail_run.
Qed.

Lemma mcp_insider_transactions_run (w : world) :
  let dates := mcp_dates args 90 w in
  let rq := prepare (Mcp.session g)
              (FINNHUB_BASE_URL ++ "/stock/insider-transactions")
              [("symbol", PyStr symbol); ("from", fst dates); ("to", snd dates)]
              None in
  Mcp.get_insider_transactions g args w
  = ((let? data := received w rq in
      let? a := Mcp.insider_transactions_answer symbol (fst dates) (snd dates) data in
      Ok (Mcp.render a)),
     after_get (after_reads w 2) rq).
Proof.
  cbv zeta. unfold Mcp.get_insider_transactions.
  unfold bind at 1. unfold lift at 1. rewrite Hsym.
  unfold bind at 1. rewrite mcp_default_dates_run by lia.
  fold (mcp_dates args 90 w). now rewrite mcp_tail_run.
Qed.

Lemma mcp_basic_financials_run (w : world) :
  let metric_type := field args "metric" (PyStr "all") in
  let rq := prepare (Mcp.session g) (FINNHUB_BASE_URL ++ "/stock/metric")
              [("symbol", PyStr symbol); ("metric", PyStr "all")] None in
  Mcp.get_basic_financials g args w
  = ((let? data := received w rq in
      let? a := Mcp.basic_financials_answer symbol metric_type data in
      Ok (Mcp.render a)),
     after_get w rq).
Proof.
  cbv zeta. unfold Mcp.get_basic_financials.
  unfold bind at 1. unfold lift at 1. rewrite Hsym.
  unfold bind at 1. unfold lift at 1. unfold get at 1. fold (field args "metric" (PyStr "all")).
  now rewrite mcp_tail_run.
Qed.

Lemma mcp_company_profile_run (w : world) :
  let rq := prepare (Mcp.session g) (FINNHUB_BASE_URL ++ "/stock/profile2")
              [("symbol", PyStr symbol)] None in
  Mcp.get_company_profile g args w
  = ((let? data := received w rq in
      let? a := Mcp.company_profile_answer symbol data in
      Ok (Mcp.render a)),
     after_get w rq).
Proof.
  cbv zeta. unfold Mcp.get_company_profile.
  unfold bind at 1. unfold lift at 1. rewrite Hsym.
  now rewrite mcp_tail_run.
Qed.

Lemma mcp_earnings_surprises_run (w : world) :
  let rq := prepare (Mcp.session g) (FINNHUB_BASE_URL ++ "/stock/earnings")
              [("symbol", PyStr symbol); ("limit", field args "limit" (PyInt 4))]
              None in
  Mcp.get_earnings_surprises g args w
  = ((let? data := received w rq in
      let? a := Mcp.earnings_surprises_answer symbol data in
      Ok (Mcp.render a)),
     after_get w rq).
Proof.
  cbv zeta. unfold Mcp.get_earnings_surprises.
  unfold bind at 1. unfold lift at 1. rewrite Hsym.
  unfold bind at 1. unfold lift at 1. unfold get at 1. fold (field args "limit" (PyInt 4)).
  now rewrite mcp_tail_run.
Qed.

End McpRuns.

(** ** The missing token *)

(** C3: With FINNHUB_API_KEY absent from the environment, importing the
    tool-invocation server raises (its globals, session and server are never
    created); the interactive server loads, shows its warning, and each of
    its five operations returns the "FINNHUB_API_KEY not configured" error
    object at once, leaving the world as it found it: no request is sent and
    the clock is not read. *)
Theorem missing_token_stops_mcp_and_short_circuits_app
    (ca_bundle symbol from_date to_date metric_type : string) (limit : Z)
    (w : world) :
  Mcp.init None ca_bundle
  = Raise (Mcp.ValueError "FINNHUB_API_KEY environment variable is required")
  /\ App.shows_warning (App.init None) = true
  /\ App.NOT_CONFIGURED
     = Json.dumps (PyDict [("error", PyStr "FINNHUB_API_KEY not configured")])
  /\ App.get_press_releases (App.init None) symbol from_date to_date w
     = (Ok App.NOT_CONFIGURED, w)
  /\ App.get_insider_transactions (App.init None) symbol from_date to_date w
     = (Ok App.NOT_CONFIGURED, w)
  /\ App.get_basic_financials (App.init None) symbol metric_type w
     = (Ok App.NOT_CONFIGURED, w)
  /\ App.get_company_profile (App.init None) symbol w
     = (Ok App.NOT_CONFIGURED, w)
  /\ App.get_earnings_surprises (App.init None) symbol limit w
     = (Ok App.NOT_CONFIGURED, w).
Proof. repeat split. Qed.

(** ** The metric filter *)

Lemma comprehension_dict (terms : list string) (d : list (string * pyval)) :
  comprehension terms (PyDict d)
  = Ok (PyDict (filter (fun kv => key_matches terms (fst kv)) d)).
Proof. reflexivity. Qed.

Lemma key_matches_price (k : string) :
  key_matches PRICE_TERMS k
  = str_in "price" (lower k) || str_in "52week" (lower k) || str_in "beta" (lower k).
Proof.
  unfold key_matches, PRICE_TERMS. cbn [existsb].
  now rewrite orb_false_r, orb_assoc.
Qed.

Lemma key_matches_valuation (k : string) :
  key_matches VALUATION_TERMS k
  = str_in "pe" (lower k) || str_in "pb" (lower k) || str_in "ps" (lower k)
    || str_in "ev" (lower k) || str_in "ratio" (lower k).
Proof.
  unfold key_matches, VALUATION_TERMS. cbn [existsb].
  now rewrite orb_false_r, !orb_assoc.
Qed.

Lemma key_matches_margin (k : string) :
  key_matches MARGIN_TERMS k
  = str_in "margin" (lower k) || str_in "roe" (lower k) || str_in "roa" (lower k)
    || str_in "roic" (lower k).
Proof.
  unfold key_matches, MARGIN_TERMS. cbn [existsb].
  now rewrite orb_false_r, !orb_assoc.
Qed.

Lemma filter_metrics_price (m : pyval) :
  filter_metrics (PyStr "price") m = comprehension PRICE_TERMS m.
Proof. reflexivity. Qed.

Lemma filter_metrics_valuation (m : pyval) :
  filter_metrics (PyStr "valuation") m = comprehension VALUATION_TERMS m.
Proof. reflexivity. Qed.

Lemma filter_metrics_margin (m : pyval) :
  filter_metrics (PyStr "margin") m = comprehension MARGIN_TERMS m.
Proof. reflexivity. Qed.

(** The filter chain on its own.  On the metrics object {peRatio,
    grossMargin, beta, roeTTM} (whatever the four values), category valuation keeps exactly peRatio,
    margin keeps exactly grossMargin and roeTTM, price keeps exactly beta,
    and all keeps the four.  On any metrics object, price keeps the items
    whose lowercased key contains "price", "52week" or "beta"; valuation
    those containing "pe", "pb", "ps", "ev" or "ratio"; margin those
    containing "margin", "roe", "roa" or "roic" (in the provider's order);
    any category other than these three passes the metrics through
    unfiltered. *)
Lemma metric_filter_by_category
    (pe gm be roe : pyval) (d : list (string * pyval)) (other metrics : pyval) :
  eq_str other "price" = false ->
  eq_str other "valuation" = false ->
  eq_str other "margin" = false ->
  let four := PyDict [("peRatio", pe); ("grossMargin", gm); ("beta", be);
                      ("roeTTM", roe)] in
  (filter_metrics (PyStr "valuation") four = Ok (PyDict [("peRatio", pe)])
   /\ filter_metrics (PyStr "margin") four
      = Ok (PyDict [("grossMargin", gm); ("roeTTM", roe)])
   /\ filter_metrics (PyStr "price") four = Ok (PyDict [("beta", be)])
   /\ filter_metrics (PyStr "all") four = Ok four)
  /\ filter_metrics (PyStr "price") (PyDict d)
     = Ok (PyDict (filter (fun kv =>
                     str_in "price" (lower (fst kv))
                     || str_in "52week" (lower (fst kv))
                     || str_in "beta" (lower (fst kv))) d))
  /\ filter_metrics (PyStr "valuation") (PyDict d)
     = Ok (PyDict (filter (fun kv =>
                     str_in "pe" (lower (fst kv)) || str_in "pb" (lower (fst kv))
                     || str_in "ps" (lower (fst kv)) || str_in "ev" (lower (fst kv))
                     || str_in "ratio" (lower (fst kv))) d))
  /\ filter_metrics (PyStr "margin") (PyDict d)
     = Ok (PyDict (filter (fun kv =>
                     str_in "margin" (lower (fst kv)) || str_in "roe" (lower (fst kv))
                     || str_in "roa" (lower (fst kv))
                     || str_in "roic" (lower (fst kv))) d))
  /\ filter_metrics other metrics = Ok metrics.
Proof.
  intros Hp Hv Hm four.
  refine (conj (conj _ (conj _ (conj _ _))) (conj _ (conj _ (conj _ _)))).
  - vm_compute. reflexivity.
  - vm_compute. reflexivity.
  - vm_compute. reflexivity.
  - vm_compute. reflexivity.
  - rewrite filter_metrics_price, comprehension_dict. do 2 f_equal.
    apply filter_ext. intros kv. apply key_matches_price.
  - rewrite filter_metrics_valuation, comprehension_dict. do 2 f_equal.
    apply filter_ext. intros kv. apply key_matches_valuation.
  - rewrite filter_metrics_margin, comprehension_dict. do 2 f_equal.
    apply filter_ext. intros kv. apply key_matches_margin.
  - unfold filter_metrics. now rewrite Hp, Hv, Hm.
Qed.

(** The lemma at the metrics of a provider answer, with a category the
    chain does not know. *)
Lemma metric_filter_by_category_witness :
  filter_metrics (PyStr "growth")
    (PyDict [("peRatio", PyFloat "28.4"); ("epsGrowth5Y", PyFloat "0.11")])
  = Ok (PyDict [("peRatio", PyFloat "28.4"); ("epsGrowth5Y", PyFloat "0.11")]).
Proof.
  apply (metric_filter_by_category PyNone PyNone PyNone PyNone [] (PyStr "growth"));
    reflexivity.
Defined.

(** ** Failures *)

Lemma try_except_reports (block : M string) (w : world) (e : exn) (w2 : world) :
  block w = (Raise e, w2) ->
  try_except block App.on_exception w
  = (Ok (Json.dumps (PyDict [("error", PyStr (exn_msg e))])), w2).
Proof. intros E. unfold try_except. now rewrite E. Qed.

Lemma app_guards (g : App.globals) (symbol : string) :
  (configured g /\ names_a_symbol symbol)
  \/ negb (str_nonempty (App.API_KEY g)) = true
  \/ (negb (str_nonempty (App.API_KEY g)) = false
      /\ negb (str_nonempty (strip (upper symbol))) = true).
Proof.
  unfold configured, names_a_symbol.
  destruct (str_nonempty (App.API_KEY g)), (str_nonempty (strip (upper symbol)));
    simpl; auto.
Qed.

(** Past its two guards an operation of the interactive server is its
    prelude followed by the guarded block. *)
Ltac app_enter Hkey Hsym :=
  unfold configured in Hkey; unfold names_a_symbol in Hsym;
  rewrite Hkey, Hsym; cbn [negb].

Ltac app_short_circuit H :=
  let H1 := fresh in let H2 := fresh in
  destruct H as [H1|[H1 H2]];
  [ rewrite H1 | rewrite H1, H2 ]; unfold ret; eauto.

(** C1 (as amended): In the interactive server none of the five operations
    ever raises: each returns a text from every world.  Once an operation is
    past its guards, whatever exception its guarded block raises (from the
    GET, the status check, the decoding or the reshaping) is answered with
    the object whose only field is [error], holding the exception's text.
    The tool-invocation server has no handler: when the GET, the status
    check or the decoding raises, each of its five operations raises that
    exception to its caller. *)
Theorem failures_are_caught_by_app_only
    (g : App.globals) (gm : Mcp.globals)
    (symbol from_date to_date metric_type msym : string) (limit : Z)
    (args : list (string * pyval)) :
  (never_raises (App.get_press_releases g symbol from_date to_date)
   /\ never_raises (App.get_insider_transactions g symbol from_date to_date)
   /\ never_raises (App.get_basic_financials g symbol metric_type)
   /\ never_raises (App.get_company_profile g symbol)
   /\ never_raises (App.get_earnings_surprises g symbol limit))
  /\ (configured g -> names_a_symbol symbol ->
      forall w,
        (forall dates w1,
           App.default_dates 30 from_date to_date w = (Ok dates, w1) ->
           reports (App.get_press_releases g symbol from_date to_date)
                   (App.press_releases_try g (strip (upper symbol))
                      (fst dates) (snd dates)) w w1)
        /\ (forall dates w1,
              App.default_dates 90 from_date to_date w = (Ok dates, w1) ->
              reports (App.get_insider_transactions g symbol from_date to_date)
                      (App.insider_transactions_try g (strip (upper symbol))
                         (fst dates) (snd dates)) w w1)
        /\ reports (App.get_basic_financials g symbol metric_type)
                   (App.basic_financials_try g (strip (upper symbol)) metric_type)
                   w w
        /\ reports (App.get_company_profile g symbol)
                   (App.company_profile_try g (strip (upper symbol))) w w
        /\ reports (App.get_earnings_surprises g symbol limit)
                   (App.earnings_surprises_try g (strip (upper symbol)) limit)
                   w w)
  /\ (Mcp.symbol_of args = Ok msym ->
      forall w e,
        (forall rq, received w rq = Raise e) ->
        fst (Mcp.get_press_releases gm args w) = Raise e
        /\ fst (Mcp.get_insider_transactions gm args w) = Raise e
        /\ fst (Mcp.get_basic_financials gm args w) = Raise e
        /\ fst (Mcp.get_company_profile gm args w) = Raise e
        /\ fst (Mcp.get_earnings_surprises gm args w) = Raise e).
Proof.
  refine (conj _ (conj _ _)).
  - destruct (app_guards g symbol) as [[Hkey Hsym]|Hshort].
    + refine (conj _ (conj _ (conj _ (conj _ _)))); intros w.
      * destruct (app_press_releases_run g symbol Hkey Hsym from_date to_date w)
          as (dates & n & _ & E). cbv zeta in E. rewrite E. eauto.
      * destruct (app_insider_transactions_run g symbol Hkey Hsym from_date to_date w)
          as (dates & n & _ & E). cbv zeta in E. rewrite E. eauto.
      * pose proof (app_basic_financials_run g symbol Hkey Hsym metric_type w) as E.
        cbv zeta in E. rewrite E. eauto.
      * pose proof (app_company_profile_run g symbol Hkey Hsym w) as E.
        cbv zeta in E. rewrite E. eauto.
      * pose proof (app_earnings_surprises_run g symbol Hkey Hsym limit w) as E.
        cbv zeta in E. rewrite E. eauto.
    + refine (conj _ (conj _ (conj _ (conj _ _)))); intros w.
      * unfold App.get_press_releases. app_short_circuit Hshort.
      * unfold App.get_insider_transactions. app_short_circuit Hshort.
      * unfold App.get_basic_financials. app_short_circuit Hshort.
      * unfold App.get_company_profile. app_short_circuit Hshort.
      * unfold App.get_earnings_surprises. app_short_circuit Hshort.
  - intros Hkey Hsym w.
    refine (conj _ (conj _ (conj _ (conj _ _)))).
    + intros dates w1 Hd e w2 Hb. unfold App.get_press_releases.
      app_enter Hkey Hsym. unfold bind. rewrite Hd.
      now apply try_except_reports.
    + intros dates w1 Hd e w2 Hb. unfold App.get_insider_transactions.
      app_enter Hkey Hsym. unfold bind. rewrite Hd.
      now apply try_except_reports.
    + intros e w2 Hb. unfold App.get_basic_financials.
      app_enter Hkey Hsym. now apply try_except_reports.
    + intros e w2 Hb. unfold App.get_company_profile.
      app_enter Hkey Hsym. now apply try_except_reports.
    + intros e w2 Hb. unfold App.get_earnings_surprises.
      app_enter Hkey Hsym. now apply try_except_reports.
  - intros Hs w e Hw.
    rewrite (mcp_press_releases_run gm args msym Hs w),
      (mcp_insider_transactions_run gm args msym Hs w),
      (mcp_basic_financials_run gm args msym Hs w),
      (mcp_company_profile_run gm args msym Hs w),
      (mcp_earnings_surprises_run gm args msym Hs w).
    cbv zeta. rewrite !Hw. cbn [fst res_bind]. repeat split.
Qed.

(** The theorem on a provider that cannot be reached and on one that
    answers 429: the five operations return the error text of the
    exception. *)
Lemma failures_are_caught_by_app_only_witness :
  configured demo_app /\ names_a_symbol " aapl"
  /\ fst (App.get_press_releases demo_app " aapl" EmptyString "2024-02-29"
            (world_of noon_clock unreachable))
     = Ok (Json.dumps (PyDict [("error", PyStr "Connection aborted.")]))
  /\ fst (App.get_insider_transactions demo_app " aapl" "2024-01-01" "2024-02-29"
            (world_of noon_clock throttling))
     = Ok (Json.dumps (PyDict [("error", PyStr
            "429 Client Error: Too Many Requests for url: https://finnhub.io/api/v1/stock/insider-transactions")]))
  /\ fst (App.get_basic_financials demo_app " aapl" "price"
            (world_of noon_clock (answering (PyDict [("metric", PyList [PyInt 1])]))))
     = Ok (Json.dumps (PyDict [("error", PyStr "'list' object has no attribute 'items'")]))
  /\ fst (App.get_company_profile demo_app " aapl" (world_of noon_clock unreachable))
     = Ok (Json.dumps (PyDict [("error", PyStr "Connection aborted.")]))
  /\ fst (App.get_earnings_surprises demo_app " aapl" 4
            (world_of noon_clock unreachable))
     = Ok (Json.dumps (PyDict [("error", PyStr "Connection aborted.")]))
  /\ Mcp.symbol_of explicit_args = Ok "AAPL"
  /\ fst (Mcp.get_earnings_surprises demo_mcp explicit_args
            (world_of noon_clock unreachable))
     = Raise ConnectionError.
Proof.
  assert (Hkey : configured demo_app) by reflexivity.
  assert (Hsym : names_a_symbol " aapl") by (vm_compute; reflexivity).
  split; [exact Hkey|]. split; [exact Hsym|].
  assert (Hs : Mcp.symbol_of explicit_args = Ok "AAPL") by (vm_compute; reflexivity).
  refine (conj _ (conj _ (conj _ (conj _ (conj _ (conj Hs _)))))).
  - destruct (failures_are_caught_by_app_only demo_app demo_mcp " aapl" EmptyString
                "2024-02-29" "price" "AAPL" 4 explicit_args) as (_ & H & _).
    destruct (H Hkey Hsym (world_of noon_clock unreachable)) as (H1 & _).
    erewrite (H1 _ _ ltac:(vm_compute; reflexivity) _ _ ltac:(vm_compute; reflexivity)).
    reflexivity.
  - destruct (failures_are_caught_by_app_only demo_app demo_mcp " aapl" "2024-01-01"
                "2024-02-29" "price" "AAPL" 4 explicit_args) as (_ & H & _).
    destruct (H Hkey Hsym (world_of noon_clock throttling)) as (_ & H2 & _).
    erewrite (H2 _ _ ltac:(vm_compute; reflexivity) _ _ ltac:(vm_compute; reflexivity)).
    reflexivity.
  - destruct (failures_are_caught_by_app_only demo_app demo_mcp " aapl" "2024-01-01"
                "2024-02-29" "price" "AAPL" 4 explicit_args) as (_ & H & _).
    destruct (H Hkey Hsym
                (world_of noon_clock (answering (PyDict [("metric", PyList [PyInt 1])]))))
      as (_ & _ & H3 & _).
    erewrite (H3 _ _ ltac:(vm_compute; reflexivity)). reflexivity.
  - destruct (failures_are_caught_by_app_only demo_app demo_mcp " aapl" "2024-01-01"
                "2024-02-29" "price" "AAPL" 4 explicit_args) as (_ & H & _).
    destruct (H Hkey Hsym (world_of noon_clock unreachable)) as (_ & _ & _ & H4 & _).
    erewrite (H4 _ _ ltac:(vm_compute; reflexivity)). reflexivity.
  - destruct (failures_are_caught_by_app_only demo_app demo_mcp " aapl" "2024-01-01"
                "2024-02-29" "price" "AAPL" 4 explicit_args) as (_ & H & _).
    destruct (H Hkey Hsym (world_of noon_clock unreachable)) as (_ & _ & _ & _ & H5).
    erewrite (H5 _ _ ltac:(vm_compute; reflexivity)). reflexivity.
  - destruct (failures_are_caught_by_app_only demo_app demo_mcp " aapl" "2024-01-01"
                "2024-02-29" "price" "AAPL" 4 explicit_args) as (_ & _ & H).
    destruct (H Hs (world_of noon_clock unreachable) ConnectionError
                (fun rq => eq_refl)) as (_ & _ & _ & _ & H5).
    exact H5.
Defined.

(** C1, counterexample: the tool-invocation server has no handler: with the
    provider out of reach its press-release operation raises the transport
    error to its caller. *)
Lemma mcp_press_releases_raises :
  ~ never_raises (Mcp.get_press_releases demo_mcp [("symbol", PyStr "AAPL")]).
Proof.
  intros H. destruct (H (world_of noon_clock unreachable)) as (a & w' & E).
  vm_compute in E. discriminate E.
Qed.

(** ** The symbol *)




(** ** The timeout *)

Lemma sends_only_unchanged {A} (P : request -> Prop) (op : M A) (w : world)
    (r : res A) :
  op w = (r, w) ->
  exists new, sent (snd (op w)) = (sent w ++ new)%list /\ Forall P new.
Proof.
  intros E. exists []. rewrite E. simpl. now rewrite app_nil_r.
Qed.

Lemma sends_only_one {A} (P : request -> Prop) (op : M A) (w : world)
    (r : res A) (n : nat) (rq : request) :
  op w = (r, after_get (after_reads w n) rq) -> P rq ->
  exists new, sent (snd (op w)) = (sent w ++ new)%list /\ Forall P new.
Proof.
  intros E HP. exists [rq]. rewrite E. simpl. auto.
Qed.

Lemma after_reads_0 (w : world) : after_reads w 0 = w.
Proof. destruct w; reflexivity. Qed.

Ltac app_sends_short Hshort :=
  let H1 := fresh in let H2 := fresh in
  destruct Hshort as [H1|[H1 H2]];
  eapply sends_only_unchanged;
  [ rewrite H1 | rewrite H1, H2 ]; reflexivity.

Lemma mcp_symbol_raises_early (args : list (string * pyval))
    (e : exn) (k : string -> M (list Mcp.TextContent)) (w : world) :
  Mcp.symbol_of args = Raise e ->
  (symbol <- lift (Mcp.symbol_of args) ;; k symbol) w = (Raise e, w).
Proof. intros E. unfold bind, lift. now rewrite E. Qed.

(** C8 (as amended): Every GET the five operations of the interactive
    server send carries the timeout 10; the GETs of the tool-invocation
    server carry none. *)
Theorem app_requests_carry_timeout_10
    (g : App.globals) (gm : Mcp.globals) (symbol from_date to_date metric_type : string)
    (limit : Z) (args : list (string * pyval)) :
  (sends_only timeout_is_10 (App.get_press_releases g symbol from_date to_date)
   /\ sends_only timeout_is_10 (App.get_insider_transactions g symbol from_date to_date)
   /\ sends_only timeout_is_10 (App.get_basic_financials g symbol metric_type)
   /\ sends_only timeout_is_10 (App.get_company_profile g symbol)
   /\ sends_only timeout_is_10 (App.get_earnings_surprises g symbol limit))
  /\ (sends_only (fun rq => req_timeout rq = None) (Mcp.get_press_releases gm args)
      /\ sends_only (fun rq => req_timeout rq = None) (Mcp.get_insider_transactions gm args)
      /\ sends_only (fun rq => req_timeout rq = None) (Mcp.get_basic_financials gm args)
      /\ sends_only (fun rq => req_timeout rq = None) (Mcp.get_company_profile gm args)
      /\ sends_only (fun rq => req_timeout rq = None) (Mcp.get_earnings_surprises gm args)).
Proof.
  split.
  - destruct (app_guards g symbol) as [[Hkey Hsym]|Hshort].
    + refine (conj _ (conj _ (conj _ (conj _ _)))); intros w.
      * destruct (app_press_releases_run g symbol Hkey Hsym from_date to_date w)
          as (dates & n & _ & E). cbv zeta in E.
        eapply sends_only_one; [exact E|reflexivity].
      * destruct (app_insider_transactions_run g symbol Hkey Hsym from_date to_date w)
          as (dates & n & _ & E). cbv zeta in E.
        eapply sends_only_one; [exact E|reflexivity].
      * pose proof (app_basic_financials_run g symbol Hkey Hsym metric_type w) as E.
        cbv zeta in E. rewrite <- (after_reads_0 w) in E at 3.
        eapply sends_only_one; [exact E|reflexivity].
      * pose proof (app_company_profile_run g symbol Hkey Hsym w) as E.
        cbv zeta in E. rewrite <- (after_reads_0 w) in E at 3.
        eapply sends_only_one; [exact E|reflexivity].
      * pose proof (app_earnings_surprises_run g symbol Hkey Hsym limit w) as E.
        cbv zeta in E. rewrite <- (after_reads_0 w) in E at 3.
        eapply sends_only_one; [exact E|reflexivity].
    + refine (conj _ (conj _ (conj _ (conj _ _)))); intros w.
      * unfold App.get_press_releases. app_sends_short Hshort.
      * unfold App.get_insider_transactions. app_sends_short Hshort.
      * unfold App.get_basic_financials. app_sends_short Hshort.
      * unfold App.get_company_profile. app_sends_short Hshort.
      * unfold App.get_earnings_surprises. app_sends_short Hshort.
  - destruct (Mcp.symbol_of args) as [msym|e] eqn:Hs.
    + refine (conj _ (conj _ (conj _ (conj _ _)))); intros w.
      * pose proof (mcp_press_releases_run gm args msym Hs w) as E. cbv zeta in E.
        eapply sends_only_one; [exact E|reflexivity].
      * pose proof (mcp_insider_transactions_run gm args msym Hs w) as E. cbv zeta in E.
        eapply sends_only_one; [exact E|reflexivity].
      * pose proof (mcp_basic_financials_run gm args msym Hs w) as E. cbv zeta in E.
        rewrite <- (after_reads_0 w) in E at 3.
        eapply sends_only_one; [exact E|reflexivity].
      * pose proof (mcp_company_profile_run gm args msym Hs w) as E. cbv zeta in E.
        rewrite <- (after_reads_0 w) in E at 3.
        eapply sends_only_one; [exact E|reflexivity].
      * pose proof (mcp_earnings_surprises_run gm args msym Hs w) as E. cbv zeta in E.
        rewrite <- (after_reads_0 w) in E at 3.
        eapply sends_only_one; [exact E|reflexivity].
    + refine (conj _ (conj _ (conj _ (conj _ _)))); intros w;
        eapply sends_only_unchanged.
      * unfold Mcp.get_press_releases. apply (mcp_symbol_raises_early args e _ w Hs).
      * unfold Mcp.get_insider_transactions. apply (mcp_symbol_raises_early args e _ w Hs).
      * unfold Mcp.get_basic_financials. apply (mcp_symbol_raises_early args e _ w Hs).
      * unfold Mcp.get_company_profile. apply (mcp_symbol_raises_early args e _ w Hs).
      * unfold Mcp.get_earnings_surprises. apply (mcp_symbol_raises_early args e _ w Hs).
Qed.

(** C8, counterexample: the GET of the tool-invocation server's profile
    operation carries no timeout. *)
Lemma mcp_request_has_no_timeout :
  ~ sends_only timeout_is_10
      (Mcp.get_company_profile demo_mcp [("symbol", PyStr "AAPL")]).
Proof.
  intros H. destruct (H (world_of noon_clock unreachable)) as (new & E & F).
  vm_compute in E. destruct new as [|rq new]; [discriminate E|].
  injection E as E _. inversion F as [|? ? T _]. subst rq. discriminate T.
Qed.

(** ** Determinism *)

Lemma received_same_provider (w1 w2 : world) (rq : request) :
  same_provider w1 w2 -> received w1 rq = received w2 rq.
Proof. intros H. unfold received. now rewrite (H rq). Qed.

Lemma app_explicit_dates (days : Z) (from_date to_date : string) (w : world) :
  0 <= days <= 719162 ->
  str_nonempty from_date = true -> str_nonempty to_date = true ->
  App.default_dates days from_date to_date w = (Ok (from_date, to_date), w).
Proof.
  intros Hd Hf Ht. rewrite app_default_dates_run by assumption. now rewrite Hf, Ht.
Qed.

Lemma mcp_explicit_dates (args : list (string * pyval)) (days : Z) (w : world)
    (fd td : pyval) :
  assoc "from_date" args = Some fd -> assoc "to_date" args = Some td ->
  mcp_dates args days w = (fd, td).
Proof. intros Hf Ht. unfold mcp_dates. now rewrite Hf, Ht. Qed.

(** A second call, made in the world the first one left, returns what the
    first returned. *)
Lemma settled_by_provider_repeatable {A} (op : M A) (w : world) :
  settled_by_provider op -> fst (op (snd (op w))) = fst (op w).
Proof.
  intros H. destruct (H w w (fun rq => eq_refl)) as [_ Hp].
  now destruct (H (snd (op w)) w Hp).
Qed.

Lemma settled_const {A} (op : M A) (r : res A) :
  (forall w, op w = (r, w)) -> settled_by_provider op.
Proof.
  intros E w1 w2 H. rewrite (E w1), (E w2). split; [reflexivity|]. intros rq. reflexivity.
Qed.

Lemma settled_one_get {A} (op : M A) (k : res pyval -> res A) (n : nat)
    (rq : request) :
  (forall w, op w = (k (received w rq), after_get (after_reads w n) rq)) ->
  settled_by_provider op.
Proof.
  intros E w1 w2 H. rewrite (E w1), (E w2). cbn [fst snd]. split.
  - now rewrite (received_same_provider w1 w2 rq H).
  - intros rq'. reflexivity.
Qed.

Ltac app_const Hshort :=
  let H1 := fresh in let H2 := fresh in
  destruct Hshort as [H1|[H1 H2]];
  eapply settled_const; intros w;
  [ rewrite H1 | rewrite H1, H2 ]; reflexivity.

(** C9: With explicit dates (non-empty from_date and to_date boxes in the
    interactive server, both keys present in the arguments of the
    tool-invocation server), what each operation returns is the same from
    any two worlds with the same provider behind them, whatever their
    clocks, the number of clock readings so far and the requests already
    sent; the three operations without dates need no condition.  Equal
    returns are equal serialised texts. *)
Theorem answers_settled_by_inputs_and_provider
    (g : App.globals) (gm : Mcp.globals)
    (symbol from_date to_date metric_type : string) (limit : Z)
    (args : list (string * pyval)) (fd td : pyval) :
  str_nonempty from_date = true ->
  str_nonempty to_date = true ->
  assoc "from_date" args = Some fd ->
  assoc "to_date" args = Some td ->
  (settled_by_provider (App.get_press_releases g symbol from_date to_date)
   /\ settled_by_provider (App.get_insider_transactions g symbol from_date to_date)
   /\ settled_by_provider (App.get_basic_financials g symbol metric_type)
   /\ settled_by_provider (App.get_company_profile g symbol)
   /\ settled_by_provider (App.get_earnings_surprises g symbol limit))
  /\ (settled_by_provider (Mcp.get_press_releases gm args)
      /\ settled_by_provider (Mcp.get_insider_transactions gm args)
      /\ settled_by_provider (Mcp.get_basic_financials gm args)
      /\ settled_by_provider (Mcp.get_company_profile gm args)
      /\ settled_by_provider (Mcp.get_earnings_surprises gm args)).
Proof.
  intros Hf Ht Hfd Htd. split.
  - destruct (app_guards g symbol) as [[Hkey Hsym]|Hshort].
    + refine (conj _ (conj _ (conj _ (conj _ _)))).
      * eapply (settled_one_get _ (fun r => Ok (app_text (let? data := r in _))) 0).
        intros w.
        destruct (app_press_releases_run g symbol Hkey Hsym from_date to_date w)
          as (dates & n & D & E). cbv zeta in E.
        rewrite app_explicit_dates in D by (lia || assumption).
        injection D as D1 D2. subst dates. rewrite <- D2 in E. cbn [fst snd] in E.
        rewrite after_reads_0. exact E.
      * eapply (settled_one_get _ (fun r => Ok (app_text (let? data := r in _))) 0).
        intros w.
        destruct (app_insider_transactions_run g symbol Hkey Hsym from_date to_date w)
          as (dates & n & D & E). cbv zeta in E.
        rewrite app_explicit_dates in D by (lia || assumption).
        injection D as D1 D2. subst dates. rewrite <- D2 in E. cbn [fst snd] in E.
        rewrite after_reads_0. exact E.
      * eapply (settled_one_get _ (fun r => Ok (app_text (let? data := r in _))) 0).
        intros w. rewrite after_reads_0.
        exact (app_basic_financials_run g symbol Hkey Hsym metric_type w).
      * eapply (settled_one_get _ (fun r => Ok (app_text (let? data := r in _))) 0).
        intros w. rewrite after_reads_0.
        exact (app_company_profile_run g symbol Hkey Hsym w).
      * eapply (settled_one_get _ (fun r => Ok (app_text (let? data := r in _))) 0).
        intros w. rewrite after_reads_0.
        exact (app_earnings_surprises_run g symbol Hkey Hsym limit w).
    + refine (conj _ (conj _ (conj _ (conj _ _)))).
      * unfold App.get_press_releases. app_const Hshort.
      * unfold App.get_insider_transactions. app_const Hshort.
      * unfold App.get_basic_financials. app_const Hshort.
      * unfold App.get_company_profile. app_const Hshort.
      * unfold App.get_earnings_surprises. app_const Hshort.
  - destruct (Mcp.symbol_of args) as [msym|e] eqn:Hs.
    + refine (conj _ (conj _ (conj _ (conj _ _)))).
      * eapply (settled_one_get _ (fun r => let? data := r in _) 2).
        intros w. pose proof (mcp_press_releases_run gm args msym Hs w) as E.
        cbv zeta in E. rewrite (mcp_explicit_dates args 30 w fd td Hfd Htd) in E.
        exact E.
      * eapply (settled_one_get _ (fun r => let? data := r in _) 2).
        intros w. pose proof (mcp_insider_transactions_run gm args msym Hs w) as E.
        cbv zeta in E. rewrite (mcp_explicit_dates args 90 w fd td Hfd Htd) in E.
        exact E.
      * eapply (settled_one_get _ (fun r => let? data := r in _) 0).
        intros w. rewrite after_reads_0.
        exact (mcp_basic_financials_run gm args msym Hs w).
      * eapply (settled_one_get _ (fun r => let? data := r in _) 0).
        intros w. rewrite after_reads_0.
        exact (mcp_company_profile_run gm args msym Hs w).
      * eapply (settled_one_get _ (fun r => let? data := r in _) 0).
        intros w. rewrite after_reads_0.
        exact (mcp_earnings_surprises_run gm args msym Hs w).
    + refine (conj _ (conj _ (conj _ (conj _ _))));
        eapply settled_const; intros w.
      * unfold Mcp.get_press_releases. apply (mcp_symbol_raises_early args e _ w Hs).
      * unfold Mcp.get_insider_transactions. apply (mcp_symbol_raises_early args e _ w Hs).
      * unfold Mcp.get_basic_financials. apply (mcp_symbol_raises_early args e _ w Hs).
      * unfold Mcp.get_company_profile. apply (mcp_symbol_raises_early args e _ w Hs).
      * unfold Mcp.get_earnings_surprises. apply (mcp_symbol_raises_early args e _ w Hs).
Qed.

(** The theorem at a press-release call with explicit dates, from a world
    whose clock stands at noon and from one whose clock crosses midnight. *)
Lemma answers_settled_by_inputs_and_provider_witness :
  str_nonempty "2024-01-01" = true /\ str_nonempty "2024-02-29" = true
  /\ assoc "from_date" explicit_args = Some (PyStr "2024-01-01")
  /\ assoc "to_date" explicit_args = Some (PyStr "2024-02-29")
  /\ fst (App.get_press_releases demo_app "aapl" "2024-01-01" "2024-02-29"
            (world_of noon_clock throttling))
     = fst (App.get_press_releases demo_app "aapl" "2024-01-01" "2024-02-29"
              (world_of midnight_clock throttling))
  /\ fst (Mcp.get_press_releases demo_mcp explicit_args
            (world_of noon_clock throttling))
     = fst (Mcp.get_press_releases demo_mcp explicit_args
              (world_of midnight_clock throttling)).
Proof.
  pose proof (answers_settled_by_inputs_and_provider demo_app demo_mcp
                "aapl" "2024-01-01" "2024-02-29" "all" 4 explicit_args
                (PyStr "2024-01-01") (PyStr "2024-02-29")
                eq_refl eq_refl eq_refl eq_refl) as [[Ha _] [Hm _]].
  do 4 (split; [reflexivity|]). split.
  - apply (Ha (world_of noon_clock throttling) (world_of midnight_clock throttling)).
    intros rq. reflexivity.
  - apply (Hm (world_of noon_clock throttling) (world_of midnight_clock throttling)).
    intros rq. reflexivity.
Defined.

(** ** Truncation *)

Lemma format_release_dict (rec : list (string * pyval)) :
  format_release (PyDict rec) = Ok (release_fields rec).
Proof. reflexivity. Qed.

Lemma format_transaction_dict (rec : list (string * pyval)) :
  format_transaction (PyDict rec) = Ok (transaction_fields rec).
Proof. reflexivity. Qed.

Lemma for_each_dicts (f : pyval -> res pyval)
    (fields : list (string * pyval) -> pyval) (recs : list (list (string * pyval))) :
  (forall rec, f (PyDict rec) = Ok (fields rec)) ->
  for_each f (map PyDict recs) = Ok (map fields recs).
Proof.
  intros Hf. induction recs as [|rec recs IH]; [reflexivity|].
  cbn [map for_each]. now rewrite Hf, IH.
Qed.

Lemma format_capped_dicts (f : pyval -> res pyval)
    (fields : list (string * pyval) -> pyval) (d : list (string * pyval))
    (key : string) (cap : nat) (recs : list (list (string * pyval))) :
  (forall rec, f (PyDict rec) = Ok (fields rec)) ->
  assoc key d = Some (PyList (map PyDict recs)) ->
  format_capped f (PyDict d) key cap = Ok (map fields (firstn cap recs)).
Proof.
  intros Hf Hk. unfold format_capped, getitem. rewrite Hk.
  cbn [res_bind slice_to iter]. rewrite firstn_map. now apply for_each_dicts.
Qed.

Lemma truthy_dicts (recs : list (list (string * pyval))) :
  recs <> [] -> truthy (PyList (map PyDict recs)) = true.
Proof. destruct recs; [congruence|reflexivity]. Qed.

Section Capped.
Variables (d : list (string * pyval)) (recs : list (list (string * pyval))).
Hypothesis Hne : recs <> [].

Lemma app_press_answer_capped (symbol from_date to_date : string) :
  assoc "majorDevelopment" d = Some (PyList (map PyDict recs)) ->
  App.press_releases_answer symbol from_date to_date (PyDict d)
  = Ok (PyDict [("symbol", PyStr symbol);
                ("date_range", PyStr (from_date ++ " to " ++ to_date));
                ("press_releases", PyList (map release_fields (firstn 10 recs)))]).
Proof.
  intros Hk. unfold App.press_releases_answer, get. rewrite Hk.
  cbn [res_bind]. rewrite (truthy_dicts recs Hne). cbn [negb].
  now rewrite (format_capped_dicts _ release_fields d _ _ recs format_release_dict Hk).
Qed.

Lemma mcp_press_answer_capped (symbol : string) (from_date to_date : pyval) :
  assoc "majorDevelopment" d = Some (PyList (map PyDict recs)) ->
  Mcp.press_releases_answer symbol from_date to_date (PyDict d)
  = Ok (Mcp.Result (PyDict
         [("symbol", PyStr symbol);
          ("date_range", PyStr (str from_date ++ " to " ++ str to_date));
          ("press_releases", PyList (map release_fields (firstn 10 recs)))])).
Proof.
  intros Hk. unfold Mcp.press_releases_answer, get. rewrite Hk.
  cbn [res_bind]. rewrite (truthy_dicts recs Hne). cbn [negb].
  now rewrite (format_capped_dicts _ release_fields d _ _ recs format_release_dict Hk).
Qed.

Lemma app_insider_answer_capped (symbol from_date to_date : string) :
  assoc "data" d = Some (PyList (map PyDict recs)) ->
  App.insider_transactions_answer symbol from_date to_date (PyDict d)
  = Ok (PyDict [("symbol", PyStr symbol);
                ("date_range", PyStr (from_date ++ " to " ++ to_date));
                ("insider_transactions",
                 PyList (map transaction_fields (firstn 20 recs)))]).
Proof.
  intros Hk. unfold App.insider_transactions_answer, get. rewrite Hk.
  cbn [res_bind]. rewrite (truthy_dicts recs Hne). cbn [negb].
  now rewrite (format_capped_dicts _ transaction_fields d _ _ recs
                 format_transaction_dict Hk).
Qed.

Lemma mcp_insider_answer_capped (symbol : string) (from_date to_date : pyval) :
  assoc "data" d = Some (PyList (map PyDict recs)) ->
  Mcp.insider_transactions_answer symbol from_date to_date (PyDict d)
  = Ok (Mcp.Result (PyDict
         [("symbol", PyStr symbol);
          ("date_range", PyStr (str from_date ++ " to " ++ str to_date));
          ("insider_transactions",
           PyList (map transaction_fields (firstn 20 recs)))])).
Proof.
  intros Hk. unfold Mcp.insider_transactions_answer, get. rewrite Hk.
  cbn [res_bind]. rewrite (truthy_dicts recs Hne). cbn [negb].
  now rewrite (format_capped_dicts _ transaction_fields d _ _ recs
                 format_transaction_dict Hk).
Qed.

End Capped.

Lemma firstn_over_cap {A} (cap : nat) (l : list A) :
  (cap < List.length l)%nat -> List.length (firstn cap l) = cap.
Proof. intros H. rewrite length_firstn. lia. Qed.

Lemma firstn_under_cap {A} (cap : nat) (l : list A) :
  (List.length l <= cap)%nat -> firstn cap l = l.
Proof. intros H. now apply firstn_all2. Qed.

(** C4: When the provider's object holds a non-empty list of records under
    majorDevelopment, the press-release answer lists the four-field
    projections of the first 10 of them, in the provider's order; under
    data, the insider-transaction answer lists the seven-field projections
    of the first 20.  A list longer than the cap yields exactly cap
    entries; a list at or under the cap is projected whole.  Both servers
    agree on this. *)
Theorem lists_are_capped_in_provider_order
    (g : App.globals) (gm : Mcp.globals) (symbol from_date to_date msym : string)
    (args : list (string * pyval)) (w : world) (d : list (string * pyval))
    (recs : list (list (string * pyval))) :
  configured g -> names_a_symbol symbol -> Mcp.symbol_of args = Ok msym ->
  delivers w (PyDict d) -> recs <> [] ->
  (assoc "majorDevelopment" d = Some (PyList (map PyDict recs)) ->
   (exists dates,
      fst (App.default_dates 30 from_date to_date w) = Ok dates
      /\ fst (App.get_press_releases g symbol from_date to_date w)
         = Ok (Json.dumps (PyDict
             [("symbol", PyStr (strip (upper symbol)));
              ("date_range", PyStr (fst dates ++ " to " ++ snd dates));
              ("press_releases", PyList (map release_fields (firstn 10 recs)))])))
   /\ fst (Mcp.get_press_releases gm args w)
      = Ok (Mcp.render (Mcp.Result (PyDict
          [("symbol", PyStr msym);
           ("date_range", PyStr (str (fst (mcp_dates args 30 w)) ++ " to "
                                 ++ str (snd (mcp_dates args 30 w))));
           ("press_releases", PyList (map release_fields (firstn 10 recs)))])))
   /\ ((10 < List.length recs)%nat -> List.length (map release_fields (firstn 10 recs)) = 10%nat)
   /\ ((List.length recs <= 10)%nat -> firstn 10 recs = recs))
  /\ (assoc "data" d = Some (PyList (map PyDict recs)) ->
      (exists dates,
         fst (App.default_dates 90 from_date to_date w) = Ok dates
         /\ fst (App.get_insider_transactions g symbol from_date to_date w)
            = Ok (Json.dumps (PyDict
                [("symbol", PyStr (strip (upper symbol)));
                 ("date_range", PyStr (fst dates ++ " to " ++ snd dates));
                 ("insider_transactions",
                  PyList (map transaction_fields (firstn 20 recs)))])))
      /\ fst (Mcp.get_insider_transactions gm args w)
         = Ok (Mcp.render (Mcp.Result (PyDict
             [("symbol", PyStr msym);
              ("date_range", PyStr (str (fst (mcp_dates args 90 w)) ++ " to "
                                    ++ str (snd (mcp_dates args 90 w))));
              ("insider_transactions",
               PyList (map transaction_fields (firstn 20 recs)))])))
      /\ ((20 < List.length recs)%nat
          -> List.length (map transaction_fields (firstn 20 recs)) = 20%nat)
      /\ ((List.length recs <= 20)%nat -> firstn 20 recs = recs)).
Proof.
  intros Hkey Hsym Hs Hw Hne. split; intros Hk.
  - refine (conj _ (conj _ (conj _ _))).
    + destruct (app_press_releases_run g symbol Hkey Hsym from_date to_date w)
        as (dates & n & D & E). cbv zeta in E.
      exists dates. rewrite D, E, Hw. cbn [fst res_bind]. split; [reflexivity|].
      now rewrite (app_press_answer_capped d recs Hne _ _ _ Hk).
    + pose proof (mcp_press_releases_run gm args msym Hs w) as E. cbv zeta in E.
      rewrite E, Hw. cbn [fst res_bind].
      now rewrite (mcp_press_answer_capped d recs Hne _ _ _ Hk).
    + intros H. rewrite length_map. now apply firstn_over_cap.
    + apply firstn_under_cap.
  - refine (conj _ (conj _ (conj _ _))).
    + destruct (app_insider_transactions_run g symbol Hkey Hsym from_date to_date w)
        as (dates & n & D & E). cbv zeta in E.
      exists dates. rewrite D, E, Hw. cbn [fst res_bind]. split; [reflexivity|].
      now rewrite (app_insider_answer_capped d recs Hne _ _ _ Hk).
    + pose proof (mcp_insider_transactions_run gm args msym Hs w) as E. cbv zeta in E.
      rewrite E, Hw. cbn [fst res_bind].
      now rewrite (mcp_insider_answer_capped d recs Hne _ _ _ Hk).
    + intros H. rewrite length_map. now apply firstn_over_cap.
    + apply firstn_under_cap.
Qed.

(** The theorem on a provider answer with eleven press releases: the
    tool-invocation server lists the first ten. *)
Lemma lists_are_capped_in_provider_order_witness :
  configured demo_app /\ names_a_symbol "aapl"
  /\ Mcp.symbol_of explicit_args = Ok "AAPL"
  /\ delivers
       (world_of noon_clock
          (answering (PyDict [("majorDevelopment", PyList (map PyDict eleven_releases))])))
       (PyDict [("majorDevelopment", PyList (map PyDict eleven_releases))])
  /\ eleven_releases <> []
  /\ (10 < List.length eleven_releases)%nat
  /\ fst (Mcp.get_press_releases demo_mcp explicit_args
            (world_of noon_clock
               (answering (PyDict [("majorDevelopment",
                                    PyList (map PyDict eleven_releases))]))))
     = Ok (Mcp.render (Mcp.Result (PyDict
         [("symbol", PyStr "AAPL");
          ("date_range", PyStr "2024-01-01 to 2024-02-29");
          ("press_releases",
           PyList (map release_fields (firstn 10 eleven_releases)))]))).
Proof.
  assert (Hkey : configured demo_app) by reflexivity.
  assert (Hsym : names_a_symbol "aapl") by (vm_compute; reflexivity).
  assert (Hs : Mcp.symbol_of explicit_args = Ok "AAPL") by (vm_compute; reflexivity).
  assert (Hw : delivers
       (world_of noon_clock
          (answering (PyDict [("majorDevelopment", PyList (map PyDict eleven_releases))])))
       (PyDict [("majorDevelopment", PyList (map PyDict eleven_releases))]))
    by (intros rq; reflexivity).
  assert (Hne : eleven_releases <> []) by discriminate.
  do 5 (split; [assumption|]).
  split; [vm_compute; lia|].
  destruct (lists_are_capped_in_provider_order demo_app demo_mcp "aapl"
              EmptyString EmptyString "AAPL" explicit_args _ _ eleven_releases
              Hkey Hsym Hs Hw Hne) as [H _].
  destruct (H eq_refl) as (_ & Hm & _). exact Hm.
Defined.

(** ** Empty results *)

Lemma get_lacking (d : list (string * pyval)) (k : string) :
  lacks d k ->
  exists found, get (PyDict d) k PyNone = Ok found /\ truthy found = false.
Proof.
  unfold lacks, get. destruct (assoc k d) as [v|]; intros H; eauto.
Qed.

Section Lacking.
Variable d : list (string * pyval).

Lemma app_press_answer_lacking (symbol from_date to_date : string) :
  lacks d "majorDevelopment" ->
  App.press_releases_answer symbol from_date to_date (PyDict d)
  = Ok (PyDict
      [("symbol", PyStr symbol);
       ("message", PyStr ("No press releases found for " ++ symbol ++ " between "
                          ++ from_date ++ " and " ++ to_date))]).
Proof.
  intros H. destruct (get_lacking d _ H) as (found & E & F).
  unfold App.press_releases_answer. rewrite E. cbn [res_bind]. now rewrite F.
Qed.

Lemma mcp_press_answer_lacking (symbol : string) (from_date to_date : pyval) :
  lacks d "majorDevelopment" ->
  Mcp.press_releases_answer symbol from_date to_date (PyDict d)
  = Ok (Mcp.Message ("No press releases found for " ++ symbol ++ " between "
                     ++ str from_date ++ " and " ++ str to_date)).
Proof.
  intros H. destruct (get_lacking d _ H) as (found & E & F).
  unfold Mcp.press_releases_answer. rewrite E. cbn [res_bind]. now rewrite F.
Qed.

Lemma app_insider_answer_lacking (symbol from_date to_date : string) :
  lacks d "data" ->
  App.insider_transactions_answer symbol from_date to_date (PyDict d)
  = Ok (PyDict
      [("symbol", PyStr symbol);
       ("message", PyStr ("No insider transactions found for " ++ symbol
                          ++ " between " ++ from_date ++ " and " ++ to_date))]).
Proof.
  intros H. destruct (get_lacking d _ H) as (found & E & F).
  unfold App.insider_transactions_answer. rewrite E. cbn [res_bind]. now rewrite F.
Qed.

Lemma mcp_insider_answer_lacking (symbol : string) (from_date to_date : pyval) :
  lacks d "data" ->
  Mcp.insider_transactions_answer symbol from_date to_date (PyDict d)
  = Ok (Mcp.Message ("No insider transactions found for " ++ symbol ++ " between "
                     ++ str from_date ++ " and " ++ str to_date)).
Proof.
  intros H. destruct (get_lacking d _ H) as (found & E & F).
  unfold Mcp.insider_transactions_answer. rewrite E. cbn [res_bind]. now rewrite F.
Qed.

Lemma app_financials_answer_lacking (symbol metric_type : string) :
  lacks d "metric" ->
  App.basic_financials_answer symbol metric_type (PyDict d)
  = Ok (PyDict
      [("symbol", PyStr symbol);
       ("message", PyStr ("No financial metrics found for " ++ symbol))]).
Proof.
  intros H. destruct (get_lacking d _ H) as (found & E & F).
  unfold App.basic_financials_answer. rewrite E. cbn [res_bind]. now rewrite F.
Qed.

Lemma mcp_financials_answer_lacking (symbol : string) (metric_type : pyval) :
  lacks d "metric" ->
  Mcp.basic_financials_answer symbol metric_type (PyDict d)
  = Ok (Mcp.Message ("No financial metrics found for " ++ symbol)).
Proof.
  intros H. destruct (get_lacking d _ H) as (found & E & F).
  unfold Mcp.basic_financials_answer. rewrite E. cbn [res_bind]. now rewrite F.
Qed.

End Lacking.

(** C6: When the provider's object has no majorDevelopment (or an empty
    one), the press-release operation answers with the "No press releases
    found for SYMBOL between FROM and TO" message; likewise data for insider
    transactions and metric for financials ("No financial metrics found for
    SYMBOL"); a falsy payload gives "No company profile found for SYMBOL"
    and "No earnings data found for SYMBOL".  The interactive server wraps
    the message in an object with the symbol, the tool-invocation server
    returns the sentence; neither returns an error object or a result with
    an empty list. *)
Theorem empty_results_get_the_message
    (g : App.globals) (gm : Mcp.globals)
    (symbol from_date to_date metric_type msym : string) (limit : Z)
    (args : list (string * pyval)) (w : world) (data : pyval)
    (d : list (string * pyval)) :
  configured g -> names_a_symbol symbol -> Mcp.symbol_of args = Ok msym ->
  (delivers w (PyDict d) -> lacks d "majorDevelopment" ->
   (exists dates,
      fst (App.default_dates 30 from_date to_date w) = Ok dates
      /\ fst (App.get_press_releases g symbol from_date to_date w)
         = Ok (Json.dumps (PyDict
             [("symbol", PyStr (strip (upper symbol)));
              ("message", PyStr ("No press releases found for "
                                 ++ strip (upper symbol) ++ " between "
                                 ++ fst dates ++ " and " ++ snd dates))])))
   /\ fst (Mcp.get_press_releases gm args w)
      = Ok (Mcp.render (Mcp.Message
          ("No press releases found for " ++ msym ++ " between "
           ++ str (fst (mcp_dates args 30 w)) ++ " and "
           ++ str (snd (mcp_dates args 30 w))))))
  /\ (delivers w (PyDict d) -> lacks d "data" ->
      (exists dates,
         fst (App.default_dates 90 from_date to_date w) = Ok dates
         /\ fst (App.get_insider_transactions g symbol from_date to_date w)
            = Ok (Json.dumps (PyDict
                [("symbol", PyStr (strip (upper symbol)));
                 ("message", PyStr ("No insider transactions found for "
                                    ++ strip (upper symbol) ++ " between "
                                    ++ fst dates ++ " and " ++ snd dates))])))
      /\ fst (Mcp.get_insider_transactions gm args w)
         = Ok (Mcp.render (Mcp.Message
             ("No insider transactions found for " ++ msym ++ " between "
              ++ str (fst (mcp_dates args 90 w)) ++ " and "
              ++ str (snd (mcp_dates args 90 w))))))
  /\ (delivers w (PyDict d) -> lacks d "metric" ->
      fst (App.get_basic_financials g symbol metric_type w)
      = Ok (Json.dumps (PyDict
          [("symbol", PyStr (strip (upper symbol)));
           ("message", PyStr ("No financial metrics found for "
                              ++ strip (upper symbol)))]))
      /\ fst (Mcp.get_basic_financials gm args w)
         = Ok (Mcp.render (Mcp.Message ("No financial metrics found for " ++ msym))))
  /\ (delivers w data -> truthy data = false ->
      fst (App.get_company_profile g symbol w)
      = Ok (Json.dumps (PyDict
          [("symbol", PyStr (strip (upper symbol)));
           ("message", PyStr ("No company profile found for "
                              ++ strip (upper symbol)))]))
      /\ fst (Mcp.get_company_profile gm args w)
         = Ok (Mcp.render (Mcp.Message ("No company profile found for " ++ msym)))
      /\ fst (App.get_earnings_surprises g symbol limit w)
         = Ok (Json.dumps (PyDict
             [("symbol", PyStr (strip (upper symbol)));
              ("message", PyStr ("No earnings data found for "
                                 ++ strip (upper symbol)))]))
      /\ fst (Mcp.get_earnings_surprises gm args w)
         = Ok (Mcp.render (Mcp.Message ("No earnings data found for " ++ msym)))).
Proof.
  intros Hkey Hsym Hs. refine (conj _ (conj _ (conj _ _))); intros Hw Hl.
  - split.
    + destruct (app_press_releases_run g symbol Hkey Hsym from_date to_date w)
        as (dates & n & D & E). cbv zeta in E.
      exists dates. rewrite D, E, Hw. cbn [fst res_bind]. split; [reflexivity|].
      now rewrite (app_press_answer_lacking d _ _ _ Hl).
    + pose proof (mcp_press_releases_run gm args msym Hs w) as E. cbv zeta in E.
      rewrite E, Hw. cbn [fst res_bind].
      now rewrite (mcp_press_answer_lacking d _ _ _ Hl).
  - split.
    + destruct (app_insider_transactions_run g symbol Hkey Hsym from_date to_date w)
        as (dates & n & D & E). cbv zeta in E.
      exists dates. rewrite D, E, Hw. cbn [fst res_bind]. split; [reflexivity|].
      now rewrite (app_insider_answer_lacking d _ _ _ Hl).
    + pose proof (mcp_insider_transactions_run gm args msym Hs w) as E. cbv zeta in E.
      rewrite E, Hw. cbn [fst res_bind].
      now rewrite (mcp_insider_answer_lacking d _ _ _ Hl).
  - split.
    + pose proof (app_basic_financials_run g symbol Hkey Hsym metric_type w) as E.
      cbv zeta in E. rewrite E, Hw. cbn [fst res_bind].
      now rewrite (app_financials_answer_lacking d _ _ Hl).
    + pose proof (mcp_basic_financials_run gm args msym Hs w) as E. cbv zeta in E.
      rewrite E, Hw. cbn [fst res_bind].
      now rewrite (mcp_financials_answer_lacking d _ _ Hl).
  - refine (conj _ (conj _ (conj _ _))).
    + pose proof (app_company_profile_run g symbol Hkey Hsym w) as E.
      cbv zeta in E. rewrite E, Hw. cbn [fst res_bind].
      unfold App.company_profile_answer. now rewrite Hl.
    + pose proof (mcp_company_profile_run gm args msym Hs w) as E. cbv zeta in E.
      rewrite E, Hw. cbn [fst res_bind].
      unfold Mcp.company_profile_answer. now rewrite Hl.
    + pose proof (app_earnings_surprises_run g symbol Hkey Hsym limit w) as E.
      cbv zeta in E. rewrite E, Hw. cbn [fst res_bind].
      unfold App.earnings_surprises_answer. now rewrite Hl.
    + pose proof (mcp_earnings_surprises_run gm args msym Hs w) as E. cbv zeta in E.
      rewrite E, Hw. cbn [fst res_bind].
      unfold Mcp.earnings_surprises_answer. now rewrite Hl.
Qed.

(** The theorem on a provider that answers with the empty object: absent
    fields for the first three operations, a falsy payload for the last
    two. *)
Lemma empty_results_get_the_message_witness :
  configured demo_app /\ names_a_symbol "aapl"
  /\ Mcp.symbol_of explicit_args = Ok "AAPL"
  /\ delivers (world_of noon_clock (answering (PyDict []))) (PyDict [])
  /\ lacks [] "majorDevelopment" /\ lacks [] "data" /\ lacks [] "metric"
  /\ truthy (PyDict []) = false
  /\ fst (Mcp.get_press_releases demo_mcp explicit_args
            (world_of noon_clock (answering (PyDict []))))
     = Ok (Mcp.render (Mcp.Message
         "No press releases found for AAPL between 2024-01-01 and 2024-02-29"))
  /\ fst (Mcp.get_insider_transactions demo_mcp explicit_args
            (world_of noon_clock (answering (PyDict []))))
     = Ok (Mcp.render (Mcp.Message
         "No insider transactions found for AAPL between 2024-01-01 and 2024-02-29"))
  /\ fst (App.get_basic_financials demo_app "aapl" "all"
            (world_of noon_clock (answering (PyDict []))))
     = Ok (Json.dumps (PyDict
         [("symbol", PyStr "AAPL");
          ("message", PyStr "No financial metrics found for AAPL")]))
  /\ fst (App.get_company_profile demo_app "aapl"
            (world_of noon_clock (answering (PyDict []))))
     = Ok (Json.dumps (PyDict
         [("symbol", PyStr "AAPL");
          ("message", PyStr "No company profile found for AAPL")])).
Proof.
  assert (Hkey : configured demo_app) by reflexivity.
  assert (Hsym : names_a_symbol "aapl") by (vm_compute; reflexivity).
  assert (Hs : Mcp.symbol_of explicit_args = Ok "AAPL") by (vm_compute; reflexivity).
  assert (Hw : delivers (world_of noon_clock (answering (PyDict []))) (PyDict []))
    by (intros rq; reflexivity).
  do 4 (split; [assumption|]).
  do 3 (split; [exact I|]). split; [reflexivity|].
  destruct (empty_results_get_the_message demo_app demo_mcp "aapl"
              "2024-01-01" "2024-02-29" "all" "AAPL" 4 explicit_args
              (world_of noon_clock (answering (PyDict []))) (PyDict []) []
              Hkey Hsym Hs) as (H1 & H2 & H3 & H4).
  destruct (H1 Hw I) as [_ H1m]. destruct (H2 Hw I) as [_ H2m].
  destruct (H3 Hw I) as [H3a _]. destruct (H4 Hw eq_refl) as (H4a & _).
  refine (conj _ (conj _ (conj _ _))).
  - exact H1m.
  - exact H2m.
  - rewrite H3a. vm_compute. reflexivity.
  - rewrite H4a. vm_compute. reflexivity.
Defined.

(** ** The series field *)

Lemma filter_metrics_dict_total (category : pyval) (m : list (string * pyval)) :
  exists kept, filter_metrics category (PyDict m) = Ok (PyDict kept).
Proof.
  unfold filter_metrics.
  destruct (eq_str category "price"); [rewrite comprehension_dict; eauto|].
  destruct (eq_str category "valuation"); [rewrite comprehension_dict; eauto|].
  destruct (eq_str category "margin"); [rewrite comprehension_dict; eauto|].
  eauto.
Qed.

Lemma truthy_dict_nonempty (m : list (string * pyval)) :
  m <> [] -> truthy (PyDict m) = true.
Proof. destruct m; [congruence|reflexivity]. Qed.

(** C10 (as amended): When the provider's object holds a non-empty metric
    object, the financials answer of either server is the object with the
    symbol, the requested category, the metrics the category keeps, and a
    series field that holds the provider's series value, or the empty
    object when the provider sent none.  The series field is the same
    whatever the category; only the metrics (and the echoed category)
    vary with it. *)
Theorem series_passes_through_the_filter
    (g : App.globals) (gm : Mcp.globals) (symbol metric_type msym : string)
    (args : list (string * pyval)) (w : world) (d m : list (string * pyval)) :
  configured g -> names_a_symbol symbol -> Mcp.symbol_of args = Ok msym ->
  delivers w (PyDict d) ->
  assoc "metric" d = Some (PyDict m) -> m <> [] ->
  (exists kept,
     filter_metrics (PyStr metric_type) (PyDict m) = Ok (PyDict kept)
     /\ fst (App.get_basic_financials g symbol metric_type w)
        = Ok (Json.dumps (PyDict
            [("symbol", PyStr (strip (upper symbol)));
             ("metric_type", PyStr metric_type);
             ("metrics", PyDict kept);
             ("series", field d "series" (PyDict []))])))
  /\ (exists kept,
        filter_metrics (field args "metric" (PyStr "all")) (PyDict m)
        = Ok (PyDict kept)
        /\ fst (Mcp.get_basic_financials gm args w)
           = Ok (Mcp.render (Mcp.Result (PyDict
               [("symbol", PyStr msym);
                ("metric_type", field args "metric" (PyStr "all"));
                ("metrics", PyDict kept);
                ("series", field d "series" (PyDict []))])))).
Proof.
  intros Hkey Hsym Hs Hw Hm Hne. split.
  - destruct (filter_metrics_dict_total (PyStr metric_type) m) as (kept & K).
    exists kept. split; [exact K|].
    pose proof (app_basic_financials_run g symbol Hkey Hsym metric_type w) as E.
    cbv zeta in E. rewrite E, Hw. cbn [fst res_bind].
    unfold App.basic_financials_answer, get, getitem. rewrite Hm.
    cbn [res_bind]. rewrite (truthy_dict_nonempty m Hne). cbn [negb].
    rewrite K. reflexivity.
  - destruct (filter_metrics_dict_total (field args "metric" (PyStr "all")) m)
      as (kept & K).
    exists kept. split; [exact K|].
    pose proof (mcp_basic_financials_run gm args msym Hs w) as E.
    cbv zeta in E. rewrite E, Hw. cbn [fst res_bind].
    unfold Mcp.basic_financials_answer, get, getitem. rewrite Hm.
    cbn [res_bind]. rewrite (truthy_dict_nonempty m Hne). cbn [negb].
    rewrite K. reflexivity.
Qed.

(** The theorem on a provider answer with one metric and an annual series,
    asked for the price category: no metric is kept, the series is. *)
Lemma series_passes_through_the_filter_witness :
  configured demo_app /\ names_a_symbol "aapl"
  /\ Mcp.symbol_of explicit_args = Ok "AAPL"
  /\ fst (App.get_basic_financials demo_app "aapl" "price"
            (world_of noon_clock
               (answering (PyDict [("metric", PyDict [("peRatio", PyFloat "28.4")]);
                                   ("series", PyDict [("annual", PyDict [])])]))))
     = Ok (Json.dumps (PyDict
         [("symbol", PyStr "AAPL");
          ("metric_type", PyStr "price");
          ("metrics", PyDict []);
          ("series", PyDict [("annual", PyDict [])])])).
Proof.
  assert (Hkey : configured demo_app) by reflexivity.
  assert (Hsym : names_a_symbol "aapl") by (vm_compute; reflexivity).
  assert (Hs : Mcp.symbol_of explicit_args = Ok "AAPL") by (vm_compute; reflexivity).
  do 3 (split; [assumption|]).
  destruct (series_passes_through_the_filter demo_app demo_mcp "aapl" "price" "AAPL"
              explicit_args
              (world_of noon_clock
                 (answering (PyDict [("metric", PyDict [("peRatio", PyFloat "28.4")]);
                                     ("series", PyDict [("annual", PyDict [])])])))
              [("metric", PyDict [("peRatio", PyFloat "28.4")]);
               ("series", PyDict [("annual", PyDict [])])]
              [("peRatio", PyFloat "28.4")]
              Hkey Hsym Hs (fun rq => eq_refl) eq_refl ltac:(discriminate))
    as [(kept & K & E) _].
  rewrite E. vm_compute in K. injection K as <-. vm_compute. reflexivity.
Defined.

(** C10, counterexample: a provider answer whose metric object is empty is
    answered with the "No financial metrics found" message, an object
    without a series field, although the provider sent a series. *)
Lemma empty_metric_answer_has_no_series : ~ series_always_present.
Proof.
  intros H.
  destruct (H "AAPL" "price"
              [("metric", PyDict []); ("series", PyDict [("annual", PyDict [])])])
    as (obj & E & S).
  vm_compute in E. injection E as <-. vm_compute in S. discriminate S.
Qed.

(** ** The default window *)

Lemma strftime_ymd_ordinal (dt : datetime) :
  strftime_ymd dt = date_text (ordinal dt).
Proof. reflexivity. Qed.

(** When every reading of the clock falls on the same day, the defaults are
    that day and the day [days] before it. *)
Lemma app_default_window_same_day (days : Z) (today : N) (w : world) :
  0 <= days <= 719162 ->
  (forall k, days_since_epoch (clock w k) = today) ->
  fst (App.default_dates days EmptyString EmptyString w)
  = Ok (date_text (EPOCH_ORDINAL + Z.of_N today - days),
        date_text (EPOCH_ORDINAL + Z.of_N today)).
Proof.
  intros Hd Hc. rewrite app_default_dates_run by assumption. cbn [str_nonempty fst].
  unfold stamp. rewrite !strftime_ymd_ordinal. cbn [ordinal]. rewrite !Hc.
  now rewrite Z.sub_0_r.
Qed.

Lemma mcp_default_window_same_day (days : Z) (today : N) (w : world)
    (args : list (string * pyval)) :
  0 <= days <= 719162 ->
  (forall k, days_since_epoch (clock w k) = today) ->
  assoc "from_date" args = None -> assoc "to_date" args = None ->
  fst (Mcp.default_dates days args w)
  = Ok (PyStr (date_text (EPOCH_ORDINAL + Z.of_N today - days)),
        PyStr (date_text (EPOCH_ORDINAL + Z.of_N today))).
Proof.
  intros Hd Hc Hf Ht. rewrite mcp_default_dates_run by assumption.
  rewrite Hf, Ht. cbn [fst].
  unfold stamp. rewrite !strftime_ymd_ordinal. cbn [ordinal]. rewrite !Hc.
  now rewrite Z.sub_0_r.
Qed.

(** Dates that are given are kept as they are. *)
Lemma explicit_dates_are_kept (days : Z) (from_date to_date : string) (w : world)
    (args : list (string * pyval)) (fd td : pyval) :
  0 <= days <= 719162 ->
  str_nonempty from_date = true -> str_nonempty to_date = true ->
  assoc "from_date" args = Some fd -> assoc "to_date" args = Some td ->
  fst (App.default_dates days from_date to_date w) = Ok (from_date, to_date)
  /\ fst (Mcp.default_dates days args w) = Ok (fd, td).
Proof.
  intros Hd Hf Ht Hfd Htd.
  rewrite app_explicit_dates, mcp_default_dates_run by assumption.
  now rewrite Hfd, Htd.
Qed.

(** C7, at the failing input: with both dates omitted and the clock
    passing midnight between the two readings (23:59:59.999999 on
    2024-03-10, then 00:00:00.000005 on 2024-03-11), the press-release
    window is 2024-02-10 to 2024-03-10, 29 days, where 30 days before
    2024-03-10 is 2024-02-09; the insider window is 2023-12-12 to
    2024-03-10, 89 days, where 90 days before is 2023-12-11.  Both servers
    behave so. *)
Theorem default_window_across_midnight :
  let w := world_of midnight_clock unreachable in
  fst (App.default_dates 30 EmptyString EmptyString w)
  = Ok ("2024-02-10", "2024-03-10")
  /\ fst (Mcp.default_dates 30 [("symbol", PyStr "AAPL")] w)
     = Ok (PyStr "2024-02-10", PyStr "2024-03-10")
  /\ date_text (EPOCH_ORDINAL + 19792) = "2024-03-10"
  /\ date_text (EPOCH_ORDINAL + 19792 - 30) = "2024-02-09"
  /\ date_text (EPOCH_ORDINAL + 19792 - 29) = "2024-02-10"
  /\ fst (App.default_dates 90 EmptyString EmptyString w)
     = Ok ("2023-12-12", "2024-03-10")
  /\ fst (Mcp.default_dates 90 [("symbol", PyStr "AAPL")] w)
     = Ok (PyStr "2023-12-12", PyStr "2024-03-10")
  /\ date_text (EPOCH_ORDINAL + 19792 - 90) = "2023-12-11".
Proof. vm_compute. repeat split. Qed.

(** * Further properties of the two servers *)

(** ** The symbol guard of the interactive server *)

Ltac each_char c :=
  destruct c as [[] [] [] [] [] [] [] []]; vm_compute; try reflexivity;
  try discriminate.

Lemma upper_char_keeps_space (c : ascii) : is_space (upper_char c) = is_space c.
Proof. each_char c. Qed.

Lemma upper_char_of_space (c : ascii) : is_space c = true -> upper_char c = c.
Proof. each_char c. Qed.

Lemma all_space_upper (s : string) : all_space (upper s) = all_space s.
Proof.
  induction s as [|c s IH]; [reflexivity|].
  unfold upper in *. cbn [str_map all_space]. now rewrite upper_char_keeps_space, IH.
Qed.

Lemma lstrip_all_space (s : string) : all_space s = true -> lstrip s = EmptyString.
Proof.
  induction s as [|c s IH]; [reflexivity|]. cbn [all_space lstrip].
  intros H. apply andb_true_iff in H as [Hc Hs]. rewrite Hc. now apply IH.
Qed.

Lemma lstrip_not_all_space (s : string) :
  all_space s = false ->
  exists c r, lstrip s = String c r /\ is_space c = false.
Proof.
  induction s as [|c s IH]; [discriminate|]. cbn [all_space lstrip].
  destruct (is_space c) eqn:Hc; cbn [andb]; intros H; eauto.
Qed.

Lemma str_append_assoc (a b c : string) : (a ++ b) ++ c = a ++ (b ++ c).
Proof. induction a as [|x a IH]; [reflexivity|]. cbn [append]. now rewrite IH. Qed.

Lemma str_rev_onto_append (s acc : string) :
  str_rev_onto s acc = str_rev_onto s EmptyString ++ acc.
Proof.
  revert acc. induction s as [|c s IH]; intros acc; [reflexivity|].
  cbn [str_rev_onto]. rewrite (IH (String c acc)), (IH (String c EmptyString)).
  now rewrite str_append_assoc.
Qed.

Lemma str_nonempty_append_char (a b : string) (c : ascii) :
  str_nonempty (a ++ String c b) = true.
Proof. destruct a; reflexivity. Qed.

Lemma str_rev_nonempty (s : string) :
  str_nonempty s = true -> str_nonempty (str_rev s) = true.
Proof.
  destruct s as [|c s]; [discriminate|]. intros _. unfold str_rev.
  cbn [str_rev_onto]. rewrite str_rev_onto_append. apply str_nonempty_append_char.
Qed.

Lemma lstrip_keeps_ink (a b : string) (c : ascii) :
  is_space c = false ->
  str_nonempty (lstrip (a ++ String c b)) = true.
Proof.
  intros Hc. induction a as [|x a IH]; cbn [append lstrip].
  - now rewrite Hc.
  - destruct (is_space x); [exact IH|reflexivity].
Qed.

Lemma rstrip_keeps_ink (c : ascii) (r : string) :
  is_space c = false -> str_nonempty (rstrip (String c r)) = true.
Proof.
  intros Hc. unfold rstrip. apply str_rev_nonempty.
  unfold str_rev. cbn [str_rev_onto]. rewrite str_rev_onto_append.
  now apply lstrip_keeps_ink.
Qed.

(** The normalised symbol is empty exactly when the input is made of blanks
    only. *)
Lemma normalised_symbol_empty_iff_blank (symbol : string) :
  str_nonempty (strip (upper symbol)) = negb (all_space symbol).
Proof.
  unfold strip. destruct (all_space symbol) eqn:Hs; cbn [negb].
  - rewrite lstrip_all_space by now rewrite all_space_upper. reflexivity.
  - destruct (lstrip_not_all_space (upper symbol)) as (c & r & E & Hc);
      [now rewrite all_space_upper|].
    rewrite E. now apply rstrip_keeps_ink.
Qed.

(** X1: With its key configured, the interactive server refuses an ASCII
    symbol exactly when it is made of ASCII blanks only (the empty text
    included): each of the five operations then returns the "Symbol is
    required" error object and leaves the world as it found it, with no
    request sent and the clock not read; any other ASCII symbol passes the
    guard.  Symbols with characters beyond ASCII are outside this
    statement. *)
Theorem symbol_is_required_exactly_when_blank
    (g : App.globals) (symbol from_date to_date metric_type : string) (limit : Z)
    (w : world) :
  configured g -> is_ascii symbol = true ->
  (all_space symbol = true ->
   App.SYMBOL_REQUIRED = Json.dumps (PyDict [("error", PyStr "Symbol is required")])
   /\ App.get_press_releases g symbol from_date to_date w = (Ok App.SYMBOL_REQUIRED, w)
   /\ App.get_insider_transactions g symbol from_date to_date w
      = (Ok App.SYMBOL_REQUIRED, w)
   /\ App.get_basic_financials g symbol metric_type w = (Ok App.SYMBOL_REQUIRED, w)
   /\ App.get_company_profile g symbol w = (Ok App.SYMBOL_REQUIRED, w)
   /\ App.get_earnings_surprises g symbol limit w = (Ok App.SYMBOL_REQUIRED, w))
  /\ (all_space symbol = false -> names_a_symbol symbol).
Proof.
  intros Hkey _. unfold configured in Hkey. split; intros Hs.
  - pose proof (normalised_symbol_empty_iff_blank symbol) as E.
    rewrite Hs in E. cbn [negb] in E.
    unfold App.get_press_releases, App.get_insider_transactions,
      App.get_basic_financials, App.get_company_profile, App.get_earnings_surprises.
    rewrite Hkey, E. cbn [negb]. repeat split.
  - unfold names_a_symbol. rewrite normalised_symbol_empty_iff_blank, Hs. reflexivity.
Qed.

Lemma symbol_is_required_exactly_when_blank_witness :
  configured demo_app /\ is_ascii "   " = true /\ is_ascii " a " = true
  /\ App.get_company_profile demo_app "   " (world_of noon_clock unreachable)
     = (Ok App.SYMBOL_REQUIRED, world_of noon_clock unreachable)
  /\ names_a_symbol " a ".
Proof.
  assert (Hkey : configured demo_app) by reflexivity.
  split; [exact Hkey|]. do 2 (split; [reflexivity|]). split.
  - destruct (symbol_is_required_exactly_when_blank demo_app "   " EmptyString
                EmptyString "all" 4 (world_of noon_clock unreachable) Hkey eq_refl)
      as [H _].
    destruct (H eq_refl) as (_ & _ & _ & _ & H4 & _). exact H4.
  - destruct (symbol_is_required_exactly_when_blank demo_app " a " EmptyString
                EmptyString "all" 4 (world_of noon_clock unreachable) Hkey eq_refl)
      as [_ H].
    apply H. reflexivity.
Defined.

(** ** The empty key *)

(** X2: A FINNHUB_API_KEY that is set to the empty text is treated as an
    absent one: the tool-invocation server refuses to load with the same
    error, and the interactive server loads into the same globals, so each
    of its operations answers "not configured" without touching the
    world. *)
Theorem empty_key_is_an_absent_key
    (ca_bundle symbol from_date to_date metric_type : string) (limit : Z) (w : world) :
  Mcp.init (Some EmptyString) ca_bundle = Mcp.init None ca_bundle
  /\ App.init (Some EmptyString) = App.init None
  /\ App.get_press_releases (App.init (Some EmptyString)) symbol from_date to_date w
     = (Ok App.NOT_CONFIGURED, w)
  /\ App.get_insider_transactions (App.init (Some EmptyString)) symbol from_date
       to_date w
     = (Ok App.NOT_CONFIGURED, w)
  /\ App.get_basic_financials (App.init (Some EmptyString)) symbol metric_type w
     = (Ok App.NOT_CONFIGURED, w)
  /\ App.get_company_profile (App.init (Some EmptyString)) symbol w
     = (Ok App.NOT_CONFIGURED, w)
  /\ App.get_earnings_surprises (App.init (Some EmptyString)) symbol limit w
     = (Ok App.NOT_CONFIGURED, w).
Proof. repeat split. Qed.

(** ** One GET per call *)

Lemma app_init_with_key (key : string) :
  str_nonempty key = true ->
  configured (App.init (Some key))
  /\ App.session (App.init (Some key)) = MkSession [("token", PyStr key)] None.
Proof.
  intros H. unfold configured, App.init. cbn [App.API_KEY App.session].
  now rewrite H.
Qed.

Lemma mcp_init_with_key (key ca_bundle : string) (g : Mcp.globals) :
  Mcp.init (Some key) ca_bundle = Ok g ->
  str_nonempty key = true
  /\ g = Mcp.MkGlobals key (MkSession [("token", PyStr key)] (Some ca_bundle)).
Proof.
  unfold Mcp.init. destruct (str_nonempty key); cbn [negb]; intros H;
    [injection H as <-; auto|discriminate].
Qed.

(** X3: Loaded with a key, the interactive server sends exactly one GET per
    call that passes its guards, whatever the provider then does (no second
    attempt after a failure): to the operation's fixed endpoint, with the
    token first, then the normalised symbol and the operation's own
    parameters, and the timeout 10.  The financials request always asks for
    metric=all, whatever category was requested. *)
Theorem app_sends_exactly_one_get
    (key symbol from_date to_date metric_type : string) (limit : Z) (w : world) :
  str_nonempty key = true -> names_a_symbol symbol ->
  (exists dates,
     fst (App.default_dates 30 from_date to_date w) = Ok dates
     /\ sent (snd (App.get_press_releases (App.init (Some key)) symbol from_date
                     to_date w))
        = (sent w ++
           [MkRequest "https://finnhub.io/api/v1/press-releases"
              [("token", PyStr key); ("symbol", PyStr (strip (upper symbol)));
               ("from", PyStr (fst dates)); ("to", PyStr (snd dates))]
              (Some 10)])%list)
  /\ (exists dates,
        fst (App.default_dates 90 from_date to_date w) = Ok dates
        /\ sent (snd (App.get_insider_transactions (App.init (Some key)) symbol
                        from_date to_date w))
           = (sent w ++
              [MkRequest "https://finnhub.io/api/v1/stock/insider-transactions"
                 [("token", PyStr key); ("symbol", PyStr (strip (upper symbol)));
                  ("from", PyStr (fst dates)); ("to", PyStr (snd dates))]
                 (Some 10)])%list)
  /\ sent (snd (App.get_basic_financials (App.init (Some key)) symbol metric_type w))
     = (sent w ++
        [MkRequest "https://finnhub.io/api/v1/stock/metric"
           [("token", PyStr key); ("symbol", PyStr (strip (upper symbol)));
            ("metric", PyStr "all")]
           (Some 10)])%list
  /\ sent (snd (App.get_company_profile (App.init (Some key)) symbol w))
     = (sent w ++
        [MkRequest "https://finnhub.io/api/v1/stock/profile2"
           [("token", PyStr key); ("symbol", PyStr (strip (upper symbol)))]
           (Some 10)])%list
  /\ sent (snd (App.get_earnings_surprises (App.init (Some key)) symbol limit w))
     = (sent w ++
        [MkRequest "https://finnhub.io/api/v1/stock/earnings"
           [("token", PyStr key); ("symbol", PyStr (strip (upper symbol)));
            ("limit", PyInt limit)]
           (Some 10)])%list.
Proof.
  intros Hk Hsym. destruct (app_init_with_key key Hk) as [Hkey Hs].
  refine (conj _ (conj _ (conj _ (conj _ _)))).
  - destruct (app_press_releases_run _ symbol Hkey Hsym from_date to_date w)
      as (dates & n & D & E). cbv zeta in E.
    exists dates. rewrite D, E, Hs. split; reflexivity.
  - destruct (app_insider_transactions_run _ symbol Hkey Hsym from_date to_date w)
      as (dates & n & D & E). cbv zeta in E.
    exists dates. rewrite D, E, Hs. split; reflexivity.
  - pose proof (app_basic_financials_run _ symbol Hkey Hsym metric_type w) as E.
    cbv zeta in E. rewrite E, Hs. reflexivity.
  - pose proof (app_company_profile_run _ symbol Hkey Hsym w) as E.
    cbv zeta in E. rewrite E, Hs. reflexivity.
  - pose proof (app_earnings_surprises_run _ symbol Hkey Hsym limit w) as E.
    cbv zeta in E. rewrite E, Hs. reflexivity.
Qed.

Lemma app_sends_exactly_one_get_witness :
  str_nonempty "k3y" = true /\ names_a_symbol " aapl"
  /\ sent (snd (App.get_earnings_surprises demo_app " aapl" 8
                  (world_of noon_clock unreachable)))
     = [MkRequest "https://finnhub.io/api/v1/stock/earnings"
          [("token", PyStr "k3y"); ("symbol", PyStr "AAPL"); ("limit", PyInt 8)]
          (Some 10)].
Proof.
  assert (Hsym : names_a_symbol " aapl") by (vm_compute; reflexivity).
  split; [reflexivity|]. split; [exact Hsym|].
  destruct (app_sends_exactly_one_get "k3y" " aapl" EmptyString EmptyString "all" 8
              (world_of noon_clock unreachable) eq_refl Hsym)
    as (_ & _ & _ & _ & H).
  unfold demo_app. rewrite H. vm_compute. reflexivity.
Defined.

(** X4: Loaded with a key, the tool-invocation server sends exactly one GET
    per call whose symbol argument is a string, whatever the provider then
    does: to the operation's fixed endpoint, with the token first, then the
    uppercased symbol and the operation's own parameters, and no timeout.
    The financials request always asks for metric=all; the earnings request
    carries the limit argument, or 4 when there is none. *)
Theorem mcp_sends_exactly_one_get
    (key ca_bundle msym : string) (g : Mcp.globals) (args : list (string * pyval))
    (w : world) :
  Mcp.init (Some key) ca_bundle = Ok g -> Mcp.symbol_of args = Ok msym ->
  sent (snd (Mcp.get_press_releases g args w))
  = (sent w ++
     [MkRequest "https://finnhub.io/api/v1/press-releases"
        [("token", PyStr key); ("symbol", PyStr msym);
         ("from", fst (mcp_dates args 30 w)); ("to", snd (mcp_dates args 30 w))]
        None])%list
  /\ sent (snd (Mcp.get_insider_transactions g args w))
     = (sent w ++
        [MkRequest "https://finnhub.io/api/v1/stock/insider-transactions"
           [("token", PyStr key); ("symbol", PyStr msym);
            ("from", fst (mcp_dates args 90 w)); ("to", snd (mcp_dates args 90 w))]
           None])%list
  /\ sent (snd (Mcp.get_basic_financials g args w))
     = (sent w ++
        [MkRequest "https://finnhub.io/api/v1/stock/metric"
           [("token", PyStr key); ("symbol", PyStr msym); ("metric", PyStr "all")]
           None])%list
  /\ sent (snd (Mcp.get_company_profile g args w))
     = (sent w ++
        [MkRequest "https://finnhub.io/api/v1/stock/profile2"
           [("token", PyStr key); ("symbol", PyStr msym)] None])%list
  /\ sent (snd (Mcp.get_earnings_surprises g args w))
     = (sent w ++
        [MkRequest "https://finnhub.io/api/v1/stock/earnings"
           [("token", PyStr key); ("symbol", PyStr msym);
            ("limit", field args "limit" (PyInt 4))]
           None])%list.
Proof.
  intros Hi Hs. destruct (mcp_init_with_key key ca_bundle g Hi) as [_ ->].
  rewrite (mcp_press_releases_run _ args msym Hs w),
    (mcp_insider_transactions_run _ args msym Hs w),
    (mcp_basic_financials_run _ args msym Hs w),
    (mcp_company_profile_run _ args msym Hs w),
    (mcp_earnings_surprises_run _ args msym Hs w).
  repeat split.
Qed.

Lemma mcp_sends_exactly_one_get_witness :
  Mcp.init (Some "k3y") "cacert.pem" = Ok demo_mcp
  /\ Mcp.symbol_of explicit_args = Ok "AAPL"
  /\ sent (snd (Mcp.get_press_releases demo_mcp explicit_args
                  (world_of noon_clock throttling)))
     = [MkRequest "https://finnhub.io/api/v1/press-releases"
          [("token", PyStr "k3y"); ("symbol", PyStr "AAPL");
           ("from", PyStr "2024-01-01"); ("to", PyStr "2024-02-29")]
          None].
Proof.
  assert (Hs : Mcp.symbol_of explicit_args = Ok "AAPL") by (vm_compute; reflexivity).
  split; [reflexivity|]. split; [exact Hs|].
  destruct (mcp_sends_exactly_one_get "k3y" "cacert.pem" "AAPL" demo_mcp explicit_args
              (world_of noon_clock throttling) eq_refl Hs) as (H & _).
  rewrite H. reflexivity.
Defined.

(** ** One date given, one omitted *)

Lemma stamp_date_text (w : world) (k : nat) (days : Z) :
  stamp w k days = date_text (EPOCH_ORDINAL + day_of_reading w k - days).
Proof. reflexivity. Qed.

(** X5: When only one of the two dates is given, the other default is
    taken from the clock alone: an omitted from_date becomes the day 30 (90
    for insider transactions) days before the clock's date, whatever the
    given to_date is, and an omitted to_date becomes the clock's date,
    whatever the given from_date is; the given date is kept.  The
    interactive server reads the clock once for this; the tool-invocation
    server reads it twice and takes the from_date default from the second
    reading. *)
Theorem lone_default_is_anchored_on_the_clock
    (given : string) (gv : pyval) (days : Z)
    (args_to args_from : list (string * pyval)) (w : world) :
  days = 30 \/ days = 90 ->
  str_nonempty given = true ->
  assoc "to_date" args_to = Some gv -> assoc "from_date" args_to = None ->
  assoc "from_date" args_from = Some gv -> assoc "to_date" args_from = None ->
  App.default_dates days EmptyString given w
  = (Ok (date_text (EPOCH_ORDINAL + day_of_reading w 0 - days), given),
     after_reads w 1)
  /\ App.default_dates days given EmptyString w
     = (Ok (given, date_text (EPOCH_ORDINAL + day_of_reading w 0)), after_reads w 1)
  /\ Mcp.default_dates days args_to w
     = (Ok (PyStr (date_text (EPOCH_ORDINAL + day_of_reading w 1 - days)), gv),
        after_reads w 2)
  /\ Mcp.default_dates days args_from w
     = (Ok (gv, PyStr (date_text (EPOCH_ORDINAL + day_of_reading w 0))),
        after_reads w 2).
Proof.
  intros Hd Hg Ht1 Hf1 Hf2 Ht2.
  assert (Hd' : 0 <= days <= 719162) by (destruct Hd; subst; lia).
  rewrite !app_default_dates_run, !mcp_default_dates_run by assumption.
  rewrite Hg, Ht1, Hf1, Hf2, Ht2. cbn [str_nonempty].
  rewrite !stamp_date_text, !Z.sub_0_r. repeat split.
Qed.

(** The theorem with the clock at 2024-02-29 and the to_date 2020-01-01:
    the from_date default is 2024-01-30, later than the given to_date. *)
Lemma lone_default_is_anchored_on_the_clock_witness :
  str_nonempty "2020-01-01" = true
  /\ fst (App.default_dates 30 EmptyString "2020-01-01"
            (world_of noon_clock unreachable))
     = Ok ("2024-01-30", "2020-01-01")
  /\ fst (Mcp.default_dates 30 blank_args (world_of noon_clock unreachable))
     = Ok (PyStr "2024-01-30", PyStr "2020-01-01").
Proof.
  split; [reflexivity|].
  destruct (lone_default_is_anchored_on_the_clock "2020-01-01" (PyStr "2020-01-01") 30
              blank_args [("from_date", PyStr "2020-01-01")]
              (world_of noon_clock unreachable)
              (or_introl eq_refl) eq_refl eq_refl eq_refl eq_refl eq_refl)
    as (Ha & _ & Hm & _).
  rewrite Ha, Hm. split; vm_compute; reflexivity.
Defined.

(** ** The manifest and the dispatch *)

Lemma handle_call_tool_unknown (g : Mcp.globals) (n : string)
    (args : list (string * pyval)) (w : world) :
  ~ In n (map Mcp.name Mcp.handle_list_tools) ->
  Mcp.handle_call_tool g n args w
  = (Raise (Mcp.ValueError ("Unknown tool: " ++ n)), w).
Proof.
  intros H. cbn [map Mcp.handle_list_tools Mcp.name In] in H.
  unfold Mcp.handle_call_tool.
  repeat match goal with
  | |- context [String.eqb n ?s] =>
      let E := fresh in
      destruct (String.eqb_spec n s) as [E|E]; [exfalso; apply H; subst n; tauto|]
  end.
  reflexivity.
Qed.

(** X6: The tools the manifest advertises are exactly the tools the
    dispatch knows: a call by an advertised name runs one of the five
    operations, and a call by any other name raises ValueError("Unknown
    tool: NAME") before anything is read or sent. *)
Theorem advertised_tools_are_the_dispatched_tools
    (g : Mcp.globals) (n : string) (args : list (string * pyval)) (w : world) :
  (In n (map Mcp.name Mcp.handle_list_tools) ->
   In (Mcp.handle_call_tool g n)
      [Mcp.get_press_releases g; Mcp.get_insider_transactions g;
       Mcp.get_basic_financials g; Mcp.get_company_profile g;
       Mcp.get_earnings_surprises g])
  /\ (~ In n (map Mcp.name Mcp.handle_list_tools) ->
      Mcp.handle_call_tool g n args w
      = (Raise (Mcp.ValueError ("Unknown tool: " ++ n)), w)).
Proof.
  split; [|apply handle_call_tool_unknown].
  cbn [map Mcp.handle_list_tools Mcp.name].
  intros [<-|[<-|[<-|[<-|[<-|[]]]]]]; cbn [In]; tauto.
Qed.

Lemma advertised_tools_are_the_dispatched_tools_witness :
  In "get_company_profile" (map Mcp.name Mcp.handle_list_tools)
  /\ ~ In "get_quote" (map Mcp.name Mcp.handle_list_tools)
  /\ In (Mcp.handle_call_tool demo_mcp "get_company_profile")
        [Mcp.get_press_releases demo_mcp; Mcp.get_insider_transactions demo_mcp;
         Mcp.get_basic_financials demo_mcp; Mcp.get_company_profile demo_mcp;
         Mcp.get_earnings_surprises demo_mcp]
  /\ Mcp.handle_call_tool demo_mcp "get_quote" explicit_args
       (world_of noon_clock unreachable)
     = (Raise (Mcp.ValueError "Unknown tool: get_quote"),
        world_of noon_clock unreachable).
Proof.
  assert (H1 : In "get_company_profile" (map Mcp.name Mcp.handle_list_tools))
    by (cbn; tauto).
  assert (H2 : ~ In "get_quote" (map Mcp.name Mcp.handle_list_tools)).
  { cbn. intros [H|[H|[H|[H|[H|[]]]]]]; discriminate H. }
  split; [exact H1|]. split; [exact H2|]. split.
  - apply (advertised_tools_are_the_dispatched_tools demo_mcp "get_company_profile"
             explicit_args (world_of noon_clock unreachable)). exact H1.
  - apply (advertised_tools_are_the_dispatched_tools demo_mcp "get_quote"
             explicit_args (world_of noon_clock unreachable)). exact H2.
Defined.

Lemma symbol_of_agree (args1 args2 : list (string * pyval)) :
  assoc "symbol" args1 = assoc "symbol" args2 ->
  Mcp.symbol_of args1 = Mcp.symbol_of args2.
Proof. intros H. unfold Mcp.symbol_of, getitem. now rewrite H. Qed.

Lemma get_agree (args1 args2 : list (string * pyval)) (k : string) (dflt : pyval) :
  assoc k args1 = assoc k args2 ->
  get (PyDict args1) k dflt = get (PyDict args2) k dflt.
Proof. intros H. unfold get. now rewrite H. Qed.

Lemma default_dates_agree (days : Z) (args1 args2 : list (string * pyval)) :
  assoc "from_date" args1 = assoc "from_date" args2 ->
  assoc "to_date" args1 = assoc "to_date" args2 ->
  Mcp.default_dates days args1 = Mcp.default_dates days args2.
Proof. intros Hf Ht. unfold Mcp.default_dates, get. now rewrite Hf, Ht. Qed.

(** X7: A tool call looks at no argument its schema does not declare: two
    argument dicts that hold the same under the declared names of an
    advertised tool make the call the same computation. *)
Theorem undeclared_arguments_are_ignored
    (g : Mcp.globals) (t : Mcp.Tool) (args1 args2 : list (string * pyval)) :
  In t Mcp.handle_list_tools ->
  agree_on (declared_keys t) args1 args2 ->
  Mcp.handle_call_tool g (Mcp.name t) args1 = Mcp.handle_call_tool g (Mcp.name t) args2.
Proof.
  intros Ht H. cbn [Mcp.handle_list_tools In] in Ht.
  destruct Ht as [<-|[<-|[<-|[<-|[<-|[]]]]]]; unfold agree_on in H;
    cbn [declared_keys Mcp.inputSchema field assoc String.eqb Ascii.eqb Bool.eqb
         map fst Mcp.SYMBOL_PROPERTY] in H.
  - change (Mcp.get_press_releases g args1 = Mcp.get_press_releases g args2).
    unfold Mcp.get_press_releases.
    rewrite (symbol_of_agree args1 args2), (default_dates_agree 30 args1 args2);
      [reflexivity| | |]; apply H; cbn; tauto.
  - change (Mcp.get_insider_transactions g args1 = Mcp.get_insider_transactions g args2).
    unfold Mcp.get_insider_transactions.
    rewrite (symbol_of_agree args1 args2), (default_dates_agree 90 args1 args2);
      [reflexivity| | |]; apply H; cbn; tauto.
  - change (Mcp.get_basic_financials g args1 = Mcp.get_basic_financials g args2).
    unfold Mcp.get_basic_financials.
    rewrite (symbol_of_agree args1 args2),
      (get_agree args1 args2 "metric" (PyStr "all"));
      [reflexivity| |]; apply H; cbn; tauto.
  - change (Mcp.get_company_profile g args1 = Mcp.get_company_profile g args2).
    unfold Mcp.get_company_profile.
    rewrite (symbol_of_agree args1 args2); [reflexivity|]; apply H; cbn; tauto.
  - change (Mcp.get_earnings_surprises g args1 = Mcp.get_earnings_surprises g args2).
    unfold Mcp.get_earnings_surprises.
    rewrite (symbol_of_agree args1 args2),
      (get_agree args1 args2 "limit" (PyInt 4));
      [reflexivity| |]; apply H; cbn; tauto.
Qed.

Lemma undeclared_arguments_are_ignored_witness :
  (exists t,
     In t Mcp.handle_list_tools /\ Mcp.name t = "get_company_profile"
     /\ agree_on (declared_keys t)
          [("symbol", PyStr "aapl")]
          [("verbose", PyBool true); ("symbol", PyStr "aapl")])
  /\ Mcp.handle_call_tool demo_mcp "get_company_profile" [("symbol", PyStr "aapl")]
     = Mcp.handle_call_tool demo_mcp "get_company_profile"
         [("verbose", PyBool true); ("symbol", PyStr "aapl")].
Proof.
  pose (t := nth 3 Mcp.handle_list_tools (Mcp.MkTool EmptyString EmptyString PyNone)).
  assert (Ht : In t Mcp.handle_list_tools) by (cbn; tauto).
  assert (Ha : agree_on (declared_keys t)
                 [("symbol", PyStr "aapl")]
                 [("verbose", PyBool true); ("symbol", PyStr "aapl")]).
  { intros k Hk. cbn in Hk. destruct Hk as [<-|[]]. reflexivity. }
  split.
  - exists t. split; [exact Ht|]. split; [reflexivity|exact Ha].
  - exact (undeclared_arguments_are_ignored demo_mcp t _ _ Ht Ha).
Defined.

Lemma symbol_of_cons_other (k : string) (v : pyval) (args : list (string * pyval)) :
  String.eqb "symbol" k = false ->
  Mcp.symbol_of ((k, v) :: args) = Mcp.symbol_of args.
Proof. intros H. unfold Mcp.symbol_of, getitem. cbn [assoc]. now rewrite H. Qed.

(** X8: The defaults the schemas declare are the defaults the code applies:
    a financials call without a metric argument is the call with the
    schema's default for metric made explicit, and an earnings call without
    a limit argument is the call with the schema's default for limit made
    explicit. *)
Theorem schema_defaults_are_the_code_defaults
    (g : Mcp.globals) (tf te : Mcp.Tool) (dm dl : pyval)
    (args : list (string * pyval)) :
  tool_named "get_basic_financials" = Some tf -> schema_default tf "metric" = Some dm ->
  tool_named "get_earnings_surprises" = Some te -> schema_default te "limit" = Some dl ->
  (assoc "metric" args = None ->
   Mcp.get_basic_financials g args = Mcp.get_basic_financials g (("metric", dm) :: args))
  /\ (assoc "limit" args = None ->
      Mcp.get_earnings_surprises g args
      = Mcp.get_earnings_surprises g (("limit", dl) :: args)).
Proof.
  intros Hf Hm He Hl.
  vm_compute in Hf. injection Hf as <-. vm_compute in Hm. injection Hm as <-.
  vm_compute in He. injection He as <-. vm_compute in Hl. injection Hl as <-.
  split; intros Hn.
  - unfold Mcp.get_basic_financials.
    rewrite (symbol_of_cons_other "metric" (PyStr "all") args eq_refl).
    unfold get. cbn [assoc String.eqb Ascii.eqb Bool.eqb]. now rewrite Hn.
  - unfold Mcp.get_earnings_surprises.
    rewrite (symbol_of_cons_other "limit" (PyInt 4) args eq_refl).
    unfold get. cbn [assoc String.eqb Ascii.eqb Bool.eqb]. now rewrite Hn.
Qed.

Lemma schema_defaults_are_the_code_defaults_witness :
  (exists tf, tool_named "get_basic_financials" = Some tf
              /\ schema_default tf "metric" = Some (PyStr "all"))
  /\ (exists te, tool_named "get_earnings_surprises" = Some te
                 /\ schema_default te "limit" = Some (PyInt 4))
  /\ Mcp.get_earnings_surprises demo_mcp [("symbol", PyStr "aapl")]
     = Mcp.get_earnings_surprises demo_mcp
         [("limit", PyInt 4); ("symbol", PyStr "aapl")].
Proof.
  pose (d := Mcp.MkTool EmptyString EmptyString PyNone).
  assert (Hf : tool_named "get_basic_financials" = Some (nth 2 Mcp.handle_list_tools d))
    by reflexivity.
  assert (He : tool_named "get_earnings_surprises" = Some (nth 4 Mcp.handle_list_tools d))
    by reflexivity.
  split; [eexists; split; [exact Hf|reflexivity]|].
  split; [eexists; split; [exact He|reflexivity]|].
  destruct (schema_defaults_are_the_code_defaults demo_mcp _ _ (PyStr "all") (PyInt 4)
              [("symbol", PyStr "aapl")] Hf eq_refl He eq_refl) as [_ H].
  apply H. reflexivity.
Defined.

(** ** The symbol argument of the tool-invocation server *)

Lemma mcp_symbol_of_missing (args : list (string * pyval)) :
  assoc "symbol" args = None -> Mcp.symbol_of args = Raise (KeyError "symbol").
Proof. intros H. unfold Mcp.symbol_of, getitem. now rewrite H. Qed.

Lemma mcp_symbol_of_not_str (args : list (string * pyval)) (v : pyval) :
  assoc "symbol" args = Some v -> is_str v = false ->
  Mcp.symbol_of args = Raise (AttributeError v "upper").
Proof.
  intros H Hv. unfold Mcp.symbol_of, getitem. rewrite H. cbn [res_bind].
  destruct v; try reflexivity; discriminate Hv.
Qed.

Lemma mcp_symbol_of_str (args : list (string * pyval)) (s : string) :
  assoc "symbol" args = Some (PyStr s) -> Mcp.symbol_of args = Ok (upper s).
Proof. intros H. unfold Mcp.symbol_of, getitem. now rewrite H. Qed.

Lemma mcp_operations_raise_early (g : Mcp.globals) (args : list (string * pyval))
    (e : exn) (w : world) :
  Mcp.symbol_of args = Raise e ->
  Mcp.get_press_releases g args w = (Raise e, w)
  /\ Mcp.get_insider_transactions g args w = (Raise e, w)
  /\ Mcp.get_basic_financials g args w = (Raise e, w)
  /\ Mcp.get_company_profile g args w = (Raise e, w)
  /\ Mcp.get_earnings_surprises g args w = (Raise e, w).
Proof.
  intros Hs. refine (conj _ (conj _ (conj _ (conj _ _)))).
  - unfold Mcp.get_press_releases. apply (mcp_symbol_raises_early args e _ w Hs).
  - unfold Mcp.get_insider_transactions. apply (mcp_symbol_raises_early args e _ w Hs).
  - unfold Mcp.get_basic_financials. apply (mcp_symbol_raises_early args e _ w Hs).
  - unfold Mcp.get_company_profile. apply (mcp_symbol_raises_early args e _ w Hs).
  - unfold Mcp.get_earnings_surprises. apply (mcp_symbol_raises_early args e _ w Hs).
Qed.

(** X9: In the tool-invocation server a call without a symbol argument
    raises KeyError('symbol'), and a call whose symbol is not a string
    raises AttributeError for its missing upper(); either way before the
    clock is read or anything is sent.  There is no "symbol required"
    guard: a symbol that is a string, even an empty or blank one, goes on
    to the provider in one GET. *)
Theorem mcp_symbol_argument_edge_cases
    (g : Mcp.globals) (args : list (string * pyval)) (w : world) :
  (assoc "symbol" args = None ->
   Mcp.get_press_releases g args w = (Raise (KeyError "symbol"), w)
   /\ Mcp.get_insider_transactions g args w = (Raise (KeyError "symbol"), w)
   /\ Mcp.get_basic_financials g args w = (Raise (KeyError "symbol"), w)
   /\ Mcp.get_company_profile g args w = (Raise (KeyError "symbol"), w)
   /\ Mcp.get_earnings_surprises g args w = (Raise (KeyError "symbol"), w))
  /\ (forall v,
        assoc "symbol" args = Some v -> is_str v = false ->
        Mcp.get_press_releases g args w = (Raise (AttributeError v "upper"), w)
        /\ Mcp.get_insider_transactions g args w = (Raise (AttributeError v "upper"), w)
        /\ Mcp.get_basic_financials g args w = (Raise (AttributeError v "upper"), w)
        /\ Mcp.get_company_profile g args w = (Raise (AttributeError v "upper"), w)
        /\ Mcp.get_earnings_surprises g args w = (Raise (AttributeError v "upper"), w))
  /\ (forall s,
        assoc "symbol" args = Some (PyStr s) ->
        List.length (sent (snd (Mcp.get_press_releases g args w)))
        = S (List.length (sent w))
        /\ List.length (sent (snd (Mcp.get_insider_transactions g args w)))
           = S (List.length (sent w))
        /\ List.length (sent (snd (Mcp.get_basic_financials g args w)))
           = S (List.length (sent w))
        /\ List.length (sent (snd (Mcp.get_company_profile g args w)))
           = S (List.length (sent w))
        /\ List.length (sent (snd (Mcp.get_earnings_surprises g args w)))
           = S (List.length (sent w))).
Proof.
  refine (conj _ (conj _ _)).
  - intros H. apply mcp_operations_raise_early. now apply mcp_symbol_of_missing.
  - intros v H Hv. apply mcp_operations_raise_early. now apply mcp_symbol_of_not_str.
  - intros s H. pose proof (mcp_symbol_of_str args s H) as Hs.
    rewrite (mcp_press_releases_run g args _ Hs w),
      (mcp_insider_transactions_run g args _ Hs w),
      (mcp_basic_financials_run g args _ Hs w),
      (mcp_company_profile_run g args _ Hs w),
      (mcp_earnings_surprises_run g args _ Hs w).
    cbn [snd sent after_get after_reads]. rewrite !length_app. cbn [List.length].
    repeat split; lia.
Qed.

Lemma mcp_symbol_argument_edge_cases_witness :
  Mcp.get_company_profile demo_mcp [("ticker", PyStr "AAPL")]
    (world_of noon_clock unreachable)
  = (Raise (MkExn "KeyError" "'symbol'"), world_of noon_clock unreachable)
  /\ Mcp.get_company_profile demo_mcp [("symbol", PyInt 7)]
       (world_of noon_clock unreachable)
     = (Raise (MkExn "AttributeError" "'int' object has no attribute 'upper'"),
        world_of noon_clock unreachable)
  /\ List.length (sent (snd (Mcp.get_company_profile demo_mcp blank_args
                              (world_of noon_clock unreachable))))
     = 1%nat.
Proof.
  refine (conj _ (conj _ _)).
  - destruct (mcp_symbol_argument_edge_cases demo_mcp [("ticker", PyStr "AAPL")]
                (world_of noon_clock unreachable)) as (H & _).
    destruct (H eq_refl) as (_ & _ & _ & H4 & _). exact H4.
  - destruct (mcp_symbol_argument_edge_cases demo_mcp [("symbol", PyInt 7)]
                (world_of noon_clock unreachable)) as (_ & H & _).
    destruct (H (PyInt 7) eq_refl eq_refl) as (_ & _ & _ & H4 & _). exact H4.
  - destruct (mcp_symbol_argument_edge_cases demo_mcp blank_args
                (world_of noon_clock unreachable)) as (_ & _ & H).
    destruct (H EmptyString eq_refl) as (_ & _ & _ & H4 & _). exact H4.
Defined.

(** ** What the answers make of the payload *)

Section Delivered.
Variables (g : App.globals) (gm : Mcp.globals) (symbol msym : string).
Variable args : list (string * pyval).
Variables (w : world) (data : pyval).
Hypothesis Hkey : configured g.
Hypothesis Hsym : names_a_symbol symbol.
Hypothesis Hs : Mcp.symbol_of args = Ok msym.
Hypothesis Hw : delivers w data.

Lemma app_press_releases_delivered (from_date to_date : string) :
  exists dates,
    fst (App.default_dates 30 from_date to_date w) = Ok dates
    /\ fst (App.get_press_releases g symbol from_date to_date w)
       = Ok (app_text (App.press_releases_answer (strip (upper symbol))
                         (fst dates) (snd dates) data)).
Proof.
  destruct (app_press_releases_run g symbol Hkey Hsym from_date to_date w)
    as (dates & n & D & E). cbv zeta in E.
  exists dates. now rewrite D, E, Hw.
Qed.

Lemma app_insider_transactions_delivered (from_date to_date : string) :
  exists dates,
    fst (App.default_dates 90 from_date to_date w) = Ok dates
    /\ fst (App.get_insider_transactions g symbol from_date to_date w)
       = Ok (app_text (App.insider_transactions_answer (strip (upper symbol))
                         (fst dates) (snd dates) data)).
Proof.
  destruct (app_insider_transactions_run g symbol Hkey Hsym from_date to_date w)
    as (dates & n & D & E). cbv zeta in E.
  exists dates. now rewrite D, E, Hw.
Qed.

Lemma app_basic_financials_delivered (metric_type : string) :
  fst (App.get_basic_financials g symbol metric_type w)
  = Ok (app_text (App.basic_financials_answer (strip (upper symbol)) metric_type data)).
Proof.
  pose proof (app_basic_financials_run g symbol Hkey Hsym metric_type w) as E.
  cbv zeta in E. now rewrite E, Hw.
Qed.

Lemma app_company_profile_delivered :
  fst (App.get_company_profile g symbol w)
  = Ok (app_text (App.company_profile_answer (strip (upper symbol)) data)).
Proof.
  pose proof (app_company_profile_run g symbol Hkey Hsym w) as E.
  cbv zeta in E. now rewrite E, Hw.
Qed.

Lemma app_earnings_surprises_delivered (limit : Z) :
  fst (App.get_earnings_surprises g symbol limit w)
  = Ok (app_text (App.earnings_surprises_answer (strip (upper symbol)) data)).
Proof.
  pose proof (app_earnings_surprises_run g symbol Hkey Hsym limit w) as E.
  cbv zeta in E. now rewrite E, Hw.
Qed.

Lemma mcp_press_releases_delivered :
  fst (Mcp.get_press_releases gm args w)
  = (let? a := Mcp.press_releases_answer msym (fst (mcp_dates args 30 w))
                 (snd (mcp_dates args 30 w)) data in
     Ok (Mcp.render a)).
Proof. now rewrite (mcp_press_releases_run gm args msym Hs w), Hw. Qed.

Lemma mcp_insider_transactions_delivered :
  fst (Mcp.get_insider_transactions gm args w)
  = (let? a := Mcp.insider_transactions_answer msym (fst (mcp_dates args 90 w))
                 (snd (mcp_dates args 90 w)) data in
     Ok (Mcp.render a)).
Proof. now rewrite (mcp_insider_transactions_run gm args msym Hs w), Hw. Qed.

Lemma mcp_basic_financials_delivered :
  fst (Mcp.get_basic_financials gm args w)
  = (let? a := Mcp.basic_financials_answer msym (field args "metric" (PyStr "all"))
                 data in
     Ok (Mcp.render a)).
Proof. now rewrite (mcp_basic_financials_run gm args msym Hs w), Hw. Qed.

Lemma mcp_company_profile_delivered :
  fst (Mcp.get_company_profile gm args w)
  = (let? a := Mcp.company_profile_answer msym data in Ok (Mcp.render a)).
Proof. now rewrite (mcp_company_profile_run gm args msym Hs w), Hw. Qed.

Lemma mcp_earnings_surprises_delivered :
  fst (Mcp.get_earnings_surprises gm args w)
  = (let? a := Mcp.earnings_surprises_answer msym data in Ok (Mcp.render a)).
Proof. now rewrite (mcp_earnings_surprises_run gm args msym Hs w), Hw. Qed.

End Delivered.

Lemma get_not_dict (data : pyval) (k : string) (dflt : pyval) :
  is_dict data = false -> get data k dflt = Raise (AttributeError data "get").
Proof. destruct data; try reflexivity; discriminate. Qed.

(** X10: A payload that decodes to something other than an object (a
    list, a string, a number, null) makes the press-release, insider and
    financials operations fail on their first look at it: the interactive
    server answers with the error object for "'T' object has no attribute
    'get'", T being the payload's type, and the tool-invocation server
    raises that AttributeError. *)
Theorem non_object_payload_is_an_attribute_error
    (g : App.globals) (gm : Mcp.globals)
    (symbol from_date to_date metric_type msym : string)
    (args : list (string * pyval)) (w : world) (data : pyval) :
  configured g -> names_a_symbol symbol -> Mcp.symbol_of args = Ok msym ->
  delivers w data -> is_dict data = false ->
  let text := Json.dumps (PyDict [("error", PyStr ("'" ++ type_name data
                                    ++ "' object has no attribute 'get'"))]) in
  (fst (App.get_press_releases g symbol from_date to_date w) = Ok text
   /\ fst (App.get_insider_transactions g symbol from_date to_date w) = Ok text
   /\ fst (App.get_basic_financials g symbol metric_type w) = Ok text)
  /\ (fst (Mcp.get_press_releases gm args w) = Raise (AttributeError data "get")
      /\ fst (Mcp.get_insider_transactions gm args w)
         = Raise (AttributeError data "get")
      /\ fst (Mcp.get_basic_financials gm args w) = Raise (AttributeError data "get")).
Proof.
  intros Hkey Hsym Hs Hw Hd text. split.
  - destruct (app_press_releases_delivered g symbol w data Hkey Hsym Hw
                from_date to_date) as (d1 & _ & E1).
    destruct (app_insider_transactions_delivered g symbol w data Hkey Hsym Hw
                from_date to_date) as (d2 & _ & E2).
    rewrite E1, E2, (app_basic_financials_delivered g symbol w data Hkey Hsym Hw).
    unfold App.press_releases_answer, App.insider_transactions_answer,
      App.basic_financials_answer.
    rewrite !(get_not_dict data _ _ Hd). repeat split.
  - rewrite (mcp_press_releases_delivered gm msym args w data Hs Hw),
      (mcp_insider_transactions_delivered gm msym args w data Hs Hw),
      (mcp_basic_financials_delivered gm msym args w data Hs Hw).
    unfold Mcp.press_releases_answer, Mcp.insider_transactions_answer,
      Mcp.basic_financials_answer.
    rewrite !(get_not_dict data _ _ Hd). repeat split.
Qed.

Lemma non_object_payload_is_an_attribute_error_witness :
  configured demo_app /\ names_a_symbol "aapl"
  /\ Mcp.symbol_of explicit_args = Ok "AAPL"
  /\ delivers (world_of noon_clock (answering (PyList []))) (PyList [])
  /\ fst (App.get_press_releases demo_app "aapl" EmptyString EmptyString
            (world_of noon_clock (answering (PyList []))))
     = Ok (Json.dumps (PyDict
         [("error", PyStr "'list' object has no attribute 'get'")])).
Proof.
  assert (Hkey : configured demo_app) by reflexivity.
  assert (Hsym : names_a_symbol "aapl") by (vm_compute; reflexivity).
  assert (Hs : Mcp.symbol_of explicit_args = Ok "AAPL") by (vm_compute; reflexivity).
  assert (Hw : delivers (world_of noon_clock (answering (PyList []))) (PyList []))
    by (intros rq; reflexivity).
  do 4 (split; [assumption|]).
  destruct (non_object_payload_is_an_attribute_error demo_app demo_mcp "aapl"
              EmptyString EmptyString "all" "AAPL" explicit_args _ (PyList [])
              Hkey Hsym Hs Hw eq_refl) as [(H & _) _].
  exact H.
Defined.

(** X11: The profile and earnings operations hand any truthy payload on
    whole, object or not, with no cap and no projection: the profile answer
    is the payload itself, the earnings answer is the payload under
    earnings_surprises beside the symbol. *)
Theorem truthy_payload_passes_through_whole
    (g : App.globals) (gm : Mcp.globals) (symbol msym : string) (limit : Z)
    (args : list (string * pyval)) (w : world) (data : pyval) :
  configured g -> names_a_symbol symbol -> Mcp.symbol_of args = Ok msym ->
  delivers w data -> truthy data = true ->
  fst (App.get_company_profile g symbol w) = Ok (Json.dumps data)
  /\ fst (Mcp.get_company_profile gm args w) = Ok (Mcp.render (Mcp.Result data))
  /\ fst (App.get_earnings_surprises g symbol limit w)
     = Ok (Json.dumps (PyDict [("symbol", PyStr (strip (upper symbol)));
                               ("earnings_surprises", data)]))
  /\ fst (Mcp.get_earnings_surprises gm args w)
     = Ok (Mcp.render (Mcp.Result (PyDict [("symbol", PyStr msym);
                                           ("earnings_surprises", data)]))).
Proof.
  intros Hkey Hsym Hs Hw Ht.
  rewrite (app_company_profile_delivered g symbol w data Hkey Hsym Hw),
    (app_earnings_surprises_delivered g symbol w data Hkey Hsym Hw),
    (mcp_company_profile_delivered gm msym args w data Hs Hw),
    (mcp_earnings_surprises_delivered gm msym args w data Hs Hw).
  unfold App.company_profile_answer, App.earnings_surprises_answer,
    Mcp.company_profile_answer, Mcp.earnings_surprises_answer.
  rewrite Ht. repeat split.
Qed.

Lemma truthy_payload_passes_through_whole_witness :
  configured demo_app /\ names_a_symbol "aapl"
  /\ Mcp.symbol_of explicit_args = Ok "AAPL"
  /\ truthy (PyList [PyDict [("actual", PyFloat "1.52")]; PyInt 3]) = true
  /\ fst (Mcp.get_earnings_surprises demo_mcp explicit_args
            (world_of noon_clock
               (answering (PyList [PyDict [("actual", PyFloat "1.52")]; PyInt 3]))))
     = Ok (Mcp.render (Mcp.Result (PyDict
         [("symbol", PyStr "AAPL");
          ("earnings_surprises",
           PyList [PyDict [("actual", PyFloat "1.52")]; PyInt 3])]))).
Proof.
  assert (Hkey : configured demo_app) by reflexivity.
  assert (Hsym : names_a_symbol "aapl") by (vm_compute; reflexivity).
  assert (Hs : Mcp.symbol_of explicit_args = Ok "AAPL") by (vm_compute; reflexivity).
  do 3 (split; [assumption|]). split; [reflexivity|].
  destruct (truthy_payload_passes_through_whole demo_app demo_mcp "aapl" "AAPL" 4
              explicit_args
              (world_of noon_clock
                 (answering (PyList [PyDict [("actual", PyFloat "1.52")]; PyInt 3])))
              (PyList [PyDict [("actual", PyFloat "1.52")]; PyInt 3])
              Hkey Hsym Hs (fun rq => eq_refl) eq_refl) as (_ & _ & _ & H).
  exact H.
Defined.

(** ** The capped lists, entry by entry *)

Lemma format_capped_list (f : pyval -> res pyval) (d : list (string * pyval))
    (key : string) (cap : nat) (l : list pyval) :
  assoc key d = Some (PyList l) ->
  format_capped f (PyDict d) key cap = for_each f (firstn cap l).
Proof. intros H. unfold format_capped, getitem. now rewrite H. Qed.

Lemma truthy_of_head (n : nat) (l1 l2 : list pyval) :
  firstn (S n) l1 = firstn (S n) l2 -> truthy (PyList l1) = truthy (PyList l2).
Proof. destruct l1, l2; cbn [firstn]; intros H; try reflexivity; discriminate H. Qed.

(** X12: Entries beyond the cap are never looked at: two payloads whose
    press-release lists share their first 10 entries (insider lists their
    first 20) get the same answer from either server, whatever follows in
    the lists, be it well formed or not. *)
Theorem entries_beyond_the_cap_are_never_read
    (symbol from_date to_date : string) (fd td : pyval)
    (d1 d2 : list (string * pyval)) (l1 l2 : list pyval) :
  (assoc "majorDevelopment" d1 = Some (PyList l1) ->
   assoc "majorDevelopment" d2 = Some (PyList l2) ->
   firstn 10 l1 = firstn 10 l2 ->
   App.press_releases_answer symbol from_date to_date (PyDict d1)
   = App.press_releases_answer symbol from_date to_date (PyDict d2)
   /\ Mcp.press_releases_answer symbol fd td (PyDict d1)
      = Mcp.press_releases_answer symbol fd td (PyDict d2))
  /\ (assoc "data" d1 = Some (PyList l1) ->
      assoc "data" d2 = Some (PyList l2) ->
      firstn 20 l1 = firstn 20 l2 ->
      App.insider_transactions_answer symbol from_date to_date (PyDict d1)
      = App.insider_transactions_answer symbol from_date to_date (PyDict d2)
      /\ Mcp.insider_transactions_answer symbol fd td (PyDict d1)
         = Mcp.insider_transactions_answer symbol fd td (PyDict d2)).
Proof.
  split; intros H1 H2 Hl.
  - unfold App.press_releases_answer, Mcp.press_releases_answer, get.
    rewrite !(format_capped_list _ d1 _ _ l1 H1), !(format_capped_list _ d2 _ _ l2 H2).
    rewrite H1, H2. cbn [res_bind]. rewrite (truthy_of_head 9 l1 l2 Hl), Hl.
    split; reflexivity.
  - unfold App.insider_transactions_answer, Mcp.insider_transactions_answer, get.
    rewrite !(format_capped_list _ d1 _ _ l1 H1), !(format_capped_list _ d2 _ _ l2 H2).
    rewrite H1, H2. cbn [res_bind]. rewrite (truthy_of_head 19 l1 l2 Hl), Hl.
    split; reflexivity.
Qed.

(** The theorem on eleven releases followed by a number or by nothing. *)
Lemma entries_beyond_the_cap_are_never_read_witness :
  firstn 10 (map PyDict eleven_releases ++ [PyInt 7])
  = firstn 10 (map PyDict eleven_releases)
  /\ App.press_releases_answer "AAPL" "2024-01-01" "2024-02-29"
       (PyDict [("majorDevelopment", PyList (map PyDict eleven_releases ++ [PyInt 7]))])
     = App.press_releases_answer "AAPL" "2024-01-01" "2024-02-29"
         (PyDict [("majorDevelopment", PyList (map PyDict eleven_releases))]).
Proof.
  assert (H : firstn 10 (map PyDict eleven_releases ++ [PyInt 7])
              = firstn 10 (map PyDict eleven_releases)) by reflexivity.
  split; [exact H|].
  destruct (entries_beyond_the_cap_are_never_read "AAPL" "2024-01-01" "2024-02-29"
              PyNone PyNone
              [("majorDevelopment", PyList (map PyDict eleven_releases ++ [PyInt 7]))]
              [("majorDevelopment", PyList (map PyDict eleven_releases))]
              (map PyDict eleven_releases ++ [PyInt 7])
              (map PyDict eleven_releases)) as [Hp _].
  destruct (Hp eq_refl eq_refl H) as [Ha _]. exact Ha.
Defined.

Lemma for_each_stops_at_bad (f : pyval -> res pyval)
    (recs : list (list (string * pyval))) (bad : pyval) (rest : list pyval) (e : exn) :
  (forall rec, exists y, f (PyDict rec) = Ok y) ->
  f bad = Raise e ->
  for_each f (map PyDict recs ++ bad :: rest) = Raise e.
Proof.
  intros Hf Hb. induction recs as [|rec recs IH]; cbn [map app for_each].
  - now rewrite Hb.
  - destruct (Hf rec) as (y & ->). now rewrite IH.
Qed.

Lemma firstn_through_bad (cap : nat) (recs : list (list (string * pyval)))
    (bad : pyval) (rest : list pyval) :
  (List.length recs < cap)%nat ->
  exists rest',
    firstn cap (map PyDict recs ++ bad :: rest) = (map PyDict recs ++ bad :: rest')%list.
Proof.
  intros H. rewrite firstn_app, length_map.
  rewrite firstn_all2 by (rewrite length_map; lia).
  destruct (cap - List.length recs)%nat as [|m] eqn:E; [lia|].
  cbn [firstn]. eauto.
Qed.

Lemma format_release_not_dict (bad : pyval) :
  is_dict bad = false -> format_release bad = Raise (AttributeError bad "get").
Proof. destruct bad; try reflexivity; discriminate. Qed.

Lemma format_transaction_not_dict (bad : pyval) :
  is_dict bad = false -> format_transaction bad = Raise (AttributeError bad "get").
Proof. destruct bad; try reflexivity; discriminate. Qed.

Lemma format_capped_bad (f : pyval -> res pyval) (d : list (string * pyval))
    (key : string) (cap : nat) (recs : list (list (string * pyval)))
    (bad : pyval) (rest : list pyval) (e : exn) :
  (forall rec, exists y, f (PyDict rec) = Ok y) ->
  f bad = Raise e ->
  assoc key d = Some (PyList (map PyDict recs ++ bad :: rest)) ->
  (List.length recs < cap)%nat ->
  format_capped f (PyDict d) key cap = Raise e.
Proof.
  intros Hf Hb Hk Hl. rewrite (format_capped_list f d key cap _ Hk).
  destruct (firstn_through_bad cap recs bad rest Hl) as (rest' & ->).
  now apply for_each_stops_at_bad.
Qed.

Lemma truthy_with_bad (recs : list (list (string * pyval))) (bad : pyval)
    (rest : list pyval) :
  truthy (PyList (map PyDict recs ++ bad :: rest)) = true.
Proof. destruct recs; reflexivity. Qed.

(** X13: One entry that is not an object, among the entries under the cap,
    fails the whole list: no partial list is answered.  The interactive
    server answers with the error object for "'T' object has no attribute
    'get'", T being the type of the first such entry, and the
    tool-invocation server raises that AttributeError. *)
Theorem one_malformed_entry_fails_the_whole_list
    (g : App.globals) (gm : Mcp.globals) (symbol from_date to_date msym : string)
    (args : list (string * pyval)) (w : world) (d : list (string * pyval))
    (recs : list (list (string * pyval))) (bad : pyval) (rest : list pyval) :
  configured g -> names_a_symbol symbol -> Mcp.symbol_of args = Ok msym ->
  delivers w (PyDict d) -> is_dict bad = false ->
  let text := Json.dumps (PyDict [("error", PyStr ("'" ++ type_name bad
                                    ++ "' object has no attribute 'get'"))]) in
  (assoc "majorDevelopment" d = Some (PyList (map PyDict recs ++ bad :: rest)) ->
   (List.length recs < 10)%nat ->
   fst (App.get_press_releases g symbol from_date to_date w) = Ok text
   /\ fst (Mcp.get_press_releases gm args w) = Raise (AttributeError bad "get"))
  /\ (assoc "data" d = Some (PyList (map PyDict recs ++ bad :: rest)) ->
      (List.length recs < 20)%nat ->
      fst (App.get_insider_transactions g symbol from_date to_date w) = Ok text
      /\ fst (Mcp.get_insider_transactions gm args w)
         = Raise (AttributeError bad "get")).
Proof.
  intros Hkey Hsym Hs Hw Hb text. split; intros Hk Hl.
  - assert (F : format_capped format_release (PyDict d) "majorDevelopment" 10
                = Raise (AttributeError bad "get")).
    { apply (format_capped_bad _ d _ _ recs bad rest); auto.
      - intros rec. eexists. apply format_release_dict.
      - now apply format_release_not_dict. }
    destruct (app_press_releases_delivered g symbol w _ Hkey Hsym Hw
                from_date to_date) as (dates & _ & E).
    rewrite E, (mcp_press_releases_delivered gm msym args w _ Hs Hw).
    unfold App.press_releases_answer, Mcp.press_releases_answer, get.
    rewrite Hk, F. cbn [res_bind]. rewrite truthy_with_bad. split; reflexivity.
  - assert (F : format_capped format_transaction (PyDict d) "data" 20
                = Raise (AttributeError bad "get")).
    { apply (format_capped_bad _ d _ _ recs bad rest); auto.
      - intros rec. eexists. apply format_transaction_dict.
      - now apply format_transaction_not_dict. }
    destruct (app_insider_transactions_delivered g symbol w _ Hkey Hsym Hw
                from_date to_date) as (dates & _ & E).
    rewrite E, (mcp_insider_transactions_delivered gm msym args w _ Hs Hw).
    unfold App.insider_transactions_answer, Mcp.insider_transactions_answer, get.
    rewrite Hk, F. cbn [res_bind]. rewrite truthy_with_bad. split; reflexivity.
Qed.

(** The theorem on two releases followed by a bare string. *)
Lemma one_malformed_entry_fails_the_whole_list_witness :
  configured demo_app /\ names_a_symbol "aapl"
  /\ Mcp.symbol_of explicit_args = Ok "AAPL"
  /\ fst (App.get_press_releases demo_app "aapl" EmptyString EmptyString
            (world_of noon_clock
               (answering (PyDict
                  [("majorDevelopment",
                    PyList (map PyDict (firstn 2 eleven_releases)
                            ++ PyStr "n/a" :: []))]))))
     = Ok (Json.dumps (PyDict
         [("error", PyStr "'str' object has no attribute 'get'")])).
Proof.
  assert (Hkey : configured demo_app) by reflexivity.
  assert (Hsym : names_a_symbol "aapl") by (vm_compute; reflexivity).
  assert (Hs : Mcp.symbol_of explicit_args = Ok "AAPL") by (vm_compute; reflexivity).
  do 3 (split; [assumption|]).
  destruct (one_malformed_entry_fails_the_whole_list demo_app demo_mcp "aapl"
              EmptyString EmptyString "AAPL" explicit_args
              (world_of noon_clock
                 (answering (PyDict
                    [("majorDevelopment",
                      PyList (map PyDict (firstn 2 eleven_releases)
                              ++ PyStr "n/a" :: []))])))
              [("majorDevelopment",
                PyList (map PyDict (firstn 2 eleven_releases) ++ PyStr "n/a" :: []))]
              (firstn 2 eleven_releases) (PyStr "n/a") []
              Hkey Hsym Hs (fun rq => eq_refl) eq_refl) as [H _].
  destruct (H eq_refl ltac:(vm_compute; lia)) as [Ha _]. exact Ha.
Defined.

(** ** The status check comes first *)

Lemma raise_for_status_error (r : response) :
  400 <= status_code r < 600 ->
  exists e, raise_for_status r = Raise e /\ exn_class e = "HTTPError".
Proof.
  intros H. unfold raise_for_status.
  destruct (Z.leb_spec 400 (status_code r)); [|lia].
  destruct (Z.ltb_spec (status_code r) 500); cbn [andb]; [eauto|].
  destruct (Z.leb_spec 500 (status_code r)); [|lia].
  destruct (Z.ltb_spec (status_code r) 600); cbn [andb]; [eauto|lia].
Qed.

(** X14: A response with a 4xx or 5xx status is an HTTPError whatever its
    body holds, because the status is checked before the body is decoded:
    each operation of the interactive server answers with the error object
    carrying the HTTPError's text, and each operation of the tool-invocation
    server raises it. *)
Theorem error_status_hides_the_body
    (g : App.globals) (gm : Mcp.globals)
    (symbol from_date to_date metric_type msym : string) (limit : Z)
    (args : list (string * pyval)) (w : world) (r : response) :
  configured g -> names_a_symbol symbol -> Mcp.symbol_of args = Ok msym ->
  (forall rq, network w rq = Ok r) ->
  400 <= status_code r < 600 ->
  exists e,
    raise_for_status r = Raise e /\ exn_class e = "HTTPError"
    /\ (let text := Json.dumps (PyDict [("error", PyStr (exn_msg e))]) in
        fst (App.get_press_releases g symbol from_date to_date w) = Ok text
        /\ fst (App.get_insider_transactions g symbol from_date to_date w) = Ok text
        /\ fst (App.get_basic_financials g symbol metric_type w) = Ok text
        /\ fst (App.get_company_profile g symbol w) = Ok text
        /\ fst (App.get_earnings_surprises g symbol limit w) = Ok text)
    /\ fst (Mcp.get_press_releases gm args w) = Raise e
    /\ fst (Mcp.get_insider_transactions gm args w) = Raise e
    /\ fst (Mcp.get_basic_financials gm args w) = Raise e
    /\ fst (Mcp.get_company_profile gm args w) = Raise e
    /\ fst (Mcp.get_earnings_surprises gm args w) = Raise e.
Proof.
  intros Hkey Hsym Hs Hn Hc.
  destruct (raise_for_status_error r Hc) as (e & He & Hcl).
  assert (Hr : forall rq, received w rq = Raise e).
  { intros rq. unfold received. rewrite (Hn rq). cbn [res_bind]. now rewrite He. }
  exists e. split; [exact He|]. split; [exact Hcl|]. split.
  - destruct (app_press_releases_run g symbol Hkey Hsym from_date to_date w)
      as (d1 & n1 & _ & E1).
    destruct (app_insider_transactions_run g symbol Hkey Hsym from_date to_date w)
      as (d2 & n2 & _ & E2).
    cbv zeta in E1, E2. cbv zeta.
    rewrite E1, E2, (app_basic_financials_run g symbol Hkey Hsym metric_type w),
      (app_company_profile_run g symbol Hkey Hsym w),
      (app_earnings_surprises_run g symbol Hkey Hsym limit w).
    cbv zeta. rewrite !Hr. repeat split.
  - rewrite (mcp_press_releases_run gm args msym Hs w),
      (mcp_insider_transactions_run gm args msym Hs w),
      (mcp_basic_financials_run gm args msym Hs w),
      (mcp_company_profile_run gm args msym Hs w),
      (mcp_earnings_surprises_run gm args msym Hs w).
    cbv zeta. rewrite !Hr. repeat split.
Qed.

(** The theorem on a 503 whose body is a well-formed profile. *)
Lemma error_status_hides_the_body_witness :
  configured demo_app /\ names_a_symbol "aapl"
  /\ Mcp.symbol_of explicit_args = Ok "AAPL"
  /\ fst (App.get_company_profile demo_app "aapl"
            (world_of noon_clock
               (responding (MkResponse 503 "Service Unavailable" "u"
                              (Ok (PyDict [("name", PyStr "Apple Inc")]))))))
     = Ok (Json.dumps (PyDict
         [("error", PyStr "503 Server Error: Service Unavailable for url: u")])).
Proof.
  assert (Hkey : configured demo_app) by reflexivity.
  assert (Hsym : names_a_symbol "aapl") by (vm_compute; reflexivity).
  assert (Hs : Mcp.symbol_of explicit_args = Ok "AAPL") by (vm_compute; reflexivity).
  do 3 (split; [assumption|]).
  destruct (error_status_hides_the_body demo_app demo_mcp "aapl" EmptyString
              EmptyString "all" "AAPL" 4 explicit_args
              (world_of noon_clock
                 (responding (MkResponse 503 "Service Unavailable" "u"
                                (Ok (PyDict [("name", PyStr "Apple Inc")])))))
              (MkResponse 503 "Service Unavailable" "u"
                 (Ok (PyDict [("name", PyStr "Apple Inc")])))
              Hkey Hsym Hs (fun rq => eq_refl) ltac:(cbn; lia))
    as (e & He & _ & Ha & _).
  cbv zeta in Ha. destruct Ha as (_ & _ & _ & H4 & _). rewrite H4.
  vm_compute in He. injection He as <-. reflexivity.
Defined.

(** ** The two servers, side by side *)

(** X15: Given the same symbol, the same dates (as strings), the same
    category and the same decoded payload, the two servers build the same
    answer: the same result object, or the same no-results sentence (which
    the interactive server wraps in an object with the symbol), or the same
    exception. *)
Theorem both_servers_build_the_same_answer
    (symbol from_date to_date metric_type : string) (data : pyval) :
  same_answer symbol
    (App.press_releases_answer symbol from_date to_date data)
    (Mcp.press_releases_answer symbol (PyStr from_date) (PyStr to_date) data)
  /\ same_answer symbol
       (App.insider_transactions_answer symbol from_date to_date data)
       (Mcp.insider_transactions_answer symbol (PyStr from_date) (PyStr to_date) data)
  /\ same_answer symbol
       (App.basic_financials_answer symbol metric_type data)
       (Mcp.basic_financials_answer symbol (PyStr metric_type) data)
  /\ same_answer symbol
       (App.company_profile_answer symbol data)
       (Mcp.company_profile_answer symbol data)
  /\ same_answer symbol
       (App.earnings_surprises_answer symbol data)
       (Mcp.earnings_surprises_answer symbol data).
Proof.
  refine (conj _ (conj _ (conj _ (conj _ _)))).
  - unfold App.press_releases_answer, Mcp.press_releases_answer.
    destruct (get data "majorDevelopment" PyNone) as [found|e]; cbn [res_bind];
      [|reflexivity].
    destruct (truthy found); cbn [negb str]; [|reflexivity].
    destruct (format_capped format_release data "majorDevelopment" 10);
      reflexivity.
  - unfold App.insider_transactions_answer, Mcp.insider_transactions_answer.
    destruct (get data "data" PyNone) as [found|e]; cbn [res_bind]; [|reflexivity].
    destruct (truthy found); cbn [negb str]; [|reflexivity].
    destruct (format_capped format_transaction data "data" 20); reflexivity.
  - unfold App.basic_financials_answer, Mcp.basic_financials_answer.
    destruct (get data "metric" PyNone) as [found|e]; cbn [res_bind]; [|reflexivity].
    destruct (truthy found); cbn [negb]; [|reflexivity].
    destruct (getitem data "metric") as [metrics|e]; cbn [res_bind]; [|reflexivity].
    destruct (filter_metrics (PyStr metric_type) metrics); cbn [res_bind];
      [|reflexivity].
    destruct (get data "series" (PyDict [])); reflexivity.
  - unfold App.company_profile_answer, Mcp.company_profile_answer.
    destruct (truthy data); reflexivity.
  - unfold App.earnings_surprises_answer, Mcp.earnings_surprises_answer.
    destruct (truthy data); reflexivity.
Qed.

(** ** The metric filter, further *)

Lemma filter_all (d : list (string * pyval)) : filter (fun _ => true) d = d.
Proof. induction d as [|kv d IH]; [reflexivity|]. cbn [filter]. now rewrite IH. Qed.

Lemma filter_twice {A} (p : A -> bool) (l : list A) :
  filter p (filter p l) = filter p l.
Proof.
  induction l as [|x l IH]; [reflexivity|]. cbn [filter].
  destruct (p x) eqn:E; [cbn [filter]; now rewrite E, IH|exact IH].
Qed.

Lemma filter_shorter {A} (p : A -> bool) (l : list A) :
  (List.length (filter p l) <= List.length l)%nat.
Proof.
  induction l as [|x l IH]; [reflexivity|]. cbn [filter].
  destruct (p x); cbn [List.length]; lia.
Qed.

Lemma filter_metrics_is_a_filter (category : pyval) :
  exists p, forall d,
    filter_metrics category (PyDict d)
    = Ok (PyDict (filter (fun kv => p (fst kv)) d)).
Proof.
  unfold filter_metrics.
  destruct (eq_str category "price");
    [exists (key_matches PRICE_TERMS); intros d; apply comprehension_dict|].
  destruct (eq_str category "valuation");
    [exists (key_matches VALUATION_TERMS); intros d; apply comprehension_dict|].
  destruct (eq_str category "margin");
    [exists (key_matches MARGIN_TERMS); intros d; apply comprehension_dict|].
  exists (fun _ => true). intros d. now rewrite filter_all.
Qed.

(** X16: On a metrics object the filter never raises and never invents or
    alters anything: what it keeps are items of the object, key and value
    as the provider sent them, so never more than there were; and filtering
    what was kept again, by the same category, keeps all of it. *)
Theorem filtered_metrics_are_a_stable_part
    (category : pyval) (d : list (string * pyval)) :
  exists kept,
    filter_metrics category (PyDict d) = Ok (PyDict kept)
    /\ (forall kv, In kv kept -> In kv d)
    /\ (List.length kept <= List.length d)%nat
    /\ filter_metrics category (PyDict kept) = Ok (PyDict kept).
Proof.
  destruct (filter_metrics_is_a_filter category) as (p & Hp).
  exists (filter (fun kv => p (fst kv)) d). rewrite !Hp.
  refine (conj eq_refl (conj _ (conj _ _))).
  - intros kv H. apply filter_In in H. tauto.
  - apply filter_shorter.
  - now rewrite filter_twice.
Qed.

Lemma lower_char_upper_char (c : ascii) : lower_char (upper_char c) = lower_char c.
Proof. each_char c. Qed.

Lemma lower_char_lower_char (c : ascii) : lower_char (lower_char c) = lower_char c.
Proof. each_char c. Qed.

Lemma lower_upper (s : string) : lower (upper s) = lower s.
Proof.
  unfold lower, upper. induction s as [|c s IH]; [reflexivity|].
  cbn [str_map]. now rewrite lower_char_upper_char, IH.
Qed.

Lemma lower_lower (s : string) : lower (lower s) = lower s.
Proof.
  unfold lower. induction s as [|c s IH]; [reflexivity|].
  cbn [str_map]. now rewrite lower_char_lower_char, IH.
Qed.

(** X17: The metric filter ignores the case of the keys: a key is kept or
    dropped as its uppercased and its lowercased forms are, for every
    category. *)
Theorem metric_matching_ignores_case
    (category : pyval) (k : string) (v : pyval) :
  (forall terms,
     key_matches terms (upper k) = key_matches terms k
     /\ key_matches terms (lower k) = key_matches terms k)
  /\ (filter_metrics category (PyDict [(upper k, v)]) = Ok (PyDict [])
      <-> filter_metrics category (PyDict [(k, v)]) = Ok (PyDict []))
  /\ (filter_metrics category (PyDict [(lower k, v)]) = Ok (PyDict [])
      <-> filter_metrics category (PyDict [(k, v)]) = Ok (PyDict [])).
Proof.
  assert (Hm : forall terms,
             key_matches terms (upper k) = key_matches terms k
             /\ key_matches terms (lower k) = key_matches terms k).
  { intros terms. unfold key_matches. now rewrite lower_upper, lower_lower. }
  split; [exact Hm|].
  unfold filter_metrics.
  destruct (eq_str category "price");
    [rewrite !comprehension_dict; cbn [filter fst];
     destruct (Hm PRICE_TERMS) as [-> ->];
     destruct (key_matches PRICE_TERMS k); split; split; intros H;
     try reflexivity; discriminate H|].
  destruct (eq_str category "valuation");
    [rewrite !comprehension_dict; cbn [filter fst];
     destruct (Hm VALUATION_TERMS) as [-> ->];
     destruct (key_matches VALUATION_TERMS k); split; split; intros H;
     try reflexivity; discriminate H|].
  destruct (eq_str category "margin");
    [rewrite !comprehension_dict; cbn [filter fst];
     destruct (Hm MARGIN_TERMS) as [-> ->];
     destruct (key_matches MARGIN_TERMS k); split; split; intros H;
     try reflexivity; discriminate H|].
  split; split; intros H; discriminate H.
Qed.

(** ** The category filter inside the financials operation *)

Lemma app_financials_answer_found (symbol metric_type : string)
    (d m : list (string * pyval)) :
  assoc "metric" d = Some (PyDict m) -> m <> [] ->
  App.basic_financials_answer symbol metric_type (PyDict d)
  = (let? kept := filter_metrics (PyStr metric_type) (PyDict m) in
     Ok (PyDict [("symbol", PyStr symbol);
                 ("metric_type", PyStr metric_type);
                 ("metrics", kept);
                 ("series", field d "series" (PyDict []))])).
Proof.
  intros Hm Hne. unfold App.basic_financials_answer, get, getitem. rewrite Hm.
  cbn [res_bind]. rewrite (truthy_dict_nonempty m Hne). cbn [negb].
  destruct (filter_metrics (PyStr metric_type) (PyDict m)); reflexivity.
Qed.

Lemma mcp_financials_answer_found (symbol : string) (category : pyval)
    (d m : list (string * pyval)) :
  assoc "metric" d = Some (PyDict m) -> m <> [] ->
  Mcp.basic_financials_answer symbol category (PyDict d)
  = (let? kept := filter_metrics category (PyDict m) in
     Ok (Mcp.Result (PyDict [("symbol", PyStr symbol);
                             ("metric_type", category);
                             ("metrics", kept);
                             ("series", field d "series" (PyDict []))]))).
Proof.
  intros Hm Hne. unfold Mcp.basic_financials_answer, get, getitem. rewrite Hm.
  cbn [res_bind]. rewrite (truthy_dict_nonempty m Hne). cbn [negb].
  destruct (filter_metrics category (PyDict m)); reflexivity.
Qed.

Section FinancialsFound.
Variables (g : App.globals) (gm : Mcp.globals) (symbol msym : string).
Variable args : list (string * pyval).
Variables (w : world) (d m : list (string * pyval)).
Hypothesis Hkey : configured g.
Hypothesis Hsym : names_a_symbol symbol.
Hypothesis Hs : Mcp.symbol_of args = Ok msym.
Hypothesis Hw : delivers w (PyDict d).
Hypothesis Hm : assoc "metric" d = Some (PyDict m).
Hypothesis Hne : m <> [].

(** What the interactive server's operation returns once the filter chain
    has kept [kept]. *)
Lemma app_financials_returns (metric_type : string) (kept : list (string * pyval)) :
  filter_metrics (PyStr metric_type) (PyDict m) = Ok (PyDict kept) ->
  fst (App.get_basic_financials g symbol metric_type w)
  = Ok (Json.dumps (financials_result (strip (upper symbol)) (PyStr metric_type)
                      kept d)).
Proof.
  intros K. rewrite (app_basic_financials_delivered g symbol w _ Hkey Hsym Hw).
  now rewrite (app_financials_answer_found _ _ d m Hm Hne), K.
Qed.

(** What the tool-invocation server's operation returns once the filter
    chain has kept [kept]. *)
Lemma mcp_financials_returns (kept : list (string * pyval)) :
  filter_metrics (field args "metric" (PyStr "all")) (PyDict m) = Ok (PyDict kept) ->
  fst (Mcp.get_basic_financials gm args w)
  = Ok (Mcp.render (Mcp.Result
          (financials_result msym (field args "metric" (PyStr "all")) kept d))).
Proof.
  intros K. rewrite (mcp_basic_financials_delivered gm msym args w _ Hs Hw).
  now rewrite (mcp_financials_answer_found _ _ d m Hm Hne), K.
Qed.

End FinancialsFound.

Lemma eq_str_other (other category : string) :
  other <> category -> eq_str (PyStr other) category = false.
Proof. intros H. cbn [eq_str]. now apply String.eqb_neq. Qed.

(** C2: What get_basic_financials returns, in both servers, when the
    provider's object holds a non-empty metric object.  For the metrics
    {peRatio, grossMargin, beta, roeTTM} (whatever the four values) the
    answer's metrics are exactly {peRatio} for category valuation,
    {grossMargin, roeTTM} for margin, {beta} for price, and the four for all.
    For any metrics, price keeps the items whose lowercased key contains
    "price", "52week" or "beta"; valuation those containing "pe", "pb",
    "ps", "ev" or "ratio"; margin those containing "margin", "roe", "roa"
    or "roic" (in the provider's order); any other category, all included,
    keeps every item.  The interactive server takes the category from its
    metric_type parameter, the tool-invocation server from the metric
    argument, all when there is none. *)
Theorem basic_financials_filters_by_category
    (g : App.globals) (gm : Mcp.globals) (symbol msym other : string)
    (args : list (string * pyval)) :
  configured g -> names_a_symbol symbol -> Mcp.symbol_of args = Ok msym ->
  ~ In other ["price"; "valuation"; "margin"] ->
  let category := field args "metric" (PyStr "all") in
  (forall w d m,
     delivers w (PyDict d) -> assoc "metric" d = Some (PyDict m) -> m <> [] ->
     let price_kept :=
       filter (fun kv => str_in "price" (lower (fst kv))
                         || str_in "52week" (lower (fst kv))
                         || str_in "beta" (lower (fst kv))) m in
     let valuation_kept :=
       filter (fun kv => str_in "pe" (lower (fst kv)) || str_in "pb" (lower (fst kv))
                         || str_in "ps" (lower (fst kv)) || str_in "ev" (lower (fst kv))
                         || str_in "ratio" (lower (fst kv))) m in
     let margin_kept :=
       filter (fun kv => str_in "margin" (lower (fst kv))
                         || str_in "roe" (lower (fst kv))
                         || str_in "roa" (lower (fst kv))
                         || str_in "roic" (lower (fst kv))) m in
     (fst (App.get_basic_financials g symbol "price" w)
      = Ok (Json.dumps (financials_result (strip (upper symbol)) (PyStr "price")
                          price_kept d))
      /\ fst (App.get_basic_financials g symbol "valuation" w)
         = Ok (Json.dumps (financials_result (strip (upper symbol))
                             (PyStr "valuation") valuation_kept d))
      /\ fst (App.get_basic_financials g symbol "margin" w)
         = Ok (Json.dumps (financials_result (strip (upper symbol)) (PyStr "margin")
                             margin_kept d))
      /\ fst (App.get_basic_financials g symbol other w)
         = Ok (Json.dumps (financials_result (strip (upper symbol)) (PyStr other)
                             m d)))
     /\ (category = PyStr "price" ->
         fst (Mcp.get_basic_financials gm args w)
         = Ok (Mcp.render (Mcp.Result
                 (financials_result msym (PyStr "price") price_kept d))))
     /\ (category = PyStr "valuation" ->
         fst (Mcp.get_basic_financials gm args w)
         = Ok (Mcp.render (Mcp.Result
                 (financials_result msym (PyStr "valuation") valuation_kept d))))
     /\ (category = PyStr "margin" ->
         fst (Mcp.get_basic_financials gm args w)
         = Ok (Mcp.render (Mcp.Result
                 (financials_result msym (PyStr "margin") margin_kept d))))
     /\ (eq_str category "price" = false -> eq_str category "valuation" = false ->
         eq_str category "margin" = false ->
         fst (Mcp.get_basic_financials gm args w)
         = Ok (Mcp.render (Mcp.Result (financials_result msym category m d)))))
  /\ (forall w d pe gr be roe,
        delivers w (PyDict d) ->
        assoc "metric" d
        = Some (PyDict [("peRatio", pe); ("grossMargin", gr); ("beta", be);
                        ("roeTTM", roe)]) ->
        (fst (App.get_basic_financials g symbol "valuation" w)
         = Ok (Json.dumps (financials_result (strip (upper symbol))
                             (PyStr "valuation") [("peRatio", pe)] d))
         /\ fst (App.get_basic_financials g symbol "margin" w)
            = Ok (Json.dumps (financials_result (strip (upper symbol))
                                (PyStr "margin")
                                [("grossMargin", gr); ("roeTTM", roe)] d))
         /\ fst (App.get_basic_financials g symbol "price" w)
            = Ok (Json.dumps (financials_result (strip (upper symbol))
                                (PyStr "price") [("beta", be)] d))
         /\ fst (App.get_basic_financials g symbol "all" w)
            = Ok (Json.dumps (financials_result (strip (upper symbol)) (PyStr "all")
                                [("peRatio", pe); ("grossMargin", gr); ("beta", be);
                                 ("roeTTM", roe)] d)))
        /\ (category = PyStr "valuation" ->
            fst (Mcp.get_basic_financials gm args w)
            = Ok (Mcp.render (Mcp.Result
                    (financials_result msym (PyStr "valuation") [("peRatio", pe)] d))))
        /\ (category = PyStr "margin" ->
            fst (Mcp.get_basic_financials gm args w)
            = Ok (Mcp.render (Mcp.Result
                    (financials_result msym (PyStr "margin")
                       [("grossMargin", gr); ("roeTTM", roe)] d))))
        /\ (category = PyStr "price" ->
            fst (Mcp.get_basic_financials gm args w)
            = Ok (Mcp.render (Mcp.Result
                    (financials_result msym (PyStr "price") [("beta", be)] d))))
        /\ (category = PyStr "all" ->
            fst (Mcp.get_basic_financials gm args w)
            = Ok (Mcp.render (Mcp.Result
                    (financials_result msym (PyStr "all")
                       [("peRatio", pe); ("grossMargin", gr); ("beta", be);
                        ("roeTTM", roe)] d))))).
Proof.
  intros Hkey Hsym Hs Ho category.
  assert (Ho1 : eq_str (PyStr other) "price" = false)
    by (apply eq_str_other; intros ->; apply Ho; cbn; tauto).
  assert (Ho2 : eq_str (PyStr other) "valuation" = false)
    by (apply eq_str_other; intros ->; apply Ho; cbn; tauto).
  assert (Ho3 : eq_str (PyStr other) "margin" = false)
    by (apply eq_str_other; intros ->; apply Ho; cbn; tauto).
  split.
  - intros w d m Hw Hm Hne price_kept valuation_kept margin_kept.
    destruct (metric_filter_by_category PyNone PyNone PyNone PyNone m
                (PyStr other) (PyDict m) Ho1 Ho2 Ho3)
      as (_ & Kp & Kv & Km & Kother).
    refine (conj (conj _ (conj _ (conj _ _))) (conj _ (conj _ (conj _ _)))).
    + now apply app_financials_returns with (m := m).
    + now apply app_financials_returns with (m := m).
    + now apply app_financials_returns with (m := m).
    + now apply app_financials_returns with (m := m).
    + intros Hc. rewrite <- Hc.
      apply mcp_financials_returns with (m := m); auto.
      fold category. now rewrite Hc.
    + intros Hc. rewrite <- Hc.
      apply mcp_financials_returns with (m := m); auto.
      fold category. now rewrite Hc.
    + intros Hc. rewrite <- Hc.
      apply mcp_financials_returns with (m := m); auto.
      fold category. now rewrite Hc.
    + intros H1 H2 H3.
      apply mcp_financials_returns with (m := m); auto.
      fold category. unfold filter_metrics. now rewrite H1, H2, H3.
  - intros w d pe gr be roe Hw Hm.
    assert (Hne : [("peRatio", pe); ("grossMargin", gr); ("beta", be); ("roeTTM", roe)]
                  <> []) by discriminate.
    destruct (metric_filter_by_category pe gr be roe [] PyNone PyNone
                eq_refl eq_refl eq_refl) as ((Fv & Fm & Fp & Fa) & _).
    refine (conj (conj _ (conj _ (conj _ _))) (conj _ (conj _ (conj _ _)))).
    + now apply app_financials_returns with (m := [("peRatio", pe); ("grossMargin", gr);
                                                   ("beta", be); ("roeTTM", roe)]).
    + now apply app_financials_returns with (m := [("peRatio", pe); ("grossMargin", gr);
                                                   ("beta", be); ("roeTTM", roe)]).
    + now apply app_financials_returns with (m := [("peRatio", pe); ("grossMargin", gr);
                                                   ("beta", be); ("roeTTM", roe)]).
    + now apply app_financials_returns with (m := [("peRatio", pe); ("grossMargin", gr);
                                                   ("beta", be); ("roeTTM", roe)]).
    + intros Hc. rewrite <- Hc.
      apply mcp_financials_returns
        with (m := [("peRatio", pe); ("grossMargin", gr); ("beta", be); ("roeTTM", roe)]);
        auto.
      fold category. now rewrite Hc.
    + intros Hc. rewrite <- Hc.
      apply mcp_financials_returns
        with (m := [("peRatio", pe); ("grossMargin", gr); ("beta", be); ("roeTTM", roe)]);
        auto.
      fold category. now rewrite Hc.
    + intros Hc. rewrite <- Hc.
      apply mcp_financials_returns
        with (m := [("peRatio", pe); ("grossMargin", gr); ("beta", be); ("roeTTM", roe)]);
        auto.
      fold category. now rewrite Hc.
    + intros Hc. rewrite <- Hc.
      apply mcp_financials_returns
        with (m := [("peRatio", pe); ("grossMargin", gr); ("beta", be); ("roeTTM", roe)]);
        auto.
      fold category. now rewrite Hc.
Qed.

(** The theorem on a provider answer with the four metrics: the valuation
    category through both servers, and a category the chain does not know
    through the interactive one. *)
Lemma basic_financials_filters_by_category_witness :
  configured demo_app /\ names_a_symbol "aapl"
  /\ Mcp.symbol_of valuation_args = Ok "AAPL"
  /\ ~ In "growth" ["price"; "valuation"; "margin"]
  /\ delivers (world_of noon_clock (answering (PyDict four_metrics)))
       (PyDict four_metrics)
  /\ field valuation_args "metric" (PyStr "all") = PyStr "valuation"
  /\ fst (App.get_basic_financials demo_app "aapl" "valuation"
            (world_of noon_clock (answering (PyDict four_metrics))))
     = Ok (Json.dumps (PyDict
         [("symbol", PyStr "AAPL");
          ("metric_type", PyStr "valuation");
          ("metrics", PyDict [("peRatio", PyFloat "28.4")]);
          ("series", PyDict [])]))
  /\ fst (Mcp.get_basic_financials demo_mcp valuation_args
            (world_of noon_clock (answering (PyDict four_metrics))))
     = Ok (Mcp.render (Mcp.Result (PyDict
         [("symbol", PyStr "AAPL");
          ("metric_type", PyStr "valuation");
          ("metrics", PyDict [("peRatio", PyFloat "28.4")]);
          ("series", PyDict [])])))
  /\ fst (App.get_basic_financials demo_app "aapl" "growth"
            (world_of noon_clock (answering (PyDict four_metrics))))
     = Ok (Json.dumps (PyDict
         [("symbol", PyStr "AAPL");
          ("metric_type", PyStr "growth");
          ("metrics", PyDict [("peRatio", PyFloat "28.4");
                              ("grossMargin", PyFloat "0.44");
                              ("beta", PyFloat "1.29"); ("roeTTM", PyFloat "1.47")]);
          ("series", PyDict [])])).
Proof.
  assert (Hkey : configured demo_app) by reflexivity.
  assert (Hsym : names_a_symbol "aapl") by (vm_compute; reflexivity).
  assert (Hs : Mcp.symbol_of valuation_args = Ok "AAPL") by (vm_compute; reflexivity).
  assert (Ho : ~ In "growth" ["price"; "valuation"; "margin"]).
  { cbn. intros [H|[H|[H|[]]]]; discriminate H. }
  assert (Hw : delivers (world_of noon_clock (answering (PyDict four_metrics)))
                 (PyDict four_metrics)) by (intros rq; reflexivity).
  do 5 (split; [assumption|]). split; [reflexivity|].
  destruct (basic_financials_filters_by_category demo_app demo_mcp "aapl" "AAPL"
              "growth" valuation_args Hkey Hsym Hs Ho) as [Hgen Hfour].
  destruct (Hfour _ four_metrics _ _ _ _ Hw eq_refl) as ((Hv & _) & Hmv & _).
  destruct (Hgen _ four_metrics _ Hw eq_refl ltac:(discriminate))
    as ((_ & _ & _ & Hother) & _).
  refine (conj _ (conj _ _)).
  - rewrite Hv. vm_compute. reflexivity.
  - rewrite (Hmv eq_refl). reflexivity.
  - rewrite Hother. vm_compute. reflexivity.
Defined.
